(** * vbus-lib: the VBus packet reader of [vbus.c]

    A shallow embedding of [vbus.c] (checksum, header and frame decoding,
    the resynchronising reader thread, start-up, teardown and join) and the
    properties its specification states about them.

    Conventions.  A [uint8_t] is a [byte]; its value after C's integer
    promotion is [byte.unsigned b : Z].  Wider C integers are [Z], and every
    conversion of a result back to a fixed width is written out with
    [to_uint8], [to_uint16] or [to_size_t].  A C array is a list; an index
    outside it is undefined behaviour in C and reads [x00] in the model. *)

From Stdlib Require Import String ZArith List Bool Lia.
From Stdlib Require Import Permutation.
From coqutil Require Import Byte.
Import ListNotations.
Local Open Scope Z_scope.

(** ** C integer conversions *)

Module CInt.
Definition to_uint8 (z : Z) : Z := z mod 2 ^ 8.
Definition to_uint16 (z : Z) : Z := z mod 2 ^ 16.
Definition to_size_t (z : Z) : Z := z mod 2 ^ 64.
Definition INT_MAX : Z := 2 ^ 31 - 1.
End CInt.
Import CInt.

(** ** Constants of [vbus.c] *)

Definition VBUS_SYNC : Z := 0xaa.
Definition VBUS_WIRE_HDR : Z := 9.
Definition VBUS_WIRE_FRAME : Z := 6.
Definition VBUS_FRAME_LEN : Z := 4.

(** ** [struct vbus_pkt] (vbus.h)

    [aux_data] is the flexible array member.  [malloc] does not initialise
    it: a cell is [None] until a frame has been stored in it. *)

Record vbus_pkt := mk_pkt {
  dst : Z;
  src : Z;
  cmd : Z;
  proto : Z;
  frames : Z;
  aux_data : list (option byte)
}.

(** [buffer[i]], promoted to [int]. *)
Definition rd (buffer : list byte) (i : Z) : Z :=
  byte.unsigned (nth (Z.to_nat i) buffer Byte.x00).

(** [p[n] = v] on an array; a store outside the array is dropped. *)
Fixpoint poke {A : Type} (l : list A) (n : nat) (v : A) : list A :=
  match l, n with
  | [], _ => []
  | _ :: t, O => v :: t
  | h :: t, S n' => h :: poke t n' v
  end.

(** ** [vbus_crc_ok]

    [for (int i = 0; i < len - 1; i++) sum += buffer[i];] with [sum] a
    [uint8_t]: the loop visits the first [len - 1] cells ([len - 1] computed
    in [size_t]) and every [+=] wraps to eight bits.  Then
    [sum = ~sum & 0x7f] is computed on the promoted [int] and stored back. *)

Definition crc_sum (buffer : list byte) (len : Z) : Z :=
  fold_left (fun sum b => to_uint8 (sum + byte.unsigned b))
            (firstn (Z.to_nat (to_size_t (len - 1))) buffer) 0.

Definition crc_value (buffer : list byte) (len : Z) : Z :=
  to_uint8 (Z.land (Z.lnot (crc_sum buffer len)) 0x7f).

Definition vbus_crc_ok (buffer : list byte) (len : Z) : bool :=
  if negb (crc_value buffer len =? rd buffer (len - 1)) then false else true.

(** The checksum as the specification words it: the 8-bit sum of the
    preceding bytes, bitwise-negated (as an 8-bit value), top bit cleared. *)
Definition total (bytes : list byte) : Z :=
  fold_right Z.add 0 (map byte.unsigned bytes).

Module Spec.
Definition sum8 (bytes : list byte) : Z := total bytes mod 256.
Definition negate8 (x : Z) : Z := Z.lxor x 0xff.
Definition clear_top (x : Z) : Z := Z.land x 0x7f.
Definition checksum (bytes : list byte) : Z := clear_top (negate8 (sum8 bytes)).

(** Logical byte [i] of a frame, as the specification words it:
    [wireByte[i] | (topBitSet(byte4, i) ? 0x80 : 0)]. *)
Definition logical_byte (wire : Z) (map_byte : Z) (i : Z) : Z :=
  Z.lor wire (if Z.testbit map_byte i then 0x80 else 0).
End Spec.

(** [b & 0x80], as a C condition. *)
Definition top_bit (b : byte) : bool :=
  negb (Z.land (byte.unsigned b) 0x80 =? 0).

(** ** The four stores at the end of [vbus_read_frame]

    [frame[i] = buffer[i] | (buffer[4] & m) ? 0x80 : 0;] parses, by C's
    precedence ([|] binds tighter than [?:]), as
    [frame[i] = (buffer[i] | (buffer[4] & m)) ? 0x80 : 0;]. *)
Definition frame_byte (buffer : list byte) (i : Z) (m : Z) : byte :=
  byte.of_Z (if negb (Z.lor (rd buffer i) (Z.land (rd buffer 4) m) =? 0)
             then 0x80 else 0).

Definition store_frame (buffer : list byte) (mem : list (option byte)) (off : Z)
  : list (option byte) :=
  let mem := poke mem (Z.to_nat (off + 0)) (Some (frame_byte buffer 0 1)) in
  let mem := poke mem (Z.to_nat (off + 1)) (Some (frame_byte buffer 1 2)) in
  let mem := poke mem (Z.to_nat (off + 2)) (Some (frame_byte buffer 2 4)) in
  let mem := poke mem (Z.to_nat (off + 3)) (Some (frame_byte buffer 3 8)) in
  mem.

(** ** The world the reader runs in *)

(** [struct vbus_softc].  [filter] is [true] when the function pointer is not
    NULL; the saved [termios] and the thread handle carry no information
    the properties need. *)
Record vbus_softc := mk_softc {
  fd : Z;
  do_stty : bool;
  filter : bool
}.

Inductive event :=
| EvRead (r : option byte)          (* read(fd, &ch, 1): a byte, or failure *)
| EvFilter (p : option vbus_pkt)    (* sc->filter(sc->argp, p); None is NULL *)
| EvRestoreTty (d : Z)              (* tcsetattr(fd, TCSANOW, &sc->termios) *)
| EvClose (d : Z)                   (* close(fd) *)
| EvFreeSc                          (* free(sc), sc not NULL *)
| EvOpen (fn : string)              (* open(vbus_fn, O_RDWR) *)
| EvRawTty (d : Z)                  (* tcsetattr(fd, TCSANOW, &sc->raw_termios) *)
| EvSpawn.                          (* pthread_create succeeded *)

(** [w_input]: the bytes the device still delivers, one per [read].
    [w_eof]: what the [read] after the last byte does: [None] is end of
    stream ([read] returns 0, [errno] untouched), [Some e] is a failure
    ([read] returns -1 and sets [errno] to [e]).
    [w_errno]: the thread's [errno].
    [w_heap]: the outcomes of the coming [malloc] calls of the reader
    ([true] is success); when the list is used up [malloc] succeeds.
    [w_tsd]: the value of [vbus_key] in this thread.
    [w_log]: what has happened so far, oldest first. *)
Record world := mk_world {
  w_input : list byte;
  w_eof : option Z;
  w_errno : Z;
  w_heap : list bool;
  w_tsd : option vbus_softc;
  w_log : list event
}.

Definition emit (e : event) (w : world) : world :=
  mk_world (w_input w) (w_eof w) (w_errno w) (w_heap w) (w_tsd w) (w_log w ++ [e]).

(** A computation of the reader thread either returns, or reaches
    [pthread_exit(rv)], or calls through a NULL function pointer, or (in the
    model only) runs out of fuel. *)
Inductive result (A : Type) :=
| Ok (a : A) (w : world)
| Exit (rv : Z) (w : world)
| Fault (w : world)
| OutOfFuel (w : world).
Arguments Ok {A} a w.
Arguments Exit {A} rv w.
Arguments Fault {A} w.
Arguments OutOfFuel {A} w.

Definition M (A : Type) : Type := world -> result A.

Definition ret {A : Type} (a : A) : M A := fun w => Ok a w.

Definition bind {A B : Type} (m : M A) (k : A -> M B) : M B :=
  fun w =>
    match m w with
    | Ok a w' => k a w'
    | Exit rv w' => Exit rv w'
    | Fault w' => Fault w'
    | OutOfFuel w' => OutOfFuel w'
    end.

Notation "x <- m ;; k" := (bind m (fun x => k))
  (at level 61, m at next level, right associativity).

Definition final {A : Type} (r : result A) : world :=
  match r with
  | Ok _ w | Exit _ w | Fault w | OutOfFuel w => w
  end.

(** [vbus_fini]: [pthread_exit(NULL)]. *)
Definition vbus_fini {A : Type} : M A := fun w => Exit 0 w.

(** [vbus_getc]: one [read] of one byte; anything but one byte read ends the
    thread through [vbus_fini]. *)
Definition vbus_getc (sc : vbus_softc) : M byte :=
  fun w =>
    match w_input w with
    | b :: rest =>
        Ok b (mk_world rest (w_eof w) (w_errno w) (w_heap w) (w_tsd w)
                       (w_log w ++ [EvRead (Some b)]))
    | [] =>
        let e := match w_eof w with Some e => e | None => w_errno w end in
        vbus_fini (mk_world [] (w_eof w) e (w_heap w) (w_tsd w)
                            (w_log w ++ [EvRead None]))
    end.

(** [malloc] in the reader: [true] when the result is not NULL. *)
Definition malloc (size : Z) : M bool :=
  fun w =>
    match w_heap w with
    | ok :: rest =>
        Ok ok (mk_world (w_input w) (w_eof w) (w_errno w) rest (w_tsd w) (w_log w))
    | [] => Ok true w
    end.

(** [sizeof(struct vbus_pkt)]: three [uint16_t] and two [uint8_t]. *)
Definition sizeof_vbus_pkt : Z := 8.

(** ** [vbus_parse_header]: [None] is the NULL result. *)
Definition vbus_parse_header (buffer : list byte) : M (option vbus_pkt) :=
  if negb (vbus_crc_ok buffer VBUS_WIRE_HDR) then ret None
  else
    ok <- malloc (sizeof_vbus_pkt + 4 * rd buffer 7) ;;
    if negb ok then ret None
    else
      ret (Some {|
        dst := to_uint16 (Z.lor (rd buffer 0) (Z.shiftl (to_uint16 (rd buffer 1)) 8));
        src := to_uint16 (Z.lor (rd buffer 2) (Z.shiftl (to_uint16 (rd buffer 3)) 8));
        proto := rd buffer 4;
        cmd := to_uint16 (Z.lor (rd buffer 5) (Z.shiftl (to_uint16 (rd buffer 6)) 8));
        frames := rd buffer 7;
        aux_data := repeat None (Z.to_nat (4 * rd buffer 7))
      |}).

(** The loop [for (i = 0; i < n; i++) { buffer[i] = vbus_getc(sc);
    if (buffer[i] & 0x80) <leave>; }] of [vbus_read_frame] and [vbus_thread]:
    [n] is the number of cells still to fill, [buffer] the cells filled so
    far; [None] is the early leave. *)
Fixpoint read_wire (sc : vbus_softc) (n : nat) (buffer : list byte)
  : M (option (list byte)) :=
  match n with
  | O => ret (Some buffer)
  | S n' =>
      b <- vbus_getc sc ;;
      if top_bit b then ret None else read_wire sc n' (buffer ++ [b])
  end.

(** ** [vbus_read_frame]

    [frame] points at cell [off] of the array [mem]; the result is the
    return code and the array afterwards. *)
Definition vbus_read_frame (sc : vbus_softc) (mem : list (option byte)) (off : Z)
  : M (Z * list (option byte)) :=
  r <- read_wire sc (Z.to_nat VBUS_WIRE_FRAME) [] ;;
  match r with
  | None => ret (-1, mem)
  | Some buffer =>
      if negb (vbus_crc_ok buffer VBUS_WIRE_FRAME) then ret (-1, mem)
      else ret (0, store_frame buffer mem off)
  end.

(** ** [vbus_cleanup]: what it does to [sc], in order. *)
Definition vbus_cleanup (sc : option vbus_softc) : list event :=
  match sc with
  | Some sc =>
      (if do_stty sc then [EvRestoreTty (fd sc)] else []) ++
      (if negb (fd sc =? -1) then [EvClose (fd sc)] else []) ++
      (if filter sc then [EvFilter None] else []) ++
      [EvFreeSc]
  | None => []
  end.

Definition vbus_dtor (xsc : option vbus_softc) : list event := vbus_cleanup xsc.

Definition log_all (es : list event) (w : world) : world :=
  mk_world (w_input w) (w_eof w) (w_errno w) (w_heap w) (w_tsd w) (w_log w ++ es).

(** ** [vbus_thread] *)

(** The frame loop [for (i = 0; i < pkt->frames; i++)]: [n] frames still to
    read, [i] the index of the next one; [None] is the [goto top]. *)
Fixpoint read_frames (sc : vbus_softc) (n : nat) (i : Z) (pkt : vbus_pkt)
  : M (option vbus_pkt) :=
  match n with
  | O => ret (Some pkt)
  | S n' =>
      r <- vbus_read_frame sc (aux_data pkt) (i * VBUS_FRAME_LEN) ;;
      let '(rc, mem) := r in
      if negb (rc =? 0) then ret None
      else read_frames sc n' (i + 1)
             (mk_pkt (dst pkt) (src pkt) (cmd pkt) (proto pkt) (frames pkt) mem)
  end.

(** What follows a sync byte in one pass of [while (true)]: header, frames
    and delivery.  [true] when a packet went to the filter; [false] is
    [goto top] or [continue]. *)
Definition vbus_packet (sc : vbus_softc) : M bool :=
  r <- read_wire sc (Z.to_nat VBUS_WIRE_HDR) [] ;;
  match r with
  | None => ret false
  | Some buffer =>
      p <- vbus_parse_header buffer ;;
      match p with
      | None => ret false
      | Some pkt =>
          q <- read_frames sc (Z.to_nat (frames pkt)) 0 pkt ;;
          match q with
          | None => ret false
          | Some pkt' =>
              if filter sc
              then fun w => Ok true (emit (EvFilter (Some pkt')) w)
              else fun w => Fault w
          end
      end
  end.

(** [while (true)] with its [top:] label.  [goto top], [continue], the end
    of the body and a repeat of the [do ... while (ch != VBUS_SYNC)] all lead
    to the same place, the next [vbus_getc]; one unit of fuel is one such
    [vbus_getc].  The loop has no exit but [pthread_exit]. *)
Fixpoint vbus_loop (fuel : nat) (sc : vbus_softc) : M Empty_set :=
  match fuel with
  | O => fun w => OutOfFuel w
  | S fuel' =>
      ch <- vbus_getc sc ;;
      if negb (byte.unsigned ch =? VBUS_SYNC) then vbus_loop fuel' sc
      else (_ <- vbus_packet sc ;; vbus_loop fuel' sc)
  end.

(** [pthread_setspecific(vbus_key, sc)]: its return code is taken from
    [setspecific_rc]; on success the key holds [sc]. *)
Definition pthread_setspecific (setspecific_rc : Z) (sc : vbus_softc) : M Z :=
  fun w =>
    if setspecific_rc =? 0
    then Ok 0 (mk_world (w_input w) (w_eof w) (w_errno w) (w_heap w) (Some sc) (w_log w))
    else Ok setspecific_rc w.

(** [vbus_thread] itself.  When [pthread_setspecific] fails the exit value
    is [errno] as [vbus_cleanup] leaves it.  In this model only [read] writes
    [errno] ([malloc] and the calls of the teardown do not), so on that path
    it is the value on entry; what is proved about exit values below concerns
    the path through [vbus_fini]. *)
Definition vbus_thread (fuel : nat) (setspecific_rc : Z) (sc : vbus_softc)
  : M Empty_set :=
  rc <- pthread_setspecific setspecific_rc sc ;;
  if negb (rc =? 0)
  then fun w => Exit (w_errno w) (log_all (vbus_cleanup (Some sc)) w)
  else vbus_loop fuel sc.

(** How a thread ends: [pthread_exit] runs the destructor of [vbus_key]
    ([vbus_dtor], registered in [vbus_init]) on the key's value when it is
    not NULL, and the exit value becomes available to [pthread_join]. *)
Inductive thread_state :=
| Running
| Terminated (rv : Z).

Definition pthread_exit (rv : Z) (w : world) : thread_state * world :=
  (Terminated rv,
   match w_tsd w with
   | Some sc =>
       log_all (vbus_dtor (Some sc))
         (mk_world (w_input w) (w_eof w) (w_errno w) (w_heap w) None (w_log w))
   | None => w
   end).

(** The whole life of the worker started on [sc] in world [w].  A new thread
    holds NULL for every key.  A read consumes a byte or ends the thread, so
    [S (length (w_input w))] units of fuel are enough (lemma
    [vbus_loop_exits]). *)
Definition run_worker (setspecific_rc : Z) (sc : vbus_softc) (w : world)
  : thread_state * world :=
  let w0 := mk_world (w_input w) (w_eof w) (w_errno w) (w_heap w) None (w_log w) in
  match vbus_thread (S (length (w_input w))) setspecific_rc sc w0 with
  | Exit rv w' => pthread_exit rv w'
  | Ok _ w' | Fault w' | OutOfFuel w' => (Running, w')
  end.

(** ** [vbus_join]

    [pthread_join(td, &rv)].  [join_rc] is its return code.  With 0 it has
    waited for the thread to terminate and stored the exit value in [rv]; it
    does not return while the thread runs, which is [None] here.  With
    another code (EDEADLK, EINVAL, ESRCH) it returns at once and leaves [rv]
    as it was.  The result is the return code and what was stored in [rv]. *)
Definition pthread_join (join_rc : Z) (td : thread_state) : option (Z * option Z) :=
  if join_rc =? 0 then
    match td with
    | Terminated rv => Some (0, Some rv)
    | Running => None
    end
  else Some (join_rc, None).

Definition is_free (e : event) : bool :=
  match e with EvFreeSc => true | _ => false end.

(** [free(sc)] has happened in the log. *)
Definition sc_freed (log : list event) : bool := existsb is_free log.

Inductive join_result :=
| JoinReturns (rv : Z)    (* the value [pthread_join] stored in rv *)
| JoinBlocks              (* no return *)
| JoinUninit              (* rv returned as declared, never written *)
| JoinFault.              (* sc->td read from freed memory *)

(** [vbus_join] reads the thread handle out of [*sc], calls [pthread_join]
    on it without looking at the return code, and returns [rv].  [entry] is
    the log at the moment [vbus_join] is entered: the worker frees [sc] in its
    own teardown, and once that has happened the read of [sc->td] is a read of
    freed memory.  [td] is the state the worker reaches. *)
Definition vbus_join (entry : list event) (join_rc : Z) (td : thread_state)
  : join_result :=
  if sc_freed entry then JoinFault
  else
    match pthread_join join_rc td with
    | None => JoinBlocks
    | Some (_, Some rv) => JoinReturns rv
    | Some (_, None) => JoinUninit
    end.

(** ** [vbus_init]

    The operating system as [vbus_init] sees it: the value of the global
    [vbus_key] on entry, and what each call returns. *)
Record os := mk_os {
  os_vbus_key : Z;
  os_key_create : Z;            (* pthread_key_create *)
  os_malloc : bool;             (* malloc(sizeof(struct vbus_softc)) is not NULL *)
  os_open : string -> Z;        (* open(fn, O_RDWR): a descriptor or -1 *)
  os_tcgetattr : Z -> Z;
  os_tcsetattr : Z -> Z;
  os_pthread_create : Z
}.

(** [strcmp] faults on a NULL argument; only whether the result is zero
    matters to the caller. *)
Definition strcmp (a : option string) (b : string) : option Z :=
  match a with
  | Some a => Some (if String.eqb a b then 0 else 1)
  | None => None
  end.

(** [a || b] of C: [b] is evaluated only when [a] is false. *)
Definition c_or (a : bool) (b : option bool) : option bool :=
  if a then Some true else b.

Inductive init_result :=
| InitFault (log : list event)                          (* NULL dereference *)
| InitDone (rv : option vbus_softc) (log : list event). (* rv: the cookie, or NULL *)

(** The label [err:]. *)
Definition init_err (sc : option vbus_softc) (log : list event) : init_result :=
  InitDone None (log ++ vbus_cleanup sc).

Definition vbus_init (o : os) (vbus_fn : option string) (stty : bool) (flt : bool)
  : init_result :=
  if negb (os_vbus_key o =? 0) || (os_key_create o =? 0) then
    if negb (os_malloc o) then init_err None []
    else
      (* memset clears the whole struct, then sc->filter = filter *)
      let sc := mk_softc 0 false flt in
      match c_or (match vbus_fn with Some _ => true | None => false end)
                 (option_map (fun r => negb (r =? 0)) (strcmp vbus_fn "-"%string)) with
      | None => InitFault []
      | Some do_open =>
          let opened :=
            if do_open
            then match vbus_fn with
                 | Some fn => Some (mk_softc (os_open o fn) false flt, [EvOpen fn])
                 | None => None
                 end
            else Some (sc, []) in
          match opened with
          | None => InitFault []
          | Some (sc, log) =>
              if fd sc =? -1 then init_err (Some sc) log
              else if stty then
                if negb (os_tcgetattr o (fd sc) =? 0) then init_err (Some sc) log
                else if negb (os_tcsetattr o (fd sc) =? 0) then init_err (Some sc) log
                else
                  let sc := mk_softc (fd sc) stty flt in
                  let log := log ++ [EvRawTty (fd sc)] in
                  if negb (os_pthread_create o =? 0) then init_err (Some sc) log
                  else InitDone (Some sc) (log ++ [EvSpawn])
              else
                if negb (os_pthread_create o =? 0) then init_err (Some sc) log
                else InitDone (Some sc) (log ++ [EvSpawn])
          end
      end
  else init_err None [].

(** ** Vocabulary of the properties *)

(** A wire-clean byte: its top bit is clear. *)
Definition clean (b : byte) : Prop := top_bit b = false.

(** The log of reading the bytes [bs] one by one. *)
Definition reads (bs : list byte) : list event :=
  map (fun b => EvRead (Some b)) bs.

(** From [w] the thread has read exactly [bs], successfully, and done
    nothing else that the handler or the device can see. *)
Definition reads_from (w : world) (bs : list byte) (w' : world) : Prop :=
  w_input w = bs ++ w_input w' /\
  w_log w' = w_log w ++ reads bs /\
  w_eof w' = w_eof w /\ w_errno w' = w_errno w /\ w_tsd w' = w_tsd w.

(** From [w] the thread has read all of the remaining input [bs] and then
    the [read] that fails; [errno] is what that [read] left. *)
Definition stops_from (w : world) (bs : list byte) (w' : world) : Prop :=
  w_input w = bs /\ w_input w' = [] /\
  w_log w' = w_log w ++ reads bs ++ [EvRead None] /\
  w_eof w' = w_eof w /\ w_tsd w' = w_tsd w /\
  w_errno w' = match w_eof w with Some e => e | None => w_errno w end.

(** A wire frame the frame decoder accepts. *)
Definition good_frame (f : list byte) : Prop :=
  length f = 6%nat /\ Forall clean f /\ vbus_crc_ok f VBUS_WIRE_FRAME = true.

(** A wire frame it rejects once it has read all of it or met a top bit. *)
Definition bad_frame (f : list byte) : Prop :=
  length f = 6%nat /\
  (Exists (fun b => top_bit b = true) f \/ vbus_crc_ok f VBUS_WIRE_FRAME = false).

(** A wire header the header decoder accepts. *)
Definition good_header (hdr : list byte) : Prop :=
  length hdr = 9%nat /\ Forall clean hdr /\ vbus_crc_ok hdr VBUS_WIRE_HDR = true.

(** The header fields of [p] are those of the wire header [hdr]. *)
Definition header_of (hdr : list byte) (p : vbus_pkt) : Prop :=
  dst p = Z.lor (rd hdr 0) (Z.shiftl (rd hdr 1) 8) /\
  src p = Z.lor (rd hdr 2) (Z.shiftl (rd hdr 3) 8) /\
  proto p = rd hdr 4 /\
  cmd p = Z.lor (rd hdr 5) (Z.shiftl (rd hdr 6) 8) /\
  frames p = rd hdr 7.

(** The input holds, somewhere, a sync byte, a good header and as many good
    frames as the header announces, and [p] carries that header. *)
Definition framed_in (input : list byte) (p : vbus_pkt) : Prop :=
  exists pre sync hdr fs post,
    input = pre ++ sync :: hdr ++ concat fs ++ post /\
    byte.unsigned sync = VBUS_SYNC /\
    good_header hdr /\ header_of hdr p /\
    Z.of_nat (length fs) = frames p /\ Forall good_frame fs.

Definition is_read (e : event) : bool :=
  match e with EvRead _ => true | _ => false end.

Definition is_packet (e : event) : bool :=
  match e with EvFilter (Some _) => true | _ => false end.

Definition is_sentinel (e : event) : bool :=
  match e with EvFilter None => true | _ => false end.

Definition is_device (e : event) : bool :=
  match e with EvRestoreTty _ | EvClose _ => true | _ => false end.

(** What the running loop may log: reads and packets for the handler. *)
Definition run_event (e : event) : Prop := is_read e || is_packet e = true.

(** From [w] the loop has gone on to [w'], logging [run]. *)
Definition ran (w : world) (run : list event) (w' : world) : Prop :=
  w_log w' = w_log w ++ run /\ Forall run_event run /\
  (length (w_input w') <= length (w_input w))%nat /\
  w_eof w' = w_eof w /\ w_errno w' = w_errno w /\ w_tsd w' = w_tsd w.

(** From [w] the loop has logged [run], then met the [read] that fails. *)
Definition ended (w : world) (run : list event) (w' : world) : Prop :=
  w_log w' = w_log w ++ run ++ [EvRead None] /\ Forall run_event run /\
  w_input w' = [] /\ w_eof w' = w_eof w /\ w_tsd w' = w_tsd w /\
  w_errno w' = match w_eof w with Some e => e | None => w_errno w end.

(** A log without its [read] calls. *)
Definition without_reads (log : list event) : list event :=
  List.filter (fun e => negb (is_read e)) log.

(** ** Vocabulary of the further properties *)

(** The world after the bytes [bs] have been read and [rest] is left. *)
Definition advance (bs rest : list byte) (w : world) : world :=
  mk_world rest (w_eof w) (w_errno w) (w_heap w) (w_tsd w) (w_log w ++ reads bs).

(** The world after one [malloc] of the reader. *)
Definition pop_heap (w : world) : world :=
  mk_world (w_input w) (w_eof w) (w_errno w) (tl (w_heap w)) (w_tsd w) (w_log w).

(** The four bytes [vbus_read_frame] stores for the wire frame [f]. *)
Definition decode_frame (f : list byte) : list byte :=
  [frame_byte f 0 1; frame_byte f 1 2; frame_byte f 2 4; frame_byte f 3 8].

(** The packet the reader builds from the wire header [hdr] and the wire
    frames [fs]. *)
Definition packet_of (hdr : list byte) (fs : list (list byte)) : vbus_pkt :=
  mk_pkt (Z.lor (rd hdr 0) (Z.shiftl (rd hdr 1) 8))
         (Z.lor (rd hdr 2) (Z.shiftl (rd hdr 3) 8))
         (Z.lor (rd hdr 5) (Z.shiftl (rd hdr 6) 8))
         (rd hdr 4)
         (rd hdr 7)
         (map Some (concat (map decode_frame fs))).

(** The bytes that the [read] calls of a log returned, in order. *)
Definition bytes_read (log : list event) : list byte :=
  flat_map (fun e => match e with EvRead (Some b) => [b] | _ => [] end) log.

(** A byte that is not the sync byte. *)
Definition not_sync (b : byte) : Prop := byte.unsigned b <> VBUS_SYNC.

(** All of the payload of [p] has been stored, it is four bytes per frame,
    and every byte of it is 0x00 or 0x80. *)
Definition whole_payload (p : vbus_pkt) : Prop :=
  exists payload,
    aux_data p = map Some payload /\
    Z.of_nat (length payload) = 4 * frames p /\
    Forall (fun b => b = Byte.x00 \/ b = Byte.x80) payload.

(** The header fields of [p] come from wire-clean bytes. *)
Definition clean_fields (p : vbus_pkt) : Prop :=
  0 <= frames p < 128 /\ 0 <= proto p < 128 /\
  0 <= dst p < 2 ^ 15 /\ 0 <= src p < 2 ^ 15 /\ 0 <= cmd p < 2 ^ 15 /\
  Z.testbit (dst p) 7 = false /\ Z.testbit (src p) 7 = false /\
  Z.testbit (cmd p) 7 = false.

(** * Properties *)

(** ** Two runs of the worker

    A packet of one frame on an otherwise silent line; and the same packet
    after a header that is cut short by a second sync byte, which is consumed
    without being taken as a new start. *)

Example run_one_packet :
  let pkt_bytes :=
    [Byte.xaa; Byte.x10; Byte.x00; Byte.x15; Byte.x7e; Byte.x10; Byte.x00; Byte.x01;
     Byte.x01; Byte.x4a;
     Byte.x01; Byte.x00; Byte.x00; Byte.x00; Byte.x02; Byte.x7c] in
  let r := run_worker 0 (mk_softc 3 false true)
                      (mk_world pkt_bytes None 0 [] None []) in
  fst r = Terminated 0 /\
  without_reads (w_log (snd r))
  = [EvFilter (Some (mk_pkt 0x0010 0x7e15 0x0100 0x10 1
                            [Some Byte.x80; Some Byte.x80; Some Byte.x00; Some Byte.x00]));
     EvClose 3; EvFilter None; EvFreeSc].
Proof. vm_compute. split; reflexivity. Qed.

Example run_resynchronises :
  let pkt_bytes :=
    [Byte.xaa; Byte.x10; Byte.xaa; Byte.x00;
     Byte.xaa; Byte.x10; Byte.x00; Byte.x15; Byte.x7e; Byte.x10; Byte.x00; Byte.x01;
     Byte.x01; Byte.x4a;
     Byte.x01; Byte.x00; Byte.x00; Byte.x00; Byte.x02; Byte.x7c] in
  let r := run_worker 0 (mk_softc 3 false true)
                      (mk_world pkt_bytes None 0 [] None []) in
  without_reads (w_log (snd r))
  = [EvFilter (Some (mk_pkt 0x0010 0x7e15 0x0100 0x10 1
                            [Some Byte.x80; Some Byte.x80; Some Byte.x00; Some Byte.x00]));
     EvClose 3; EvFilter None; EvFreeSc].
Proof. vm_compute. reflexivity. Qed.

(** ** Bytes and bit arithmetic *)

Section BitFacts.

Lemma byte_range (b : byte) : 0 <= byte.unsigned b < 256.
Proof. exact (byte.unsigned_range b). Qed.

Lemma to_uint8_small (z : Z) : 0 <= z < 256 -> to_uint8 z = z.
Proof. intros H. unfold to_uint8. apply Z.mod_small. exact H. Qed.

Lemma land_7f_mod (z : Z) : Z.land z 0x7f = z mod 128.
Proof. change 0x7f with (Z.ones 7). rewrite Z.land_ones by lia. reflexivity. Qed.

Lemma land_pow2 (z i : Z) :
  0 <= i -> Z.land z (2 ^ i) = if Z.testbit z i then 2 ^ i else 0.
Proof.
  intros Hi. apply Z.bits_inj'. intros n Hn. rewrite Z.land_spec.
  rewrite Z.pow2_bits_eqb by lia.
  destruct (Z.eqb_spec i n) as [<- | Hne].
  - rewrite andb_true_r. destruct (Z.testbit z i).
    + rewrite Z.pow2_bits_true by lia. reflexivity.
    + rewrite Z.bits_0. reflexivity.
  - rewrite andb_false_r. destruct (Z.testbit z i).
    + rewrite Z.pow2_bits_false by lia. reflexivity.
    + rewrite Z.bits_0. reflexivity.
Qed.

Lemma land_80_zero_iff (z : Z) : 0 <= z < 256 -> (Z.land z 0x80 = 0 <-> z < 128).
Proof.
  intros Hz. change 0x80 with (2 ^ 7). rewrite land_pow2 by lia.
  rewrite Z.testbit_eqb by lia. change (2 ^ 7) with 128.
  assert (Hq : z / 128 = 0 \/ z / 128 = 1).
  { assert (0 <= z / 128 < 2) by (split; [apply Z.div_pos | apply Z.div_lt_upper_bound]; lia).
    lia. }
  destruct Hq as [Hq | Hq]; rewrite Hq; cbn.
  - split; [intros _ | reflexivity]. apply Z.div_small_iff in Hq; lia.
  - split; [discriminate |]. intros Hlt. rewrite Z.div_small in Hq by lia. discriminate.
Qed.

(** [~s & 0x7f] on the promoted [int]. *)
Lemma lnot_land_7f (s : Z) : Z.land (Z.lnot s) 0x7f = 127 - s mod 128.
Proof.
  rewrite land_7f_mod. unfold Z.lnot. 
  symmetry. apply (Z.mod_unique _ _ (- (s / 128) - 1)).
  - left. pose proof (Z.mod_pos_bound s 128). lia.
  - pose proof (Z.div_mod s 128). lia.
Qed.

(** The 8-bit complement followed by the same mask gives the same value. *)
Lemma lxor_ff_land_7f (s : Z) : Z.land (Z.lxor s 0xff) 0x7f = Z.land (Z.lnot s) 0x7f.
Proof.
  apply Z.bits_inj'. intros n Hn. rewrite !Z.land_spec, Z.lxor_spec, Z.lnot_spec by lia.
  change 0x7f with (Z.ones 7). change 0xff with (Z.ones 8).
  rewrite !Z.testbit_ones_nonneg by lia.
  destruct (Z.ltb_spec n 7) as [H7 | H7].
  - assert (H8 : (n <? 8) = true) by (apply Z.ltb_lt; lia). rewrite H8.
    rewrite xorb_true_r. reflexivity.
  - rewrite !andb_false_r. reflexivity.
Qed.

Lemma lor_bytes_16 (a b : Z) :
  0 <= a < 256 -> 0 <= b < 256 ->
  to_uint16 (Z.lor a (Z.shiftl (to_uint16 b) 8)) = Z.lor a (Z.shiftl b 8).
Proof.
  intros Ha Hb. unfold to_uint16. rewrite (Z.mod_small b) by lia.
  apply Z.mod_small. rewrite Z.shiftl_mul_pow2 by lia. change (2 ^ 8) with 256.
  split.
  - apply Z.lor_nonneg. lia.
  - destruct (Z.eq_dec (Z.lor a (b * 256)) 0) as [E0 | Hne]; [rewrite E0; lia |].
    assert (Hpos : 0 < Z.lor a (b * 256)).
    { assert (0 <= Z.lor a (b * 256)) by (apply Z.lor_nonneg; lia). lia. }
    apply Z.log2_lt_pow2; [exact Hpos |].
    rewrite Z.log2_lor by lia.
    apply Z.max_lub_lt.
    + destruct (Z.eq_dec a 0) as [-> | Ha0]; [cbn; lia |].
      apply Z.log2_lt_pow2; lia.
    + destruct (Z.eq_dec b 0) as [-> | Hb0]; [cbn; lia |].
      apply Z.log2_lt_pow2; lia.
Qed.

End BitFacts.

(** ** The checksum *)

Section Checksum.

Lemma crc_fold (l : list byte) (a : Z) :
  fold_left (fun sum b => to_uint8 (sum + byte.unsigned b)) l (a mod 256)
  = (a + total l) mod 256.
Proof.
  revert a. induction l as [| b l IH]; intros a; cbn [fold_left total map fold_right].
  - rewrite Z.add_0_r. reflexivity.
  - unfold to_uint8. change (2 ^ 8) with 256.
    rewrite Zplus_mod_idemp_l, IH. f_equal. unfold total. lia.
Qed.

Lemma crc_sum_firstn (buffer : list byte) (len : Z) :
  crc_sum buffer len
  = Spec.sum8 (firstn (Z.to_nat (to_size_t (len - 1))) buffer).
Proof.
  unfold crc_sum, Spec.sum8. change 0 with (0 mod 256) at 1.
  rewrite crc_fold. reflexivity.
Qed.

Lemma crc_value_arith (buffer : list byte) (len : Z) :
  crc_value buffer len = 127 - crc_sum buffer len mod 128.
Proof.
  unfold crc_value. rewrite lnot_land_7f.
  apply to_uint8_small. pose proof (Z.mod_pos_bound (crc_sum buffer len) 128). lia.
Qed.

Lemma crc_value_spec (buffer : list byte) (len : Z) :
  crc_value buffer len
  = Spec.checksum (firstn (Z.to_nat (to_size_t (len - 1))) buffer).
Proof.
  rewrite crc_value_arith. unfold Spec.checksum, Spec.clear_top, Spec.negate8.
  rewrite lxor_ff_land_7f, lnot_land_7f, crc_sum_firstn. reflexivity.
Qed.

Lemma vbus_crc_ok_true (buffer : list byte) (len : Z) :
  vbus_crc_ok buffer len = true <-> rd buffer (len - 1) = crc_value buffer len.
Proof.
  unfold vbus_crc_ok.
  destruct (Z.eqb_spec (crc_value buffer len) (rd buffer (len - 1))) as [E | E]; cbn.
  - split; [intros _; symmetry; exact E | reflexivity].
  - split; [discriminate | intros H; symmetry in H; contradiction].
Qed.

(** A span of [n >= 1] bytes is [body ++ [c]]; with [len] its length, the
    loop runs over [body] and the compared cell is [c]. *)
Lemma span_prefix (body : list byte) (c : byte) :
  Z.of_nat (length (body ++ [c])) <= INT_MAX ->
  firstn (Z.to_nat (to_size_t (Z.of_nat (length (body ++ [c])) - 1))) (body ++ [c])
  = body.
Proof.
  intros Hlen. rewrite length_app in *. cbn [length] in *. unfold INT_MAX in Hlen.
  unfold to_size_t. rewrite Z.mod_small by lia.
  replace (Z.to_nat (Z.of_nat (length body + 1) - 1)) with (length body + 0)%nat by lia.
  rewrite firstn_app_2. cbn. apply app_nil_r.
Qed.

Lemma span_last (body : list byte) (c : byte) :
  rd (body ++ [c]) (Z.of_nat (length (body ++ [c])) - 1) = byte.unsigned c.
Proof.
  unfold rd. rewrite length_app. cbn [length].
  replace (Z.to_nat (Z.of_nat (length body + 1) - 1)) with (length body) by lia.
  rewrite nth_middle. reflexivity.
Qed.

Lemma checksum_top_clear (bytes : list byte) : 0 <= Spec.checksum bytes < 128.
Proof.
  unfold Spec.checksum, Spec.clear_top. rewrite land_7f_mod.
  apply Z.mod_pos_bound. lia.
Qed.

Lemma vbus_crc_ok_span (body : list byte) (c : byte) :
  Z.of_nat (length (body ++ [c])) <= INT_MAX ->
  (vbus_crc_ok (body ++ [c]) (Z.of_nat (length (body ++ [c]))) = true
   <-> byte.unsigned c = Spec.checksum body).
Proof.
  intros Hlen. rewrite vbus_crc_ok_true, span_last, crc_value_spec, span_prefix by exact Hlen.
  reflexivity.
Qed.

(** Every list of [S n] cells splits into its body and its last cell. *)
Lemma split_last (l : list byte) :
  l <> [] -> exists body c, l = body ++ [c].
Proof.
  intros Hne. destruct (exists_last Hne) as [body [c E]]. exists body, c. exact E.
Qed.

End Checksum.

(** ** The reader, call by call *)

Section Reader.

Variable sc : vbus_softc.

Lemma reads_app (a b : list byte) : reads (a ++ b) = reads a ++ reads b.
Proof. apply map_app. Qed.

Lemma reads_from_refl (w : world) : reads_from w [] w.
Proof. unfold reads_from. cbn. rewrite app_nil_r. auto. Qed.

Lemma reads_from_trans (w w1 w2 : world) (a b : list byte) :
  reads_from w a w1 -> reads_from w1 b w2 -> reads_from w (a ++ b) w2.
Proof.
  intros (I1 & L1 & E1 & N1 & T1) (I2 & L2 & E2 & N2 & T2).
  unfold reads_from. rewrite I1, I2, L2, L1, reads_app, <- !app_assoc.
  repeat split; congruence.
Qed.

Lemma reads_stops_trans (w w1 w2 : world) (a b : list byte) :
  reads_from w a w1 -> stops_from w1 b w2 -> stops_from w (a ++ b) w2.
Proof.
  intros (I1 & L1 & E1 & N1 & T1) (I2 & I3 & L2 & E2 & T2 & N2).
  unfold stops_from. rewrite I1, I2, L2, L1, reads_app, <- !app_assoc.
  repeat split; try congruence. rewrite N2, E1, N1. reflexivity.
Qed.

(** [vbus_getc] takes the next byte, or ends the thread with NULL. *)
Lemma vbus_getc_spec (w : world) :
  match vbus_getc sc w with
  | Ok b w' => reads_from w [b] w'
  | Exit rv w' => rv = 0 /\ stops_from w [] w'
  | Fault _ | OutOfFuel _ => False
  end.
Proof.
  unfold vbus_getc, vbus_fini. destruct (w_input w) as [| b rest] eqn:E.
  - split; [reflexivity |]. unfold stops_from. cbn. auto 10.
  - unfold reads_from. cbn. auto 10.
Qed.

Lemma read_wire_spec (n : nat) (acc : list byte) (w : world) :
  match read_wire sc n acc w with
  | Ok (Some buffer) w' =>
      exists bs, buffer = acc ++ bs /\ length bs = n /\ Forall clean bs /\
                 reads_from w bs w' /\ w_heap w' = w_heap w
  | Ok None w' =>
      exists bs b, (length bs < n)%nat /\ Forall clean bs /\ top_bit b = true /\
                   reads_from w (bs ++ [b]) w' /\ w_heap w' = w_heap w
  | Exit rv w' =>
      rv = 0 /\ (length (w_input w) < n)%nat /\ stops_from w (w_input w) w'
  | Fault _ | OutOfFuel _ => False
  end.
Proof.
  revert acc w. induction n as [| n IH]; intros acc w; cbn [read_wire].
  - unfold ret. exists []. rewrite app_nil_r. auto using reads_from_refl.
  - unfold bind. pose proof (vbus_getc_spec w) as G.
    assert (Hh : match vbus_getc sc w with
                 | Ok _ w' => w_heap w' = w_heap w | _ => True end).
    { unfold vbus_getc, vbus_fini. destruct (w_input w); reflexivity. }
    destruct (vbus_getc sc w) as [b w1 | rv w1 | w1 | w1]; try contradiction.
    + destruct (top_bit b) eqn:Tb.
      * unfold ret. exists [], b. cbn [app length].
        split; [lia | split; [constructor | split; [exact Tb | split; [exact G | exact Hh]]]].
      * specialize (IH (acc ++ [b]) w1).
        destruct (read_wire sc n (acc ++ [b]) w1) as [[buffer |] w2 | rv w2 | w2 | w2];
          try contradiction.
        -- destruct IH as (bs & -> & Hl & Hc & Hr & Hp).
           exists (b :: bs). rewrite <- app_assoc. cbn [app length].
           split; [reflexivity | split; [congruence | split; [constructor; assumption |]]].
           split; [| congruence].
           apply (reads_from_trans w w1 w2 [b] bs); assumption.
        -- destruct IH as (bs & b' & Hl & Hc & Ht & Hr & Hp).
           exists (b :: bs), b'. cbn [app length].
           split; [lia | split; [constructor; assumption | split; [exact Ht |]]].
           split; [| congruence].
           apply (reads_from_trans w w1 w2 [b] (bs ++ [b'])); assumption.
        -- destruct IH as (-> & Hl & Hs). split; [reflexivity |].
           pose proof G as (Gi & _). rewrite Gi. cbn [app length]. split; [lia |].
           apply (reads_stops_trans w w1 w2 [b] (w_input w1)); assumption.
    + destruct G as (-> & Hs). pose proof Hs as (Hi & _). rewrite Hi. cbn [length].
      split; [reflexivity | split; [lia | exact Hs]].
Qed.

Lemma vbus_read_frame_spec (mem : list (option byte)) (off : Z) (w : world) :
  match vbus_read_frame sc mem off w with
  | Ok (rc, mem') w' =>
      exists bs, reads_from w bs w' /\ w_heap w' = w_heap w /\
        ((rc = 0 /\ good_frame bs /\ mem' = store_frame bs mem off) \/
         (rc = -1 /\ mem' = mem))
  | Exit rv w' =>
      rv = 0 /\ (length (w_input w) < 6)%nat /\ stops_from w (w_input w) w'
  | Fault _ | OutOfFuel _ => False
  end.
Proof.
  unfold vbus_read_frame, bind.
  pose proof (read_wire_spec (Z.to_nat VBUS_WIRE_FRAME) [] w) as R.
  destruct (read_wire sc (Z.to_nat VBUS_WIRE_FRAME) [] w)
    as [[buffer |] w1 | rv w1 | w1 | w1]; try contradiction.
  - destruct R as (bs & -> & Hl & Hc & Hr & Hp). cbn [app].
    destruct (vbus_crc_ok bs VBUS_WIRE_FRAME) eqn:Crc; cbn [negb]; unfold ret;
      exists bs; (split; [exact Hr | split; [exact Hp |]]).
    + left. split; [reflexivity | split; [| reflexivity]].
      split; [exact Hl | split; [exact Hc | exact Crc]].
    + right. split; reflexivity.
  - destruct R as (bs & b & Hl & Hc & Ht & Hr & Hp). unfold ret.
    exists (bs ++ [b]). split; [exact Hr | split; [exact Hp |]].
    right. split; reflexivity.
  - exact R.
Qed.

Lemma malloc_spec (size : Z) (w : world) :
  exists ok w', malloc size w = Ok ok w' /\ reads_from w [] w' /\
                ok = hd true (w_heap w).
Proof.
  unfold malloc. destruct (w_heap w) as [| ok rest] eqn:E.
  - exists true, w. split; [reflexivity | split; [apply reads_from_refl | reflexivity]].
  - eexists ok, _. split; [reflexivity | split; [| reflexivity]].
    unfold reads_from. cbn. rewrite app_nil_r. auto.
Qed.

Lemma vbus_parse_header_spec (buffer : list byte) (w : world) :
  match vbus_parse_header buffer w with
  | Ok (Some p) w' =>
      vbus_crc_ok buffer VBUS_WIRE_HDR = true /\ hd true (w_heap w) = true /\
      header_of buffer p /\
      aux_data p = repeat None (Z.to_nat (4 * rd buffer 7)) /\
      reads_from w [] w'
  | Ok None w' =>
      (vbus_crc_ok buffer VBUS_WIRE_HDR = false \/ hd true (w_heap w) = false) /\
      reads_from w [] w'
  | Exit _ _ | Fault _ | OutOfFuel _ => False
  end.
Proof.
  unfold vbus_parse_header.
  destruct (vbus_crc_ok buffer VBUS_WIRE_HDR) eqn:Crc; cbn [negb].
  - unfold bind.
    destruct (malloc_spec (sizeof_vbus_pkt + 4 * rd buffer 7) w) as (ok & w' & -> & Hr & Hok).
    destruct ok; cbn [negb]; unfold ret.
    + split; [reflexivity | split; [auto |]].
      split; [| split; [reflexivity | exact Hr]].
      unfold header_of, rd. cbn [dst src proto cmd frames].
      rewrite !lor_bytes_16 by apply byte_range. auto.
    + split; [right; auto | exact Hr].
  - unfold ret. split; [left; reflexivity | apply reads_from_refl].
Qed.

Lemma read_frames_spec (n : nat) (i : Z) (pkt : vbus_pkt) (w : world) :
  match read_frames sc n i pkt w with
  | Ok (Some p) w' =>
      exists fs, length fs = n /\ Forall good_frame fs /\
                 reads_from w (concat fs) w' /\
                 (forall hdr, header_of hdr pkt -> header_of hdr p)
  | Ok None w' => exists bs, reads_from w bs w'
  | Exit rv w' => rv = 0 /\ stops_from w (w_input w) w'
  | Fault _ | OutOfFuel _ => False
  end.
Proof.
  revert i pkt w. induction n as [| n IH]; intros i pkt w; cbn [read_frames].
  - unfold ret. exists []. cbn [length concat].
    split; [reflexivity | split; [constructor | split; [apply reads_from_refl | auto]]].
  - unfold bind.
    pose proof (vbus_read_frame_spec (aux_data pkt) (i * VBUS_FRAME_LEN) w) as F.
    destruct (vbus_read_frame sc (aux_data pkt) (i * VBUS_FRAME_LEN) w)
      as [[rc mem] w1 | rv w1 | w1 | w1]; try contradiction.
    + destruct F as (bs & Hr & Hp & [(-> & Hg & ->) | (-> & ->)]); cbn [Z.eqb negb].
      * match goal with |- context [read_frames sc n ?j ?q w1] =>
          specialize (IH j q w1); destruct (read_frames sc n j q w1)
            as [[p |] w2 | rv w2 | w2 | w2] end; try contradiction.
        -- destruct IH as (fs & Hl & Hf & Hr2 & Hh).
           exists (bs :: fs). cbn [length concat].
           split; [congruence | split; [constructor; assumption |]].
           split; [apply (reads_from_trans w w1 w2); assumption |].
           intros hdr Hhdr. apply Hh. exact Hhdr.
        -- destruct IH as (bs2 & Hr2). exists (bs ++ bs2).
           apply (reads_from_trans w w1 w2); assumption.
        -- destruct IH as (-> & Hs). split; [reflexivity |].
           pose proof Hr as (Hi & _). rewrite Hi.
           apply (reads_stops_trans w w1 w2); assumption.
      * unfold ret. exists bs. exact Hr.
    + destruct F as (-> & _ & Hs). split; [reflexivity | exact Hs].
Qed.

Lemma vbus_packet_spec (w : world) :
  match vbus_packet sc w with
  | Ok true w' =>
      filter sc = true /\
      exists hdr fs p w1,
        good_header hdr /\ header_of hdr p /\
        Z.of_nat (length fs) = frames p /\ Forall good_frame fs /\
        reads_from w (hdr ++ concat fs) w1 /\
        w' = emit (EvFilter (Some p)) w1
  | Ok false w' => exists bs, reads_from w bs w'
  | Exit rv w' => rv = 0 /\ stops_from w (w_input w) w'
  | Fault w' => filter sc = false /\ exists bs, reads_from w bs w'
  | OutOfFuel _ => False
  end.
Proof.
  unfold vbus_packet, bind.
  pose proof (read_wire_spec (Z.to_nat VBUS_WIRE_HDR) [] w) as R.
  destruct (read_wire sc (Z.to_nat VBUS_WIRE_HDR) [] w)
    as [[buffer |] w1 | rv w1 | w1 | w1]; try contradiction.
  - destruct R as (hdr & -> & Hl & Hc & Hr & _). cbn [app].
    pose proof (vbus_parse_header_spec hdr w1) as P.
    destruct (vbus_parse_header hdr w1) as [[pkt |] w2 | rv w2 | w2 | w2];
      try contradiction.
    + destruct P as (Crc & _ & Hh & _ & Hr2).
      pose proof (read_frames_spec (Z.to_nat (frames pkt)) 0 pkt w2) as F.
      destruct (read_frames sc (Z.to_nat (frames pkt)) 0 pkt w2)
        as [[p |] w3 | rv w3 | w3 | w3]; try contradiction.
      * destruct F as (fs & Hlf & Hf & Hr3 & Hsame).
        assert (Hr13 : reads_from w (hdr ++ concat fs) w3).
        { apply (reads_from_trans w w1 w3); [exact Hr |].
          apply (reads_from_trans w1 w2 w3 [] (concat fs)); assumption. }
        destruct (filter sc) eqn:Flt;
          [| split; [reflexivity | exists (hdr ++ concat fs); exact Hr13]].
        split; [reflexivity |]. exists hdr, fs, p, w3.
        split; [split; [exact Hl | split; [exact Hc | exact Crc]] |].
        split; [apply Hsame; exact Hh |].
        split.
        { destruct (Hsame hdr Hh) as (_ & _ & _ & _ & Hfr).
          destruct Hh as (_ & _ & _ & _ & Hfr0).
          rewrite Hlf, Hfr, <- Hfr0. apply Z2Nat.id.
          rewrite Hfr0. unfold rd. apply byte_range. }
        split; [exact Hf |]. split; [exact Hr13 | reflexivity].
      * unfold ret. destruct F as (bs & Hr3). exists (hdr ++ bs).
        apply (reads_from_trans w w1 w3); [exact Hr |].
        apply (reads_from_trans w1 w2 w3 []); assumption.
      * destruct F as (-> & Hs). split; [reflexivity |].
        pose proof Hr as (Hi & _). rewrite Hi.
        apply (reads_stops_trans w w1 w3); [exact Hr |].
        pose proof Hr2 as (Hi2 & _). cbn [app] in Hi2. rewrite Hi2.
        apply (reads_stops_trans w1 w2 w3 []); assumption.
    + unfold ret. destruct P as (_ & Hr2). exists hdr.
      rewrite <- (app_nil_r hdr).
      apply (reads_from_trans w w1 w2); assumption.
  - unfold ret. destruct R as (bs & b & _ & _ & _ & Hr & _).
    exists (bs ++ [b]). exact Hr.
  - destruct R as (-> & _ & Hs). split; [reflexivity | exact Hs].
Qed.

End Reader.

(** ** The reader loop *)

Section Worker.

Variable sc : vbus_softc.

Lemma reads_no_filter (bs : list byte) (x : option vbus_pkt) :
  ~ In (EvFilter x) (reads bs).
Proof.
  unfold reads. intros H. apply in_map_iff in H. destruct H as (b & E & _). discriminate.
Qed.

Lemma reads_from_filter (w w' : world) (bs : list byte) (x : option vbus_pkt) :
  reads_from w bs w' -> In (EvFilter x) (w_log w') -> In (EvFilter x) (w_log w).
Proof.
  intros (_ & L & _) H. rewrite L in H. apply in_app_or in H.
  destruct H as [H | H]; [exact H | exfalso; exact (reads_no_filter _ _ H)].
Qed.

Lemma stops_from_filter (w w' : world) (bs : list byte) (x : option vbus_pkt) :
  stops_from w bs w' -> In (EvFilter x) (w_log w') -> In (EvFilter x) (w_log w).
Proof.
  intros (_ & _ & L & _) H. rewrite L in H. apply in_app_or in H.
  destruct H as [H | H]; [exact H | exfalso].
  apply in_app_or in H. destruct H as [H | H]; [exact (reads_no_filter _ _ H) |].
  destruct H as [H | []]. discriminate.
Qed.

Lemma framed_in_skip (bs input : list byte) (p : vbus_pkt) :
  framed_in input p -> framed_in (bs ++ input) p.
Proof.
  intros (pre & sync & hdr & fs & post & -> & Hrest).
  exists (bs ++ pre), sync, hdr, fs, post. rewrite <- app_assoc. split; [reflexivity | exact Hrest].
Qed.

(** Whatever the loop has passed to the handler by the time it stops was
    framed in its input. *)
Lemma vbus_loop_sound (fuel : nat) (w : world) (p : vbus_pkt) :
  In (EvFilter (Some p)) (w_log (final (vbus_loop fuel sc w))) ->
  In (EvFilter (Some p)) (w_log w) \/ framed_in (w_input w) p.
Proof.
  revert w. induction fuel as [| fuel IH]; intros w; cbn [vbus_loop].
  - cbn [final]. auto.
  - unfold bind. pose proof (vbus_getc_spec sc w) as G.
    destruct (vbus_getc sc w) as [ch w1 | rv w1 | w1 | w1]; try contradiction.
    + pose proof G as (Gi & _). cbn [app] in Gi.
      destruct (byte.unsigned ch =? VBUS_SYNC) eqn:Sync; cbn [negb].
      * apply Z.eqb_eq in Sync. pose proof (vbus_packet_spec sc w1) as P.
        destruct (vbus_packet sc w1) as [[|] w2 | rv w2 | w2 | w2]; try contradiction.
        -- destruct P as (_ & hdr & fs & q & w1' & Hh & Hq & Hn & Hf & Hr & ->).
           intros H. apply IH in H. pose proof Hr as (Ri & _).
           destruct H as [H | H].
           ++ cbn [emit w_log] in H. apply in_app_or in H. destruct H as [H | H].
              ** left. eapply reads_from_filter; [exact G |].
                 eapply reads_from_filter; [exact Hr | exact H].
              ** destruct H as [H | []]. injection H as <-. right.
                 exists [], ch, hdr, fs, (w_input w1'). cbn [app].
                 rewrite Gi, Ri, <- app_assoc. auto 10.
           ++ right. cbn [emit w_input] in H. rewrite Gi, Ri.
              apply (framed_in_skip (ch :: hdr ++ concat fs)) in H. exact H.
        -- destruct P as (bs & Hr). intros H. apply IH in H. pose proof Hr as (Ri & _).
           destruct H as [H | H].
           ++ left. eapply reads_from_filter; [exact G |].
              eapply reads_from_filter; [exact Hr | exact H].
           ++ right. rewrite Gi, Ri. apply (framed_in_skip (ch :: bs)). exact H.
        -- destruct P as (_ & Hs). cbn [final]. intros H. left.
           eapply reads_from_filter; [exact G |].
           eapply stops_from_filter; [exact Hs | exact H].
        -- destruct P as (_ & bs & Hr). cbn [final]. intros H. left.
           eapply reads_from_filter; [exact G |].
           eapply reads_from_filter; [exact Hr | exact H].
      * intros H. apply IH in H. destruct H as [H | H].
        -- left. eapply reads_from_filter; [exact G | exact H].
        -- right. rewrite Gi. apply (framed_in_skip [ch]). exact H.
    + destruct G as (_ & Hs). cbn [final]. intros H. left.
      eapply stops_from_filter; [exact Hs | exact H].
Qed.

Lemma reads_run (bs : list byte) : Forall run_event (reads bs).
Proof. unfold reads. apply Forall_map. apply Forall_forall. intros b _. reflexivity. Qed.

Lemma reads_from_ran (w w' : world) (bs : list byte) :
  reads_from w bs w' -> ran w (reads bs) w'.
Proof.
  intros (I & L & E & N & T). unfold ran.
  split; [exact L | split; [apply reads_run |]].
  split; [rewrite I, length_app; lia | auto].
Qed.

Lemma stops_from_ended (w w' : world) (bs : list byte) :
  stops_from w bs w' -> ended w (reads bs) w'.
Proof.
  intros (I & I' & L & E & T & N). unfold ended.
  split; [exact L | split; [apply reads_run | auto]].
Qed.

Lemma emit_ran (w : world) (p : vbus_pkt) :
  ran w [EvFilter (Some p)] (emit (EvFilter (Some p)) w).
Proof.
  unfold ran. cbn. split; [reflexivity |].
  split; [constructor; [reflexivity | constructor] | auto].
Qed.

Lemma ran_trans (w w1 w2 : world) (a b : list event) :
  ran w a w1 -> ran w1 b w2 -> ran w (a ++ b) w2.
Proof.
  intros (L1 & F1 & I1 & E1 & N1 & T1) (L2 & F2 & I2 & E2 & N2 & T2). unfold ran.
  split; [rewrite L2, L1, app_assoc; reflexivity |].
  split; [apply Forall_app; auto |].
  split; [lia |]. repeat split; congruence.
Qed.

Lemma ran_ended (w w1 w2 : world) (a b : list event) :
  ran w a w1 -> ended w1 b w2 -> ended w (a ++ b) w2.
Proof.
  intros (L1 & F1 & I1 & E1 & N1 & T1) (L2 & F2 & I2 & E2 & T2 & N2). unfold ended.
  split; [rewrite L2, L1, <- !app_assoc; reflexivity |].
  split; [apply Forall_app; auto |].
  split; [exact I2 |]. split; [congruence |]. split; [congruence |].
  rewrite N2, E1, N1. reflexivity.
Qed.

(** With a handler installed and one unit of fuel per byte of input and
    one more, the loop ends in [vbus_fini]: exit value NULL. *)
Lemma vbus_loop_exits (fuel : nat) (w : world) :
  filter sc = true ->
  (length (w_input w) < fuel)%nat ->
  exists w' run, vbus_loop fuel sc w = Exit 0 w' /\ ended w run w'.
Proof.
  intros Flt. revert w. induction fuel as [| fuel IH]; intros w Hlen; [lia |].
  cbn [vbus_loop]. unfold bind. pose proof (vbus_getc_spec sc w) as G.
  destruct (vbus_getc sc w) as [ch w1 | rv w1 | w1 | w1]; try contradiction.
  - assert (Hlt : (length (w_input w1) < fuel)%nat).
    { destruct G as (Gi & _). rewrite Gi in Hlen. cbn [app length] in Hlen. lia. }
    apply reads_from_ran in G.
    destruct (byte.unsigned ch =? VBUS_SYNC); cbn [negb].
    + pose proof (vbus_packet_spec sc w1) as P.
      destruct (vbus_packet sc w1) as [[|] w2 | rv w2 | w2 | w2]; try contradiction.
      * destruct P as (_ & hdr & fs & q & w1' & _ & _ & _ & _ & Hr & ->).
        apply reads_from_ran in Hr.
        pose proof (ran_trans _ _ _ _ _ G (ran_trans _ _ _ _ _ Hr (emit_ran w1' q))) as R.
        destruct (IH (emit (EvFilter (Some q)) w1')) as (w' & run & E & He).
        { destruct R as (_ & _ & Hle & _). destruct Hr as (_ & _ & Hle' & _).
          cbn [emit w_input] in *. lia. }
        exists w'. eexists. split; [exact E | exact (ran_ended _ _ _ _ _ R He)].
      * destruct P as (bs & Hr). apply reads_from_ran in Hr.
        destruct (IH w2) as (w' & run & E & He).
        { destruct Hr as (_ & _ & Hle & _). lia. }
        exists w'. eexists. split; [exact E |].
        exact (ran_ended _ _ _ _ _ (ran_trans _ _ _ _ _ G Hr) He).
      * destruct P as (-> & Hs). apply stops_from_ended in Hs.
        exists w2. eexists. split; [reflexivity | exact (ran_ended _ _ _ _ _ G Hs)].
      * destruct P as (Hf & _). congruence.
    + destruct (IH w1 Hlt) as (w' & run & E & He).
      exists w'. eexists. split; [exact E | exact (ran_ended _ _ _ _ _ G He)].
  - destruct G as (-> & Hs). apply stops_from_ended in Hs.
    exists w1. eexists. split; [reflexivity | exact Hs].
Qed.

(** The loop leaves only through [vbus_fini]: its exit value is NULL. *)
Lemma vbus_loop_exit_null (fuel : nat) (w : world) (rv : Z) (w' : world) :
  vbus_loop fuel sc w = Exit rv w' -> rv = 0.
Proof.
  revert w. induction fuel as [| fuel IH]; intros w; cbn [vbus_loop]; [discriminate |].
  unfold bind. pose proof (vbus_getc_spec sc w) as G.
  destruct (vbus_getc sc w) as [ch w1 | rv1 w1 | w1 | w1]; try contradiction.
  - destruct (negb (byte.unsigned ch =? VBUS_SYNC)); [apply IH |].
    pose proof (vbus_packet_spec sc w1) as P.
    destruct (vbus_packet sc w1) as [b w2 | rv2 w2 | w2 | w2]; try discriminate.
    + apply IH.
    + destruct P as (-> & _). intros E. injection E as <- _. reflexivity.
  - destruct G as (-> & _). intros E. injection E as <- _. reflexivity.
Qed.

(** When the loop ends, it ends in [vbus_fini]: the exit value is NULL and
    what it logged, up to the [read] that failed, are reads and deliveries. *)
Lemma vbus_loop_exit_ended (fuel : nat) (w : world) (rv : Z) (w' : world) :
  vbus_loop fuel sc w = Exit rv w' -> rv = 0 /\ exists run, ended w run w'.
Proof.
  revert w. induction fuel as [| fuel IH]; intros w; cbn [vbus_loop]; [discriminate |].
  unfold bind. pose proof (vbus_getc_spec sc w) as G.
  destruct (vbus_getc sc w) as [ch w1 | rv1 w1 | w1 | w1]; try contradiction.
  - apply reads_from_ran in G.
    destruct (negb (byte.unsigned ch =? VBUS_SYNC)).
    + intros E. apply IH in E. destruct E as (-> & run & He).
      split; [reflexivity |]. eexists. exact (ran_ended _ _ _ _ _ G He).
    + pose proof (vbus_packet_spec sc w1) as P.
      destruct (vbus_packet sc w1) as [[|] w2 | rv2 w2 | w2 | w2]; try contradiction;
        try discriminate.
      * destruct P as (_ & hdr & fs & q & w1' & _ & _ & _ & _ & Hr & ->).
        apply reads_from_ran in Hr.
        intros E. apply IH in E. destruct E as (-> & run & He).
        split; [reflexivity |]. eexists.
        exact (ran_ended _ _ _ _ _
                 (ran_trans _ _ _ _ _ G (ran_trans _ _ _ _ _ Hr (emit_ran w1' q))) He).
      * destruct P as (bs & Hr). apply reads_from_ran in Hr.
        intros E. apply IH in E. destruct E as (-> & run & He).
        split; [reflexivity |]. eexists.
        exact (ran_ended _ _ _ _ _ (ran_trans _ _ _ _ _ G Hr) He).
      * destruct P as (-> & Hs). apply stops_from_ended in Hs.
        intros E. injection E as <- <-. split; [reflexivity |]. eexists.
        exact (ran_ended _ _ _ _ _ G Hs).
  - destruct G as (-> & Hs). apply stops_from_ended in Hs.
    intros E. injection E as <- <-. split; [reflexivity |]. eexists. exact Hs.
Qed.

End Worker.

(** ** Lists, stores and mutated spans *)

Section Spans.

Lemma app_same_length {A : Type} (a b x y : list A) :
  length a = length b -> a ++ x = b ++ y -> a = b /\ x = y.
Proof.
  revert b. induction a as [| h a IH]; intros [| k b] Hl E; try discriminate.
  - split; [reflexivity | exact E].
  - cbn in Hl, E. injection E as -> E. injection Hl as Hl.
    destruct (IH b Hl E) as [-> ->]. split; reflexivity.
Qed.

Lemma poke_length {A : Type} (l : list A) (n : nat) (v : A) :
  length (poke l n v) = length l.
Proof.
  revert n. induction l as [| h l IH]; intros [| n]; cbn; try reflexivity.
  rewrite IH. reflexivity.
Qed.

Lemma poke_nth_same {A : Type} (l : list A) (n : nat) (v d : A) :
  (n < length l)%nat -> nth n (poke l n v) d = v.
Proof.
  revert n. induction l as [| h l IH]; intros [| n] Hn; cbn in *; try lia.
  - reflexivity.
  - apply IH. lia.
Qed.

Lemma poke_nth_other {A : Type} (l : list A) (n m : nat) (v d : A) :
  n <> m -> nth m (poke l n v) d = nth m l d.
Proof.
  revert n m. induction l as [| h l IH]; intros [| n] [| m] Hne; cbn;
    try reflexivity; try congruence.
  apply IH. congruence.
Qed.

Lemma poke_app_l {A : Type} (a b : list A) (n : nat) (v : A) :
  (n < length a)%nat -> poke (a ++ b) n v = poke a n v ++ b.
Proof.
  revert n. induction a as [| h a IH]; intros [| n] Hn; cbn in *; try lia.
  - reflexivity.
  - rewrite IH by lia. reflexivity.
Qed.

Lemma poke_app_last {A : Type} (a : list A) (c v : A) :
  poke (a ++ [c]) (length a) v = a ++ [v].
Proof. induction a as [| h a IH]; cbn; [reflexivity | rewrite IH; reflexivity]. Qed.

Lemma total_poke (body : list byte) (i : nat) (b' : byte) :
  (i < length body)%nat ->
  total (poke body i b')
  = total body - byte.unsigned (nth i body Byte.x00) + byte.unsigned b'.
Proof.
  unfold total. revert i.
  induction body as [| h body IH]; intros [| i] Hi;
    cbn [poke map fold_right length nth] in *; try lia.
  rewrite IH by lia. lia.
Qed.

Lemma checksum_arith (body : list byte) :
  Spec.checksum body = 127 - total body mod 128.
Proof.
  unfold Spec.checksum, Spec.clear_top, Spec.negate8, Spec.sum8.
  rewrite lxor_ff_land_7f, lnot_land_7f.
  f_equal. pose proof (Z.mod_pos_bound (total body) 256).
  Z.div_mod_to_equations. lia.
Qed.

(** The validator sees a change of a body byte exactly through its low
    seven bits. *)
Lemma checksum_poke (body : list byte) (i : nat) (b' : byte) :
  (i < length body)%nat ->
  byte.unsigned b' mod 128 <> byte.unsigned (nth i body Byte.x00) mod 128 ->
  Spec.checksum (poke body i b') <> Spec.checksum body.
Proof.
  intros Hi Hne. rewrite !checksum_arith, total_poke by exact Hi.
  intros E. apply Hne. clear Hne.
  Z.div_mod_to_equations. lia.
Qed.

Lemma crc_mutation_general (body : list byte) (c : byte) (i : nat) (b' : byte) :
  Z.of_nat (length (body ++ [c])) <= INT_MAX ->
  vbus_crc_ok (body ++ [c]) (Z.of_nat (length (body ++ [c]))) = true ->
  (i = length body /\ b' <> c) \/
  ((i < length body)%nat /\
   byte.unsigned b' mod 128 <> byte.unsigned (nth i body Byte.x00) mod 128) ->
  vbus_crc_ok (poke (body ++ [c]) i b') (Z.of_nat (length (body ++ [c]))) = false.
Proof.
  intros Hlen Hok Hcase. apply vbus_crc_ok_span in Hok; [| exact Hlen].
  apply not_true_is_false. intros Hok'.
  destruct Hcase as [[-> Hne] | [Hi Hne]].
  - rewrite poke_app_last in Hok'.
    replace (length (body ++ [c])) with (length (body ++ [b'])) in Hok', Hlen
      by (rewrite !length_app; reflexivity).
    apply vbus_crc_ok_span in Hok'; [| exact Hlen].
    apply Hne. apply byte.unsigned_inj. congruence.
  - rewrite poke_app_l in Hok' by exact Hi.
    replace (length (body ++ [c])) with (length (poke body i b' ++ [c])) in Hok', Hlen
      by (rewrite !length_app, poke_length; reflexivity).
    apply vbus_crc_ok_span in Hok'; [| exact Hlen].
    apply (checksum_poke body i b' Hi Hne). congruence.
Qed.

End Spans.

(** * The checksum validator *)

Section ChecksumClaims.

Lemma frame_as_read (sc : vbus_softc) (mem : list (option byte)) (off : Z)
      (w : world) (body : list byte) (c : byte) (rest : list byte) :
  length body = 5%nat ->
  w_input w = body ++ c :: rest ->
  exists rc mem' w',
    vbus_read_frame sc mem off w = Ok (rc, mem') w' /\
    ((rc = 0 /\ good_frame (body ++ [c]) /\ mem' = store_frame (body ++ [c]) mem off) \/
     (rc = -1 /\ mem' = mem)).
Proof.
  intros Hb Hin. pose proof (vbus_read_frame_spec sc mem off w) as F.
  destruct (vbus_read_frame sc mem off w) as [[rc mem'] w' | rv w' | w' | w'];
    try contradiction.
  - exists rc, mem', w'. split; [reflexivity |].
    destruct F as (bs & (Hi & _) & _ & [(-> & Hg & ->) | (-> & ->)]); [left | right; auto].
    destruct Hg as (Hl & Hc & Hcrc).
    assert (E : bs = body ++ [c]).
    { rewrite Hin in Hi. change (body ++ c :: rest) with (body ++ [c] ++ rest) in Hi.
      rewrite app_assoc in Hi. symmetry in Hi.
      apply app_same_length in Hi; [tauto |].
      rewrite length_app, Hb, Hl. reflexivity. }
    subst bs. repeat split; assumption.
  - exfalso. destruct F as (_ & Hl & _). rewrite Hin, length_app, Hb in Hl. cbn in Hl. lia.
Qed.

End ChecksumClaims.

(** C2.  For every byte span of length [n >= 1], written [body ++ [c]] and
    short enough for the [int] loop counter, [vbus_crc_ok] returns true if and
    only if the last byte [c] equals the 8-bit sum of the first [n - 1]
    bytes, bitwise-negated, with the top bit cleared.  It is a function of
    the span alone, and it is this function that decides for the 9-byte header
    in [vbus_parse_header] and for the 6-byte frame in [vbus_read_frame]:
    neither accepts a span whose last byte is not that checksum. *)
Theorem vbus_crc_ok_checksum (body : list byte) (c : byte) :
  Z.of_nat (length (body ++ [c])) <= INT_MAX ->
  (vbus_crc_ok (body ++ [c]) (Z.of_nat (length (body ++ [c]))) = true
   <-> byte.unsigned c = Spec.checksum body) /\
  (length body = 8%nat ->
   forall w p w', vbus_parse_header (body ++ [c]) w = Ok (Some p) w' ->
                  byte.unsigned c = Spec.checksum body) /\
  (length body = 5%nat ->
   forall sc mem off w rest mem' w',
     w_input w = body ++ c :: rest ->
     vbus_read_frame sc mem off w = Ok (0, mem') w' ->
     byte.unsigned c = Spec.checksum body).
Proof.
  intros Hlen. pose proof (vbus_crc_ok_span body c Hlen) as Hiff.
  split; [exact Hiff |]. split.
  - intros Hb w p w' E. apply Hiff.
    pose proof (vbus_parse_header_spec (body ++ [c]) w) as P. rewrite E in P.
    destruct P as (Crc & _). rewrite length_app, Hb. exact Crc.
  - intros Hb sc mem off w rest mem' w' Hin E. apply Hiff.
    destruct (frame_as_read sc mem off w body c rest Hb Hin)
      as (rc & m & w2 & E2 & [(-> & Hg & _) | (-> & _)]);
      rewrite E in E2; [| discriminate].
    destruct Hg as (_ & _ & Crc). rewrite length_app, Hb. exact Crc.
Qed.

Lemma vbus_crc_ok_checksum_witness :
  vbus_crc_ok [Byte.x34; Byte.x12; Byte.x00; Byte.x00; Byte.x01; Byte.x10;
               Byte.x00; Byte.x02; Byte.x26] 9 = true
  <-> byte.unsigned Byte.x26
      = Spec.checksum [Byte.x34; Byte.x12; Byte.x00; Byte.x00; Byte.x01; Byte.x10;
                       Byte.x00; Byte.x02].
Proof.
  apply (vbus_crc_ok_checksum
           [Byte.x34; Byte.x12; Byte.x00; Byte.x00; Byte.x01; Byte.x10;
            Byte.x00; Byte.x02] Byte.x26).
  vm_compute. discriminate.
Defined.

(** C9.  The value [vbus_crc_ok] computes has its top bit clear for every
    span, so a span whose last byte has its top bit set (the marker 0xaa is
    such a byte) never validates; and a frame whose sixth byte has its top
    bit set is rejected both by the checksum comparison alone and by
    [vbus_read_frame], which scans the top bits first. *)
Theorem checksum_byte_with_top_bit_rejected (body : list byte) (c : byte) :
  Z.of_nat (length (body ++ [c])) <= INT_MAX ->
  top_bit c = true ->
  (forall buffer len, Z.land (crc_value buffer len) 0x80 = 0) /\
  top_bit (byte.of_Z VBUS_SYNC) = true /\
  vbus_crc_ok (body ++ [c]) (Z.of_nat (length (body ++ [c]))) = false /\
  (length body = 5%nat ->
   forall sc mem off w rest,
     w_input w = body ++ c :: rest ->
     exists w', vbus_read_frame sc mem off w = Ok (-1, mem) w').
Proof.
  intros Hlen Htop.
  assert (Hval : forall buffer len, Z.land (crc_value buffer len) 0x80 = 0).
  { intros buffer len. rewrite crc_value_spec.
    pose proof (checksum_top_clear (firstn (Z.to_nat (to_size_t (len - 1))) buffer)).
    apply land_80_zero_iff; lia. }
  assert (Hc : Z.land (byte.unsigned c) 0x80 <> 0).
  { unfold top_bit in Htop. apply negb_true_iff in Htop. apply Z.eqb_neq in Htop. exact Htop. }
  split; [exact Hval |]. split; [reflexivity |]. split.
  - apply not_true_is_false. intros Hok. apply vbus_crc_ok_span in Hok; [| exact Hlen].
    apply Hc. rewrite Hok. apply land_80_zero_iff; pose proof (checksum_top_clear body); lia.
  - intros Hb sc mem off w rest Hin.
    destruct (frame_as_read sc mem off w body c rest Hb Hin)
      as (rc & m & w' & E & [(-> & Hg & _) | (-> & ->)]).
    + exfalso. destruct Hg as (_ & Hcl & _). apply Forall_app in Hcl.
      destruct Hcl as (_ & Hcl). inversion Hcl as [| ? ? Hcc _]. unfold clean in Hcc. congruence.
    + exists w'. exact E.
Qed.

Lemma checksum_byte_with_top_bit_rejected_witness :
  vbus_crc_ok [Byte.x00; Byte.x00; Byte.x00; Byte.x00; Byte.x00; Byte.xaa] 6 = false.
Proof.
  refine (proj1 (proj2 (proj2
    (checksum_byte_with_top_bit_rejected
       [Byte.x00; Byte.x00; Byte.x00; Byte.x00; Byte.x00] Byte.xaa _ _)))).
  - vm_compute. discriminate.
  - vm_compute. reflexivity.
Defined.

(** C7, as the code has it.  For every 9-byte header or 6-byte frame span
    that [vbus_crc_ok] accepts, changing the checksum byte to any different
    value, or changing any other byte to a value that differs from the
    original in its low seven bits, makes [vbus_crc_ok] return false on the
    mutated span.  (Two values with the top bit clear that differ, differ in
    their low seven bits.) *)
Theorem single_byte_mutation_detected (buffer : list byte) (i : nat) (b' : byte) :
  length buffer = 9%nat \/ length buffer = 6%nat ->
  vbus_crc_ok buffer (Z.of_nat (length buffer)) = true ->
  (i = (length buffer - 1)%nat /\ b' <> nth i buffer Byte.x00) \/
  ((i < length buffer - 1)%nat /\
   byte.unsigned b' mod 128 <> byte.unsigned (nth i buffer Byte.x00) mod 128) ->
  vbus_crc_ok (poke buffer i b') (Z.of_nat (length buffer)) = false.
Proof.
  intros Hlen Hok Hcase.
  assert (Hne : buffer <> []) by (intros ->; cbn in Hlen; lia).
  destruct (split_last buffer Hne) as (body & c & ->).
  assert (Hb : (length (body ++ [c]) - 1)%nat = length body)
    by (rewrite length_app; cbn; lia).
  rewrite Hb in Hcase.
  apply crc_mutation_general; [unfold INT_MAX; lia | exact Hok |].
  destruct Hcase as [[-> Hd] | [Hi Hd]]; [left | right].
  - rewrite nth_middle in Hd. split; [reflexivity | exact Hd].
  - rewrite app_nth1 in Hd by exact Hi. split; assumption.
Qed.

Lemma single_byte_mutation_detected_witness :
  vbus_crc_ok (poke [Byte.x34; Byte.x12; Byte.x00; Byte.x00; Byte.x01; Byte.x10;
                     Byte.x00; Byte.x02; Byte.x26] 1 Byte.x13) 9 = false.
Proof.
  apply (single_byte_mutation_detected
           [Byte.x34; Byte.x12; Byte.x00; Byte.x00; Byte.x01; Byte.x10;
            Byte.x00; Byte.x02; Byte.x26] 1 Byte.x13).
  - left. reflexivity.
  - vm_compute. reflexivity.
  - right. split; [cbn; lia | vm_compute; discriminate].
Defined.

(** C7, as stated, fails: in the accepted header of eight zero bytes and
    checksum 0x7f, changing byte 0 from 0x00 to 0x80 leaves the low seven
    bits of the sum, and so the verdict, unchanged. *)
Lemma single_byte_mutation_undetected :
  ~ (forall (buffer : list byte) (i : nat) (b' : byte),
       length buffer = 9%nat \/ length buffer = 6%nat ->
       vbus_crc_ok buffer (Z.of_nat (length buffer)) = true ->
       (i < length buffer)%nat ->
       b' <> nth i buffer Byte.x00 ->
       vbus_crc_ok (poke buffer i b') (Z.of_nat (length buffer)) = false).
Proof.
  intros H.
  assert (F : vbus_crc_ok
                (poke [Byte.x00; Byte.x00; Byte.x00; Byte.x00; Byte.x00; Byte.x00;
                       Byte.x00; Byte.x00; Byte.x7f] 0 Byte.x80) 9 = false).
  { apply (H [Byte.x00; Byte.x00; Byte.x00; Byte.x00; Byte.x00; Byte.x00;
              Byte.x00; Byte.x00; Byte.x7f] 0%nat Byte.x80).
    - left. reflexivity.
    - vm_compute. reflexivity.
    - cbn. lia.
    - cbn. discriminate. }
  vm_compute in F. discriminate.
Qed.

(** * The header decoder *)

(** C3.  For every 9-byte header span whose checksum validates, and when
    the allocation of the packet succeeds, [vbus_parse_header] produces
    destination = byte0 | byte1<<8, source = byte2 | byte3<<8,
    protocolRevision = byte4, command = byte5 | byte6<<8 and
    frameCount = byte7; for the header bytes 0x34 0x12 0x00 0x00 0x01 0x10
    0x00 0x02 these are 0x1234, 0x0000, 1, 0x0010 and 2. *)
Theorem vbus_parse_header_fields (buffer : list byte) (w : world) :
  length buffer = 9%nat ->
  vbus_crc_ok buffer VBUS_WIRE_HDR = true ->
  hd true (w_heap w) = true ->
  exists p w',
    vbus_parse_header buffer w = Ok (Some p) w' /\
    dst p = Z.lor (rd buffer 0) (Z.shiftl (rd buffer 1) 8) /\
    src p = Z.lor (rd buffer 2) (Z.shiftl (rd buffer 3) 8) /\
    proto p = rd buffer 4 /\
    cmd p = Z.lor (rd buffer 5) (Z.shiftl (rd buffer 6) 8) /\
    frames p = rd buffer 7 /\
    (firstn 8 buffer = [Byte.x34; Byte.x12; Byte.x00; Byte.x00; Byte.x01;
                        Byte.x10; Byte.x00; Byte.x02] ->
     dst p = 0x1234 /\ src p = 0x0000 /\ proto p = 1 /\ cmd p = 0x0010 /\
     frames p = 2).
Proof.
  intros Hlen Crc Hheap. pose proof (vbus_parse_header_spec buffer w) as P.
  destruct (vbus_parse_header buffer w) as [[p |] w' | rv w' | w' | w'];
    try contradiction.
  - destruct P as (_ & _ & (Hd & Hs & Hp & Hc & Hf) & _).
    exists p, w'. split; [reflexivity |].
    split; [exact Hd |]. split; [exact Hs |]. split; [exact Hp |].
    split; [exact Hc |]. split; [exact Hf |].
    intros E.
    destruct buffer as [| b0 [| b1 [| b2 [| b3 [| b4 [| b5 [| b6 [| b7 r]]]]]]]];
      try discriminate.
    cbn [firstn] in E. injection E as -> -> -> -> -> -> -> ->.
    rewrite Hd, Hs, Hp, Hc, Hf. repeat split; reflexivity.
  - exfalso. destruct P as ([H | H] & _); congruence.
Qed.

Lemma vbus_parse_header_fields_witness :
  exists p w',
    vbus_parse_header [Byte.x34; Byte.x12; Byte.x00; Byte.x00; Byte.x01; Byte.x10;
                       Byte.x00; Byte.x02; Byte.x26]
                      (mk_world [] None 0 [] None []) = Ok (Some p) w' /\
    dst p = 0x1234 /\ src p = 0x0000 /\ proto p = 1 /\ cmd p = 0x0010 /\ frames p = 2.
Proof.
  destruct (vbus_parse_header_fields
              [Byte.x34; Byte.x12; Byte.x00; Byte.x00; Byte.x01; Byte.x10;
               Byte.x00; Byte.x02; Byte.x26]
              (mk_world [] None 0 [] None []))
    as (p & w' & E & _ & _ & _ & _ & _ & Hex).
  - reflexivity.
  - vm_compute. reflexivity.
  - reflexivity.
  - exists p, w'. split; [exact E | apply Hex; reflexivity].
Defined.

(** When the allocation fails the decoder returns NULL, whatever the
    header. *)
Lemma vbus_parse_header_no_memory (buffer : list byte) (w : world) :
  hd true (w_heap w) = false ->
  exists w', vbus_parse_header buffer w = Ok None w'.
Proof.
  intros Hheap. pose proof (vbus_parse_header_spec buffer w) as P.
  destruct (vbus_parse_header buffer w) as [[p |] w' | rv w' | w' | w'];
    try contradiction.
  - destruct P as (_ & H & _). congruence.
  - exists w'. reflexivity.
Qed.

(** * The frame decoder *)

Section FrameBytes.

Lemma frame_byte_value (buffer : list byte) (i : Z) :
  0 <= i ->
  frame_byte buffer i (2 ^ i)
  = if negb (rd buffer i =? 0) || Z.testbit (rd buffer 4) i
    then Byte.x80 else Byte.x00.
Proof.
  intros Hi. unfold frame_byte. rewrite land_pow2 by exact Hi.
  assert (Hp : 2 ^ i <> 0) by (apply Z.pow_nonzero; lia).
  destruct (Z.eqb_spec (rd buffer i) 0) as [E | E]; cbn [negb orb].
  - rewrite E, Z.lor_0_l. destruct (Z.testbit (rd buffer 4) i).
    + apply Z.eqb_neq in Hp. rewrite Hp. reflexivity.
    + reflexivity.
  - assert (Hl : Z.lor (rd buffer i)
                       (if Z.testbit (rd buffer 4) i then 2 ^ i else 0) <> 0).
    { intros H. apply Z.lor_eq_0_iff in H. tauto. }
    apply Z.eqb_neq in Hl. rewrite Hl. reflexivity.
Qed.

Lemma store_frame_nth (buffer : list byte) (mem : list (option byte)) (off : Z) :
  0 <= off -> off + 4 <= Z.of_nat (length mem) ->
  nth (Z.to_nat (off + 0)) (store_frame buffer mem off) None
    = Some (frame_byte buffer 0 1) /\
  nth (Z.to_nat (off + 1)) (store_frame buffer mem off) None
    = Some (frame_byte buffer 1 2) /\
  nth (Z.to_nat (off + 2)) (store_frame buffer mem off) None
    = Some (frame_byte buffer 2 4) /\
  nth (Z.to_nat (off + 3)) (store_frame buffer mem off) None
    = Some (frame_byte buffer 3 8).
Proof.
  intros H0 H4. unfold store_frame.
  repeat split;
    repeat (rewrite poke_nth_other by lia);
    rewrite poke_nth_same by (rewrite ?poke_length; lia); reflexivity.
Qed.

End FrameBytes.

(** C10.  Every logical payload byte [vbus_read_frame] writes for an
    accepted frame is 0x00 or 0x80: byte [i] (i in 0..3) is 0x80 exactly when
    wire byte [i] is nonzero or bit [i] of the map byte is set, and 0x00
    otherwise. *)
Theorem frame_bytes_are_00_or_80
        (sc : vbus_softc) (mem : list (option byte)) (off : Z) (w : world)
        (mem' : list (option byte)) (w' : world) :
  vbus_read_frame sc mem off w = Ok (0, mem') w' ->
  0 <= off -> off + 4 <= Z.of_nat (length mem) ->
  exists buffer,
    firstn 6 (w_input w) = buffer /\ good_frame buffer /\
    forall i, 0 <= i < 4 ->
      nth (Z.to_nat (off + i)) mem' None
      = Some (if negb (rd buffer i =? 0) || Z.testbit (rd buffer 4) i
              then Byte.x80 else Byte.x00).
Proof.
  intros E H0 H4. pose proof (vbus_read_frame_spec sc mem off w) as F.
  rewrite E in F. destruct F as (bs & (Hi & _) & _ & [(_ & Hg & ->) | (Hrc & _)]);
    [| discriminate].
  exists bs. split.
  - rewrite Hi. pose proof Hg as (Hl & _). rewrite <- Hl. rewrite firstn_app.
    rewrite Nat.sub_diag, firstn_all. cbn. apply app_nil_r.
  - split; [exact Hg |]. intros i Hi4.
    destruct (store_frame_nth bs mem off H0 H4) as (S0 & S1 & S2 & S3).
    assert (Hc : i = 0 \/ i = 1 \/ i = 2 \/ i = 3) by lia.
    destruct Hc as [-> | [-> | [-> | ->]]].
    + rewrite S0. f_equal. apply (frame_byte_value bs 0). lia.
    + rewrite S1. f_equal. apply (frame_byte_value bs 1). lia.
    + rewrite S2. f_equal. apply (frame_byte_value bs 2). lia.
    + rewrite S3. f_equal. apply (frame_byte_value bs 3). lia.
Qed.

Lemma frame_bytes_are_00_or_80_witness :
  exists buffer,
    firstn 6 [Byte.x01; Byte.x00; Byte.x00; Byte.x00; Byte.x02; Byte.x7c] = buffer /\
    good_frame buffer /\
    forall i, 0 <= i < 4 ->
      nth (Z.to_nat (0 + i)) [Some Byte.x80; Some Byte.x80; Some Byte.x00; Some Byte.x00] None
      = Some (if negb (rd buffer i =? 0) || Z.testbit (rd buffer 4) i
              then Byte.x80 else Byte.x00).
Proof.
  eapply (frame_bytes_are_00_or_80 (mk_softc 0 false true) [None; None; None; None] 0
            (mk_world [Byte.x01; Byte.x00; Byte.x00; Byte.x00; Byte.x02; Byte.x7c]
                      None 0 [] None [])).
  - vm_compute. reflexivity.
  - lia.
  - cbn. lia.
Defined.

(** C1 fails on the code.  The accepted frame 01 00 00 00 00 7e has map
    byte 0, so the logical byte 0 the specification asks for is
    [0x01 | 0 = 0x01]; [vbus_read_frame] stores 0x80.  The conditional
    expression takes [buffer[0] | (buffer[4] & 1)] as its condition. *)
Lemma frame_byte_precedence_slip :
  let buffer := [Byte.x01; Byte.x00; Byte.x00; Byte.x00; Byte.x00; Byte.x7e] in
  (exists w',
     vbus_read_frame (mk_softc 0 false true) [None; None; None; None] 0
                     (mk_world buffer None 0 [] None [])
     = Ok (0, [Some Byte.x80; Some Byte.x00; Some Byte.x00; Some Byte.x00]) w') /\
  Spec.logical_byte (rd buffer 0) (rd buffer 4) 0 = 0x01 /\
  byte.unsigned Byte.x80 <> 0x01.
Proof.
  cbv zeta. split; [| split].
  - eexists. vm_compute. reflexivity.
  - vm_compute. reflexivity.
  - vm_compute. discriminate.
Qed.

(** * Delivery *)

Section Delivery.

Lemma cleanup_no_packet (x : option vbus_softc) (p : vbus_pkt) :
  ~ In (EvFilter (Some p)) (vbus_cleanup x).
Proof.
  destruct x as [sc |]; cbn; [| tauto].
  destruct (do_stty sc), (negb (fd sc =? -1)), (filter sc); cbn;
    intros H; repeat (destruct H as [H | H]; try discriminate); exact H.
Qed.

Lemma frames_aligned (good fs : list (list byte)) (bad rest r1 : list byte) :
  Forall (fun f => length f = 6%nat) fs ->
  Forall (fun f => length f = 6%nat) good ->
  length bad = 6%nat ->
  concat fs ++ r1 = concat good ++ bad ++ rest ->
  (length good < length fs)%nat ->
  In bad fs.
Proof.
  revert fs. induction good as [| g good IH]; intros [| f fs] Hfs Hgood Hbad E Hlt;
    cbn [length] in Hlt; try lia.
  - cbn [concat app] in E. rewrite <- app_assoc in E.
    apply app_same_length in E; [left; tauto |].
    inversion Hfs; congruence.
  - cbn [concat] in E. rewrite <- !app_assoc in E.
    inversion Hfs as [| ? ? Hf Hfs']. inversion Hgood as [| ? ? Hg Hgood']. subst.
    apply app_same_length in E; [| congruence]. destruct E as (_ & E).
    right. apply IH; auto. lia.
Qed.

Lemma good_not_bad (f : list byte) : good_frame f -> bad_frame f -> False.
Proof.
  intros (_ & Hc & Hcrc) (_ & [He | Hb]); [| congruence].
  apply Exists_exists in He. destruct He as (b & Hin & Hb).
  rewrite Forall_forall in Hc. specialize (Hc b Hin). unfold clean in Hc. congruence.
Qed.

End Delivery.

(** C4.  The handler is called with a packet only for a stretch of the
    input made of a sync byte, a 9-byte header whose bytes are wire-clean and
    whose checksum passes, and exactly frameCount 6-byte frames each of which
    is wire-clean and passes its own checksum.  And when a valid header is
    followed by fewer good frames than it announces and then by a frame that
    has a byte with the top bit set or fails its checksum, the pass over that
    packet ends without a call of the handler. *)
Theorem handler_gets_only_validated_packets :
  (forall rc sc w p,
     In (EvFilter (Some p)) (w_log (snd (run_worker rc sc w))) ->
     In (EvFilter (Some p)) (w_log w) \/ framed_in (w_input w) p) /\
  (forall sc w hdr good bad rest,
     w_input w = hdr ++ concat good ++ bad ++ rest ->
     good_header hdr ->
     Forall good_frame good ->
     Z.of_nat (length good) < rd hdr 7 ->
     bad_frame bad ->
     (forall w', vbus_packet sc w <> Ok true w') /\
     (forall x, In (EvFilter x) (w_log (final (vbus_packet sc w))) ->
                In (EvFilter x) (w_log w))).
Proof.
  split.
  - intros rc sc w p. unfold run_worker, vbus_thread, bind, pthread_setspecific.
    destruct (rc =? 0) eqn:Rc; cbn [negb Z.eqb].
    + set (w0 := mk_world _ _ _ _ (Some sc) _).
      pose proof (vbus_loop_sound sc (S (length (w_input w))) w0 p) as Hs.
      destruct (vbus_loop (S (length (w_input w))) sc w0) as [[] | rv w' | w' | w'];
        cbn [final] in Hs; cbn [snd]; try exact Hs.
      unfold pthread_exit. cbn [snd]. destruct (w_tsd w') as [sc' |]; [| exact Hs].
      cbn [log_all w_log]. intros H. apply in_app_or in H.
      destruct H as [H | H]; [exact (Hs H) | exfalso; exact (cleanup_no_packet _ _ H)].
    + rewrite Rc. cbn [negb]. unfold pthread_exit. cbn [log_all w_tsd w_log snd].
      intros H. apply in_app_or in H.
      destruct H as [H | H]; [left; exact H | exfalso; exact (cleanup_no_packet _ _ H)].
  - intros sc w hdr good bad rest Hin Hh Hgood Hn Hbad.
    pose proof (vbus_packet_spec sc w) as P.
    destruct (vbus_packet sc w) as [[|] w' | rv w' | w' | w'] eqn:E;
      try contradiction; cbn [final].
    + exfalso. destruct P as (_ & hdr' & fs & q & w1 & Hh' & Hq & Hlen & Hfs & (Ri & _) & _).
      rewrite Hin, <- app_assoc in Ri.
      apply app_same_length in Ri;
        [| destruct Hh as (-> & _); destruct Hh' as (-> & _); reflexivity].
      destruct Ri as (<- & Ri).
      destruct Hq as (_ & _ & _ & _ & Hfr).
      apply (good_not_bad bad); [| exact Hbad].
      rewrite Forall_forall in Hfs. apply Hfs.
      apply (frames_aligned good fs bad rest (w_input w1)).
      * apply Forall_forall. intros f Hf. apply (Hfs f Hf).
      * eapply Forall_impl; [| exact Hgood]. intros f Hf. apply Hf.
      * apply Hbad.
      * symmetry. exact Ri.
      * lia.
    + split; [discriminate |]. destruct P as (bs & Hr). intros x.
      apply (reads_from_filter w w' bs x Hr).
    + split; [discriminate |]. destruct P as (_ & Hs). intros x.
      apply (stops_from_filter w w' _ x Hs).
    + split; [discriminate |]. destruct P as (_ & bs & Hr). intros x.
      apply (reads_from_filter w w' bs x Hr).
Qed.

Lemma handler_gets_only_validated_packets_witness :
  (In (EvFilter (Some (mk_pkt 0 0 0 0 0 []))) [] \/
   framed_in [Byte.xaa; Byte.x00; Byte.x00; Byte.x00; Byte.x00; Byte.x00; Byte.x00;
              Byte.x00; Byte.x00; Byte.x7f]
             (mk_pkt 0 0 0 0 0 [])) /\
  (forall w',
     vbus_packet (mk_softc 0 false true)
       (mk_world [Byte.x00; Byte.x00; Byte.x00; Byte.x00; Byte.x00; Byte.x00;
                  Byte.x00; Byte.x01; Byte.x7e;
                  Byte.x00; Byte.x00; Byte.x00; Byte.x00; Byte.x00; Byte.x00]
                 None 0 [] None [])
     <> Ok true w').
Proof.
  split.
  - apply (proj1 handler_gets_only_validated_packets 0 (mk_softc 0 false true)
             (mk_world [Byte.xaa; Byte.x00; Byte.x00; Byte.x00; Byte.x00; Byte.x00;
                        Byte.x00; Byte.x00; Byte.x00; Byte.x7f]
                       None 0 [] None [])).
    vm_compute. repeat (first [left; reflexivity | right]).
  - apply (proj2 handler_gets_only_validated_packets (mk_softc 0 false true)
             (mk_world [Byte.x00; Byte.x00; Byte.x00; Byte.x00; Byte.x00; Byte.x00;
                        Byte.x00; Byte.x01; Byte.x7e;
                        Byte.x00; Byte.x00; Byte.x00; Byte.x00; Byte.x00; Byte.x00]
                       None 0 [] None [])
             [Byte.x00; Byte.x00; Byte.x00; Byte.x00; Byte.x00; Byte.x00;
              Byte.x00; Byte.x01; Byte.x7e]
             []
             [Byte.x00; Byte.x00; Byte.x00; Byte.x00; Byte.x00; Byte.x00]
             []).
    + reflexivity.
    + split; [reflexivity | split; [repeat constructor | vm_compute; reflexivity]].
    + constructor.
    + vm_compute. reflexivity.
    + split; [reflexivity | right; vm_compute; reflexivity].
Defined.

(** * The end of the worker *)

Section WorkerEnd.

Lemma cleanup_shape (sc : vbus_softc) :
  filter sc = true ->
  exists dev, vbus_cleanup (Some sc) = dev ++ [EvFilter None; EvFreeSc] /\
              Forall (fun e => is_device e = true) dev.
Proof.
  intros Flt. unfold vbus_cleanup. rewrite Flt.
  exists ((if do_stty sc then [EvRestoreTty (fd sc)] else []) ++
          (if negb (fd sc =? -1) then [EvClose (fd sc)] else [])).
  split; [rewrite <- app_assoc; reflexivity |].
  apply Forall_app. split.
  - destruct (do_stty sc); repeat constructor.
  - destruct (negb (fd sc =? -1)); repeat constructor.
Qed.

(** A worker with a handler always terminates: through [vbus_fini] when
    its key was set, else through the failure path of [vbus_thread]. *)
Lemma run_worker_ends (rc : Z) (sc : vbus_softc) (w : world) :
  filter sc = true ->
  exists w' run,
    run_worker rc sc w = (Terminated (if rc =? 0 then 0 else w_errno w), w') /\
    w_log w' = w_log w ++ run ++ vbus_cleanup (Some sc) /\
    Forall run_event run /\
    (rc = 0 -> exists run0, run = run0 ++ [EvRead None]) /\
    w_errno w' = (if rc =? 0
                  then match w_eof w with Some e => e | None => w_errno w end
                  else w_errno w).
Proof.
  intros Flt. unfold run_worker, vbus_thread, bind, pthread_setspecific.
  destruct (Z.eqb_spec rc 0) as [-> | Hrc]; cbn [negb Z.eqb].
  - set (w0 := mk_world _ _ _ _ (Some sc) _).
    destruct (vbus_loop_exits sc (S (length (w_input w))) w0 Flt)
      as (w' & run & E & (L & F & I & Eo & T & N)); [cbn; lia |].
    rewrite E. unfold pthread_exit. rewrite T. cbn [w_tsd w0].
    eexists. exists (run ++ [EvRead None]). split; [reflexivity |].
    cbn [log_all w_log w_errno]. rewrite L. cbn [w_log w0]. unfold vbus_dtor.
    split; [rewrite <- !app_assoc; reflexivity |].
    split; [apply Forall_app; split; [exact F | repeat constructor] |].
    split; [intros _; exists run; reflexivity | exact N].
  - assert (Hb : (rc =? 0) = false) by (apply Z.eqb_neq; exact Hrc).
    rewrite Hb. cbn [negb]. unfold pthread_exit. cbn [log_all w_tsd w_log w_errno].
    eexists. exists []. split; [reflexivity |].
    split; [reflexivity |]. split; [constructor |].
    split; [intros H; contradiction | reflexivity].
Qed.

Lemma run_events_no_sentinel (run : list event) :
  Forall run_event run -> List.filter is_sentinel run = [].
Proof.
  induction 1 as [| e run He _ IH]; [reflexivity |].
  cbn [List.filter]. rewrite IH. unfold run_event in He.
  destruct e as [r | [p |] | d | d | | fn | d |]; cbn in *; try reflexivity; discriminate.
Qed.

Lemma device_events_no_sentinel (dev : list event) :
  Forall (fun e => is_device e = true) dev -> List.filter is_sentinel dev = [].
Proof.
  induction 1 as [| e dev He _ IH]; [reflexivity |].
  cbn [List.filter]. rewrite IH.
  destruct e as [r | [p |] | d | d | | fn | d |]; cbn in *; try reflexivity; discriminate.
Qed.

End WorkerEnd.

(** C6.  A worker with a handler always ends, and when it does the handler
    is called with NULL exactly once: after everything the running loop did
    (its last action, when the loop ran, is the [read] that failed or met the
    end of the stream, whatever the reader was in the middle of), after the
    device has been restored and closed, and before the worker state is
    freed, which is the last thing to happen. *)
Theorem sentinel_exactly_once (rc : Z) (sc : vbus_softc) (w : world) :
  filter sc = true ->
  exists rv w' run dev,
    run_worker rc sc w = (Terminated rv, w') /\
    w_log w' = w_log w ++ run ++ dev ++ [EvFilter None; EvFreeSc] /\
    Forall run_event run /\
    Forall (fun e => is_device e = true) dev /\
    (rc = 0 -> exists run0, run = run0 ++ [EvRead None]) /\
    length (List.filter is_sentinel (run ++ dev ++ [EvFilter None; EvFreeSc])) = 1%nat.
Proof.
  intros Flt.
  destruct (run_worker_ends rc sc w Flt) as (w' & run & E & L & F & Hlast & _).
  destruct (cleanup_shape sc Flt) as (dev & C & D).
  exists (if rc =? 0 then 0 else w_errno w), w', run, dev.
  split; [exact E |]. split; [rewrite L, C; reflexivity |].
  split; [exact F |]. split; [exact D |]. split; [exact Hlast |].
  rewrite !List.filter_app, (run_events_no_sentinel run F),
    (device_events_no_sentinel dev D).
  reflexivity.
Qed.

Lemma sentinel_exactly_once_witness :
  exists rv w' run dev,
    run_worker 0 (mk_softc 3 true true)
               (mk_world [Byte.xaa; Byte.x00; Byte.x01] (Some 5) 0 [] None [])
    = (Terminated rv, w') /\
    w_log w' = [] ++ run ++ dev ++ [EvFilter None; EvFreeSc] /\
    Forall run_event run /\
    Forall (fun e => is_device e = true) dev /\
    (0 = 0 -> exists run0, run = run0 ++ [EvRead None]) /\
    length (List.filter is_sentinel (run ++ dev ++ [EvFilter None; EvFreeSc])) = 1%nat.
Proof.
  apply (sentinel_exactly_once 0 (mk_softc 3 true true)
           (mk_world [Byte.xaa; Byte.x00; Byte.x01] (Some 5) 0 [] None [])).
  reflexivity.
Defined.

Section Join.

Lemma run_events_not_free (run : list event) :
  Forall run_event run -> sc_freed run = false.
Proof.
  induction 1 as [| e run He _ IH]; [reflexivity |].
  unfold sc_freed in *. cbn [existsb]. rewrite IH. unfold run_event in He.
  destruct e as [r | [p |] | d | d | | fn | d |]; cbn in *; try reflexivity; discriminate.
Qed.

Lemma sc_freed_app (a b : list event) :
  sc_freed (a ++ b) = sc_freed a || sc_freed b.
Proof. apply existsb_app. Qed.

Lemma Forall_prefix {A : Type} (P : A -> Prop) (k : nat) (l : list A) :
  Forall P l -> Forall P (firstn k l).
Proof.
  intros H. rewrite <- (firstn_skipn k l) in H. apply Forall_app in H. tauto.
Qed.

(** The teardown frees the worker state. *)
Lemma cleanup_frees (sc : vbus_softc) : sc_freed (vbus_cleanup (Some sc)) = true.
Proof.
  unfold vbus_cleanup. rewrite !sc_freed_app. cbn. rewrite !orb_true_r. reflexivity.
Qed.

(** A worker that terminates has logged reads and deliveries, then its
    teardown, and its exit value is NULL. *)
Lemma run_worker_terminated (sc : vbus_softc) (w : world) (rv : Z) (w' : world) :
  run_worker 0 sc w = (Terminated rv, w') ->
  rv = 0 /\
  exists run, Forall run_event run /\
              w_log w' = w_log w ++ run ++ vbus_cleanup (Some sc).
Proof.
  unfold run_worker, vbus_thread, bind, pthread_setspecific. cbn [Z.eqb negb].
  set (w0 := mk_world _ _ _ _ (Some sc) _).
  destruct (vbus_loop (S (length (w_input w))) sc w0) as [[] | rv1 w1 | w1 | w1] eqn:L;
    try discriminate.
  apply vbus_loop_exit_ended in L. destruct L as (-> & run & (Lg & F & _ & _ & T & _)).
  unfold pthread_exit. rewrite T. cbn [w_tsd w0].
  intros E. injection E as <- <-. split; [reflexivity |].
  exists (run ++ [EvRead None]). split.
  - apply Forall_app. split; [exact F | repeat constructor].
  - cbn [log_all w_log]. rewrite Lg. cbn [w_log w0]. unfold vbus_dtor.
    rewrite <- !app_assoc. reflexivity.
Qed.

End Join.

(** C5, as the code has it.  When the worker terminates because a
    single-byte read fails or the stream ends, its exit value is NULL
    whatever the error; a worker with a handler does terminate when its input
    ends.  [vbus_join], entered at any moment from the launch of the worker up
    to the start of its teardown (the worker state then still exists) and with
    a [pthread_join] that succeeds, returns exactly the worker's exit value;
    and it returns a value only once the worker has terminated. *)
Theorem worker_exit_value_joined (sc : vbus_softc) (w : world) :
  (forall rv w', run_worker 0 sc w = (Terminated rv, w') -> rv = 0) /\
  (filter sc = true -> exists w', run_worker 0 sc w = (Terminated 0, w')) /\
  (sc_freed (w_log w) = false ->
   forall rv w',
     run_worker 0 sc w = (Terminated rv, w') ->
     exists run,
       w_log w' = w_log w ++ run ++ vbus_cleanup (Some sc) /\
       forall k,
         vbus_join (w_log w ++ firstn k run) 0 (fst (run_worker 0 sc w))
         = JoinReturns rv) /\
  (forall entry td rv, vbus_join entry 0 td = JoinReturns rv -> td = Terminated rv).
Proof.
  split; [| split; [| split]].
  - intros rv w' E. apply run_worker_terminated in E. tauto.
  - intros Flt.
    destruct (run_worker_ends 0 sc w Flt) as (w' & run & E & _).
    cbn [Z.eqb] in E. exists w'. exact E.
  - intros Hlive rv w' E. rewrite E. cbn [fst].
    apply run_worker_terminated in E. destruct E as (_ & run & F & L).
    exists run. split; [exact L |]. intros k. unfold vbus_join.
    rewrite sc_freed_app, Hlive, (run_events_not_free _ (Forall_prefix _ k run F)).
    reflexivity.
  - intros entry td rv. unfold vbus_join, pthread_join. cbn [Z.eqb].
    destruct (sc_freed entry); [discriminate |].
    destruct td as [| v]; [discriminate |]. intros E. injection E as <-. reflexivity.
Qed.

Lemma worker_exit_value_joined_witness :
  exists run,
    w_log (snd (run_worker 0 (mk_softc 3 false true)
                  (mk_world [Byte.x00] (Some 5) 0 [] None [EvSpawn])))
    = [EvSpawn] ++ run ++ vbus_cleanup (Some (mk_softc 3 false true)) /\
    forall k,
      vbus_join ([EvSpawn] ++ firstn k run) 0
                (fst (run_worker 0 (mk_softc 3 false true)
                        (mk_world [Byte.x00] (Some 5) 0 [] None [EvSpawn])))
      = JoinReturns 0.
Proof.
  apply (proj1 (proj2 (proj2 (worker_exit_value_joined (mk_softc 3 false true)
           (mk_world [Byte.x00] (Some 5) 0 [] None [EvSpawn]))))
         eq_refl 0
         (snd (run_worker 0 (mk_softc 3 false true)
                 (mk_world [Byte.x00] (Some 5) 0 [] None [EvSpawn])))).
  vm_compute. reflexivity.
Defined.

(** C5, as stated, fails, in three ways.  A [read] that fails with error 5
    on an empty stream ends the worker with exit value NULL, and NULL is what
    a [vbus_join] entered at the launch returns: the error code is not in the
    exit value.  A [vbus_join] entered after the worker has run its teardown
    reads [sc->td] from the freed worker state and does not return the exit
    value.  And a [pthread_join] that fails (here with code 22) leaves [rv]
    unwritten, so [vbus_join] does not return the exit value either. *)
Lemma worker_exit_value_not_as_stated :
  ~ (forall (sc : vbus_softc) (w : world) (e : Z),
       filter sc = true ->
       w_eof w = Some e ->
       vbus_join (w_log w) 0 (fst (run_worker 0 sc w)) = JoinReturns e) /\
  ~ (forall (sc : vbus_softc) (w : world) (entry : list event),
       filter sc = true ->
       exists rv,
         fst (run_worker 0 sc w) = Terminated rv /\
         vbus_join entry 0 (fst (run_worker 0 sc w)) = JoinReturns rv) /\
  ~ (forall (sc : vbus_softc) (w : world) (join_rc : Z),
       filter sc = true ->
       exists rv,
         fst (run_worker 0 sc w) = Terminated rv /\
         vbus_join (w_log w) join_rc (fst (run_worker 0 sc w)) = JoinReturns rv).
Proof.
  split; [| split]; intros H.
  - specialize (H (mk_softc 3 false true) (mk_world [] (Some 5) 0 [] None []) 5
                  eq_refl eq_refl).
    vm_compute in H. discriminate.
  - destruct (H (mk_softc 3 false true) (mk_world [] (Some 5) 0 [] None [])
                (w_log (snd (run_worker 0 (mk_softc 3 false true)
                               (mk_world [] (Some 5) 0 [] None []))))
                eq_refl) as (rv & _ & E).
    vm_compute in E. discriminate.
  - destruct (H (mk_softc 3 false true) (mk_world [] (Some 5) 0 [] None []) 22
                eq_refl) as (rv & _ & E).
    vm_compute in E. discriminate.
Qed.

(** * Start-up *)

Section Start.

Variable o : os.
Hypothesis key_ready : os_vbus_key o <> 0 \/ os_key_create o = 0.
Hypothesis sc_allocated : os_malloc o = true.

Lemma init_prelude :
  negb (os_vbus_key o =? 0) || (os_key_create o =? 0) = true /\
  negb (os_malloc o) = false.
Proof.
  split; [| rewrite sc_allocated; reflexivity].
  destruct key_ready as [H | H].
  - apply Z.eqb_neq in H. rewrite H. reflexivity.
  - rewrite H. apply orb_true_r.
Qed.

(** Every non-NULL path is handed to [open], the path [-] like any other,
    and a failed [open] fails the start: the handler gets its NULL call
    and nothing else is done. *)
Lemma vbus_init_opens (fn : string) (stty flt : bool) :
  exists rv log,
    vbus_init o (Some fn) stty flt = InitDone rv (EvOpen fn :: log) /\
    (os_open o fn = -1 ->
     rv = None /\ log = (if flt then [EvFilter None] else []) ++ [EvFreeSc]).
Proof.
  unfold vbus_init. destruct init_prelude as (-> & ->).
  cbn [c_or fd]. unfold init_err.
  destruct (os_open o fn =? -1) eqn:Eo.
  - eexists. eexists. split; [reflexivity |]. intros _.
    split; [reflexivity |]. cbn [vbus_cleanup do_stty fd filter app].
    rewrite Eo. reflexivity.
  - apply Z.eqb_neq in Eo.
    destruct stty;
      [destruct (os_tcgetattr o (os_open o fn) =? 0);
       [destruct (os_tcsetattr o (os_open o fn) =? 0) |] |];
      cbn [negb]; try destruct (os_pthread_create o =? 0); cbn [negb app];
      eexists; eexists; (split; [reflexivity | intros H; contradiction]).
Qed.

(** A NULL path reaches [strcmp] and faults there. *)
Lemma vbus_init_null_path (stty flt : bool) :
  vbus_init o None stty flt = InitFault [].
Proof.
  unfold vbus_init. destruct init_prelude as (-> & ->). reflexivity.
Qed.

End Start.

(** The NULL call of the handler happens at most once in a start that
    fails, and not at all in one that succeeds (the worker makes it
    later). *)
Lemma vbus_init_sentinel (o : os) (fn : option string) (stty flt : bool)
      (rv : option vbus_softc) (log : list event) :
  vbus_init o fn stty flt = InitDone rv log ->
  match rv with
  | Some sc => List.filter is_sentinel log = [] /\ filter sc = flt
  | None => (length (List.filter is_sentinel log) <= 1)%nat
  end.
Proof.
  unfold vbus_init, init_err.
  destruct (negb (os_vbus_key o =? 0) || (os_key_create o =? 0));
    [| intros E; injection E as <- <-; cbn; lia].
  destruct (negb (os_malloc o)); [intros E; injection E as <- <-; cbn; lia |].
  destruct fn as [fn |]; cbn [c_or option_map strcmp]; [| discriminate].
  unfold vbus_cleanup. cbn [fd do_stty filter].
  destruct (os_open o fn =? -1) eqn:Eo; cbn [negb].
  - intros E; injection E as <- <-. destruct flt; cbn; lia.
  - destruct stty;
      [destruct (negb (os_tcgetattr o (os_open o fn) =? 0));
       [| destruct (negb (os_tcsetattr o (os_open o fn) =? 0))] |];
      try destruct (negb (os_pthread_create o =? 0));
      intros E; injection E as <- <-; cbn [fd do_stty filter];
      try (split; reflexivity);
      rewrite ?Eo; destruct flt; cbn; lia.
Qed.

(** C8 fails on the code.  With the path [-] and no file of that name,
    [vbus_init] calls [open] on [-], the call fails, and the start fails:
    the worker is never launched on the standard input.  The condition
    [vbus_fn != NULL || strcmp(vbus_fn, "-") != 0] holds for every non-NULL
    path. *)
Lemma vbus_init_dash_is_opened :
  vbus_init (mk_os 0 0 true (fun _ => -1) (fun _ => 0) (fun _ => 0) 0)
            (Some "-"%string) false true
  = InitDone None [EvOpen "-"%string; EvFilter None; EvFreeSc].
Proof. vm_compute. reflexivity. Qed.

(** * Further properties of the code *)

(** ** The reader on input it accepts *)

Section Forward.

Variable sc : vbus_softc.

Lemma top_bit_not_sync (b : byte) : clean b -> not_sync b.
Proof.
  unfold clean, not_sync, top_bit. intros H E. rewrite E in H. discriminate.
Qed.

Lemma advance_nil (w : world) : advance [] (w_input w) w = w.
Proof. destruct w. unfold advance. cbn. rewrite app_nil_r. reflexivity. Qed.

Lemma advance_advance (a b r1 r2 : list byte) (w : world) :
  advance b r2 (advance a r1 w) = advance (a ++ b) r2 w.
Proof. unfold advance. cbn. rewrite reads_app, app_assoc. reflexivity. Qed.

Lemma vbus_getc_run (w : world) (b : byte) (rest : list byte) :
  w_input w = b :: rest -> vbus_getc sc w = Ok b (advance [b] rest w).
Proof. intros E. unfold vbus_getc. rewrite E. reflexivity. Qed.

Lemma read_wire_run (n : nat) (acc bs rest : list byte) (w : world) :
  w_input w = bs ++ rest -> length bs = n -> Forall clean bs ->
  read_wire sc n acc w = Ok (Some (acc ++ bs)) (advance bs rest w).
Proof.
  revert acc bs w. induction n as [| n IH]; intros acc bs w Hin Hl Hc.
  - destruct bs; [| discriminate]. cbn [read_wire app] in *. unfold ret.
    rewrite app_nil_r, <- Hin, advance_nil. reflexivity.
  - destruct bs as [| b bs]; [discriminate |]. cbn [read_wire]. unfold bind.
    rewrite (vbus_getc_run w b (bs ++ rest) Hin).
    inversion Hc as [| ? ? Hb Hbs]. subst. unfold clean in Hb. rewrite Hb.
    rewrite (IH (acc ++ [b]) bs (advance [b] (bs ++ rest) w));
      [| reflexivity | cbn in Hl; lia | exact Hbs].
    rewrite advance_advance, <- app_assoc. reflexivity.
Qed.

Lemma read_wire_abort (n : nat) (acc bs : list byte) (b : byte) (rest : list byte)
      (w : world) :
  w_input w = bs ++ b :: rest -> (length bs < n)%nat -> Forall clean bs ->
  top_bit b = true ->
  read_wire sc n acc w = Ok None (advance (bs ++ [b]) rest w).
Proof.
  revert acc bs w. induction n as [| n IH]; intros acc bs w Hin Hl Hc Hb; [lia |].
  cbn [read_wire]. unfold bind. destruct bs as [| c bs].
  - cbn [app] in *. rewrite (vbus_getc_run w b rest Hin), Hb. reflexivity.
  - cbn [app] in Hin. rewrite (vbus_getc_run w c (bs ++ b :: rest) Hin).
    inversion Hc as [| ? ? Hcc Hbs]. subst. unfold clean in Hcc. rewrite Hcc.
    rewrite (IH (acc ++ [c]) bs (advance [c] (bs ++ b :: rest) w));
      [| reflexivity | cbn in Hl; lia | exact Hbs | exact Hb].
    rewrite advance_advance. reflexivity.
Qed.

Lemma vbus_read_frame_run (mem : list (option byte)) (off : Z) (f rest : list byte)
      (w : world) :
  w_input w = f ++ rest -> good_frame f ->
  vbus_read_frame sc mem off w = Ok (0, store_frame f mem off) (advance f rest w).
Proof.
  intros Hin (Hl & Hc & Hcrc). unfold vbus_read_frame, bind.
  rewrite (read_wire_run (Z.to_nat VBUS_WIRE_FRAME) [] f rest w Hin Hl Hc).
  cbn [app]. rewrite Hcrc. reflexivity.
Qed.

Lemma poke_app_r {A : Type} (a b : list A) (k : nat) (v : A) :
  poke (a ++ b) (length a + k) v = a ++ poke b k v.
Proof. induction a as [| h a IH]; cbn; [reflexivity | rewrite IH; reflexivity]. Qed.

Lemma store_frame_next (f : list byte) (done : list (option byte))
      (tail : list (option byte)) :
  store_frame f (done ++ None :: None :: None :: None :: tail) (Z.of_nat (length done))
  = (done ++ map Some (decode_frame f)) ++ tail.
Proof.
  unfold store_frame.
  replace (Z.to_nat (Z.of_nat (length done) + 0)) with (length done + 0)%nat by lia.
  replace (Z.to_nat (Z.of_nat (length done) + 1)) with (length done + 1)%nat by lia.
  replace (Z.to_nat (Z.of_nat (length done) + 2)) with (length done + 2)%nat by lia.
  replace (Z.to_nat (Z.of_nat (length done) + 3)) with (length done + 3)%nat by lia.
  rewrite !poke_app_r. cbn. rewrite <- app_assoc. reflexivity.
Qed.

Lemma read_frames_run (fs : list (list byte)) :
  forall (i : Z) (pkt : vbus_pkt) (done : list byte) (rest : list byte) (w : world),
    w_input w = concat fs ++ rest ->
    Forall good_frame fs ->
    aux_data pkt = map Some done ++ repeat None (4 * length fs) ->
    i * VBUS_FRAME_LEN = Z.of_nat (length done) ->
    read_frames sc (length fs) i pkt w
    = Ok (Some (mk_pkt (dst pkt) (src pkt) (cmd pkt) (proto pkt) (frames pkt)
                       (map Some (done ++ concat (map decode_frame fs)))))
         (advance (concat fs) rest w).
Proof.
  induction fs as [| f fs IH]; intros i pkt done rest w Hin Hg Haux Hi.
  - cbn [length read_frames concat map app] in *. unfold ret.
    rewrite app_nil_r in *. rewrite <- Haux, <- Hin, advance_nil.
    destruct pkt. reflexivity.
  - cbn [length read_frames concat map]. unfold bind.
    inversion Hg as [| ? ? Hf Hfs]. subst. cbn [concat] in Hin.
    rewrite <- app_assoc in Hin.
    rewrite (vbus_read_frame_run (aux_data pkt) (i * VBUS_FRAME_LEN) f
               (concat fs ++ rest) w Hin Hf).
    cbn [Z.eqb negb].
    cbn [length] in Haux.
    replace (4 * S (length fs))%nat with (4 + 4 * length fs)%nat in Haux by lia.
    cbn [repeat Nat.add] in Haux.
    rewrite Haux, Hi.
    replace (length done) with (length (map Some done)) by apply length_map.
    rewrite store_frame_next, <- map_app.
    rewrite (IH (i + 1) _ (done ++ decode_frame f) rest
                (advance f (concat fs ++ rest) w));
      [| reflexivity | exact Hfs | reflexivity
       | rewrite length_app; cbn [length decode_frame];
         unfold VBUS_FRAME_LEN in *; lia].
    cbn [dst src cmd proto frames]. rewrite advance_advance, <- app_assoc.
    reflexivity.
Qed.

Lemma vbus_parse_header_run (hdr : list byte) (w : world) :
  vbus_crc_ok hdr VBUS_WIRE_HDR = true -> hd true (w_heap w) = true ->
  vbus_parse_header hdr w
  = Ok (Some (mk_pkt (dst (packet_of hdr [])) (src (packet_of hdr []))
                     (cmd (packet_of hdr [])) (proto (packet_of hdr []))
                     (frames (packet_of hdr []))
                     (repeat None (Z.to_nat (4 * rd hdr 7)))))
       (pop_heap w).
Proof.
  intros Crc Hh. unfold vbus_parse_header, bind, malloc, pop_heap. rewrite Crc.
  cbn [negb]. unfold rd. rewrite !lor_bytes_16 by apply byte_range.
  destruct w as [inp eof en heap tsd log]. cbn [w_heap w_input w_eof w_errno w_tsd w_log] in *.
  destruct heap as [| ok heap]; cbn [hd tl] in *; [reflexivity |].
  subst ok. reflexivity.
Qed.

(** The pass over a well-framed packet: exactly its bytes are read, one
    allocation is made, and the packet goes to the handler; when the handler
    is NULL the call faults. *)
Lemma vbus_packet_run (hdr : list byte) (fs : list (list byte)) (rest : list byte)
      (w : world) :
  w_input w = hdr ++ concat fs ++ rest ->
  good_header hdr -> Z.of_nat (length fs) = rd hdr 7 -> Forall good_frame fs ->
  hd true (w_heap w) = true ->
  vbus_packet sc w
  = if filter sc
    then Ok true (emit (EvFilter (Some (packet_of hdr fs)))
                       (advance (hdr ++ concat fs) rest (pop_heap w)))
    else Fault (advance (hdr ++ concat fs) rest (pop_heap w)).
Proof.
  intros Hin (Hl & Hc & Crc) Hn Hfs Hh. unfold vbus_packet, bind.
  rewrite (read_wire_run (Z.to_nat VBUS_WIRE_HDR) [] hdr (concat fs ++ rest) w Hin Hl Hc).
  cbn [app].
  rewrite (vbus_parse_header_run hdr (advance hdr (concat fs ++ rest) w) Crc Hh).
  cbn [frames packet_of]. rewrite <- Hn, Nat2Z.id.
  rewrite (read_frames_run fs 0 _ [] rest
             (pop_heap (advance hdr (concat fs ++ rest) w)));
    [| reflexivity | exact Hfs
     | cbn [aux_data map app]; f_equal; lia | reflexivity].
  cbn [dst src cmd proto frames app]. unfold packet_of. rewrite Hn.
  assert (E : advance (concat fs) rest (pop_heap (advance hdr (concat fs ++ rest) w))
              = advance (hdr ++ concat fs) rest (pop_heap w)).
  { unfold advance, pop_heap. cbn. rewrite reads_app, !app_assoc. reflexivity. }
  rewrite E. destruct (filter sc); reflexivity.
Qed.

(** A header that fails its checksum, or for which there is no memory: the
    nine bytes are read and the pass is over. *)
Lemma vbus_packet_header_rejected (hdr rest : list byte) (w : world) :
  w_input w = hdr ++ rest -> length hdr = 9%nat -> Forall clean hdr ->
  vbus_crc_ok hdr VBUS_WIRE_HDR = false \/ hd true (w_heap w) = false ->
  vbus_packet sc w
  = Ok false (advance hdr rest
                (if vbus_crc_ok hdr VBUS_WIRE_HDR then pop_heap w else w)).
Proof.
  intros Hin Hl Hc Hrej. unfold vbus_packet, bind.
  rewrite (read_wire_run (Z.to_nat VBUS_WIRE_HDR) [] hdr rest w Hin Hl Hc).
  cbn [app]. unfold vbus_parse_header.
  destruct (vbus_crc_ok hdr VBUS_WIRE_HDR) eqn:Crc; cbn [negb]; [| reflexivity].
  destruct Hrej as [Hrej | Hrej]; [discriminate |].
  unfold bind, malloc. cbn [advance w_heap].
  destruct w as [inp eof en heap tsd log]. cbn [w_heap] in *.
  destruct heap as [| ok heap]; cbn [hd] in Hrej; [discriminate |]. subst ok.
  reflexivity.
Qed.

(** Hunting: bytes that are not the sync byte are read and dropped. *)
Lemma vbus_loop_hunt (junk rest : list byte) (fuel : nat) (w : world) :
  w_input w = junk ++ rest -> Forall not_sync junk ->
  vbus_loop (length junk + fuel) sc w = vbus_loop fuel sc (advance junk rest w).
Proof.
  revert w. induction junk as [| b junk IH]; intros w Hin Hj.
  - cbn [length Nat.add app] in *. rewrite <- Hin, advance_nil. reflexivity.
  - cbn [length Nat.add vbus_loop]. unfold bind.
    rewrite (vbus_getc_run w b (junk ++ rest) Hin).
    inversion Hj as [| ? ? Hb Hj']. subst. unfold not_sync in Hb.
    apply Z.eqb_neq in Hb. rewrite Hb. cbn [negb].
    rewrite (IH (advance [b] (junk ++ rest) w)); [| reflexivity | exact Hj'].
    rewrite advance_advance. reflexivity.
Qed.

Lemma vbus_loop_sync (fuel : nat) (sync : byte) (rest : list byte) (w : world) :
  w_input w = sync :: rest -> byte.unsigned sync = VBUS_SYNC ->
  vbus_loop (S fuel) sc w
  = match vbus_packet sc (advance [sync] rest w) with
    | Ok _ w' => vbus_loop fuel sc w'
    | Exit rv w' => Exit rv w'
    | Fault w' => Fault w'
    | OutOfFuel w' => OutOfFuel w'
    end.
Proof.
  intros Hin Hs. cbn [vbus_loop]. unfold bind.
  rewrite (vbus_getc_run w sync rest Hin), Hs. reflexivity.
Qed.

(** A header cut short by a byte with its top bit set: that byte is read
    too, and the loop is back at hunting with what follows it. *)
Lemma vbus_loop_abort (fuel : nat) (sync : byte) (pre : list byte) (b : byte)
      (rest : list byte) (w : world) :
  w_input w = sync :: pre ++ b :: rest -> byte.unsigned sync = VBUS_SYNC ->
  (length pre < 9)%nat -> Forall clean pre -> top_bit b = true ->
  vbus_loop (S fuel) sc w = vbus_loop fuel sc (advance (sync :: pre ++ [b]) rest w).
Proof.
  intros Hin Hs Hl Hc Hb. rewrite (vbus_loop_sync fuel sync _ w Hin Hs).
  unfold vbus_packet, bind.
  rewrite (read_wire_abort (Z.to_nat VBUS_WIRE_HDR) [] pre b rest
             (advance [sync] (pre ++ b :: rest) w));
    [| reflexivity | exact Hl | exact Hc | exact Hb].
  unfold ret. rewrite advance_advance. reflexivity.
Qed.

(** A well-framed packet right after sync-free bytes: the loop reads all of
    it, hands it over and goes on with what follows. *)
Lemma vbus_loop_packet (fuel : nat) (junk : list byte) (sync : byte)
      (hdr : list byte) (fs : list (list byte)) (rest : list byte) (w : world) :
  filter sc = true ->
  w_input w = junk ++ sync :: hdr ++ concat fs ++ rest ->
  Forall not_sync junk -> byte.unsigned sync = VBUS_SYNC ->
  good_header hdr -> Z.of_nat (length fs) = rd hdr 7 -> Forall good_frame fs ->
  hd true (w_heap w) = true ->
  vbus_loop (length junk + S fuel) sc w
  = vbus_loop fuel sc
      (emit (EvFilter (Some (packet_of hdr fs)))
            (advance (junk ++ sync :: hdr ++ concat fs) rest (pop_heap w))).
Proof.
  intros Flt Hin Hj Hs Hh Hn Hfs Hheap.
  rewrite (vbus_loop_hunt junk _ (S fuel) w Hin Hj).
  rewrite (vbus_loop_sync fuel sync (hdr ++ concat fs ++ rest)
             (advance junk (sync :: hdr ++ concat fs ++ rest) w) eq_refl Hs).
  rewrite (vbus_packet_run hdr fs rest
             (advance [sync] (hdr ++ concat fs ++ rest)
                (advance junk (sync :: hdr ++ concat fs ++ rest) w))
             eq_refl Hh Hn Hfs Hheap), Flt.
  f_equal. unfold emit, advance, pop_heap, reads.
  cbn [w_input w_eof w_errno w_heap w_tsd w_log]. f_equal.
  repeat (rewrite map_app; cbn [map app]).
  repeat (rewrite <- app_assoc; cbn [app]). reflexivity.
Qed.

End Forward.

(** ** What the handler can be called with *)

Section Calls.

Variable sc : vbus_softc.

(** A pass that ends in a delivery has read a well-framed packet, and the
    packet delivered is the one those bytes decode to. *)
Lemma vbus_packet_inv (w w' : world) :
  vbus_packet sc w = Ok true w' ->
  filter sc = true /\
  exists hdr fs,
    good_header hdr /\ Z.of_nat (length fs) = rd hdr 7 /\ Forall good_frame fs /\
    hd true (w_heap w) = true /\
    w_input w = hdr ++ concat fs ++ w_input w' /\
    w' = emit (EvFilter (Some (packet_of hdr fs)))
              (advance (hdr ++ concat fs) (w_input w') (pop_heap w)).
Proof.
  intros E. pose proof E as E0. revert E. unfold vbus_packet, bind.
  pose proof (read_wire_spec sc (Z.to_nat VBUS_WIRE_HDR) [] w) as R.
  destruct (read_wire sc (Z.to_nat VBUS_WIRE_HDR) [] w)
    as [[buffer |] w1 | rv w1 | w1 | w1]; try discriminate.
  destruct R as (hdr & -> & Hl & Hc & Hr & Hp). cbn [app].
  pose proof (vbus_parse_header_spec hdr w1) as P.
  destruct (vbus_parse_header hdr w1) as [[pkt |] w2 | rv w2 | w2 | w2];
    try discriminate.
  destruct P as (Crc & Hheap & Hh & _ & Hr2).
  pose proof (read_frames_spec sc (Z.to_nat (frames pkt)) 0 pkt w2) as F.
  destruct (read_frames sc (Z.to_nat (frames pkt)) 0 pkt w2)
    as [[p |] w3 | rv w3 | w3 | w3]; try discriminate.
  destruct F as (fs & Hlf & Hf & Hr3 & _).
  destruct (filter sc) eqn:Flt; [| discriminate].
  intros E. injection E as <-. split; [reflexivity |].
  assert (Hn : Z.of_nat (length fs) = rd hdr 7).
  { destruct Hh as (_ & _ & _ & _ & Hfr). rewrite Hlf, Hfr. apply Z2Nat.id.
    unfold rd. apply byte_range. }
  assert (Hin : w_input w = hdr ++ concat fs ++ w_input w3).
  { destruct Hr as (I1 & _). destruct Hr2 as (I2 & _). destruct Hr3 as (I3 & _).
    cbn [app] in I2. rewrite I1, I2, I3. reflexivity. }
  assert (Hgood : good_header hdr) by (split; [exact Hl | split; assumption]).
  rewrite Hp in Hheap.
  exists hdr, fs. cbn [emit w_input].
  split; [exact Hgood |]. split; [exact Hn |]. split; [exact Hf |].
  split; [exact Hheap |]. split; [exact Hin |].
  rewrite (vbus_packet_run sc hdr fs (w_input w3) w Hin Hgood Hn Hf Hheap), Flt in E0.
  congruence.
Qed.

Lemma vbus_loop_tsd (fuel : nat) (w : world) :
  w_tsd (final (vbus_loop fuel sc w)) = w_tsd w.
Proof.
  revert w. induction fuel as [| fuel IH]; intros w; cbn [vbus_loop]; [reflexivity |].
  unfold bind. pose proof (vbus_getc_spec sc w) as G.
  destruct (vbus_getc sc w) as [ch w1 | rv w1 | w1 | w1]; try contradiction.
  - destruct G as (_ & _ & _ & _ & T1).
    destruct (negb (byte.unsigned ch =? VBUS_SYNC)); [rewrite IH; exact T1 |].
    pose proof (vbus_packet_spec sc w1) as P.
    destruct (vbus_packet sc w1) as [[|] w2 | rv w2 | w2 | w2]; try contradiction;
      cbn [final].
    + destruct P as (_ & hdr & fs & q & w1' & _ & _ & _ & _ & Hr & ->).
      rewrite IH. cbn [emit w_tsd]. destruct Hr as (_ & _ & _ & _ & T). congruence.
    + destruct P as (bs & (_ & _ & _ & _ & T)). rewrite IH. congruence.
    + destruct P as (_ & (_ & _ & _ & _ & T & _)). congruence.
    + destruct P as (_ & bs & (_ & _ & _ & _ & T)). congruence.
  - destruct G as (_ & (_ & _ & _ & _ & T & _)). exact T.
Qed.

(** Every handler call the loop logs is the delivery of a packet decoded
    from a good header and as many good frames as it announces. *)
Lemma vbus_loop_filter_calls (fuel : nat) (w : world) (x : option vbus_pkt) :
  In (EvFilter x) (w_log (final (vbus_loop fuel sc w))) ->
  In (EvFilter x) (w_log w) \/
  (filter sc = true /\
   exists hdr fs,
     x = Some (packet_of hdr fs) /\ good_header hdr /\
     Z.of_nat (length fs) = rd hdr 7 /\ Forall good_frame fs).
Proof.
  revert w. induction fuel as [| fuel IH]; intros w; cbn [vbus_loop].
  - cbn [final]. auto.
  - unfold bind. pose proof (vbus_getc_spec sc w) as G.
    destruct (vbus_getc sc w) as [ch w1 | rv w1 | w1 | w1]; try contradiction.
    + destruct (negb (byte.unsigned ch =? VBUS_SYNC)).
      * intros H. apply IH in H. destruct H as [H | H]; [left | right; exact H].
        eapply reads_from_filter; [exact G | exact H].
      * pose proof (vbus_packet_spec sc w1) as P.
        destruct (vbus_packet sc w1) as [[|] w2 | rv w2 | w2 | w2] eqn:E;
          try contradiction; cbn [final].
        -- clear P. apply vbus_packet_inv in E.
           destruct E as (Flt & hdr & fs & Hh & Hn & Hf & _ & _ & ->).
           intros H. apply IH in H. destruct H as [H | H]; [| right; exact H].
           cbn [emit advance pop_heap w_log] in H.
           apply in_app_or in H. destruct H as [H | H].
           ++ left. eapply reads_from_filter; [exact G |].
              apply in_app_or in H. destruct H as [H | H]; [exact H |].
              exfalso. exact (reads_no_filter _ _ H).
           ++ destruct H as [H | []]. injection H as <-. right.
              split; [exact Flt |]. exists hdr, fs. auto.
        -- destruct P as (bs & Hr). intros H. apply IH in H.
           destruct H as [H | H]; [left | right; exact H].
           eapply reads_from_filter; [exact G |].
           eapply reads_from_filter; [exact Hr | exact H].
        -- destruct P as (_ & Hs). intros H. left.
           eapply reads_from_filter; [exact G |].
           eapply stops_from_filter; [exact Hs | exact H].
        -- destruct P as (_ & bs & Hr). intros H. left.
           eapply reads_from_filter; [exact G |].
           eapply reads_from_filter; [exact Hr | exact H].
    + destruct G as (_ & Hs). cbn [final]. intros H. left.
      eapply stops_from_filter; [exact Hs | exact H].
Qed.

(** An event in the log of a whole worker was there before, or comes from
    the teardown, or from the loop. *)
Lemma run_worker_log (rc : Z) (w : world) (e : event) :
  In e (w_log (snd (run_worker rc sc w))) ->
  In e (w_log w) \/ In e (vbus_cleanup (Some sc)) \/
  (rc = 0 /\
   In e (w_log (final (vbus_loop (S (length (w_input w))) sc
                         (mk_world (w_input w) (w_eof w) (w_errno w) (w_heap w)
                                   (Some sc) (w_log w)))))).
Proof.
  unfold run_worker, vbus_thread, bind, pthread_setspecific.
  destruct (Z.eqb_spec rc 0) as [-> | Hrc]; cbn [negb Z.eqb].
  - set (w0 := mk_world _ _ _ _ (Some sc) _).
    pose proof (vbus_loop_tsd (S (length (w_input w))) w0) as T.
    destruct (vbus_loop (S (length (w_input w))) sc w0) as [[] | rv w' | w' | w'];
      cbn [final snd] in *; try (intros H; right; right; split; [reflexivity | exact H]).
    unfold pthread_exit. cbn [snd]. rewrite T. cbn [w_tsd w0 log_all w_log].
    unfold vbus_dtor. intros H. apply in_app_or in H.
    destruct H as [H | H]; [right; right; split; [reflexivity | exact H] | right; left; exact H].
  - assert (Hb : (rc =? 0) = false) by (apply Z.eqb_neq; exact Hrc).
    rewrite Hb. cbn [negb]. unfold pthread_exit. cbn [log_all w_tsd w_log snd].
    intros H. apply in_app_or in H. destruct H as [H | H]; auto.
Qed.

Lemma cleanup_filter_call (x : option vbus_pkt) :
  In (EvFilter x) (vbus_cleanup (Some sc)) -> x = None /\ filter sc = true.
Proof.
  cbn. destruct (do_stty sc), (negb (fd sc =? -1)), (filter sc); cbn;
    intros H; repeat (destruct H as [H | H]; try discriminate);
    try contradiction; injection H as <-; auto.
Qed.

End Calls.

(** ** Two bytes in sixteen bits *)

Section Pairs.

Lemma testbit_small (a n m : Z) :
  0 <= a < 2 ^ n -> 0 <= n <= m -> Z.testbit a m = false.
Proof.
  intros Ha Hn. rewrite <- (Z.mod_small a (2 ^ n)) by exact Ha.
  apply Z.mod_pow2_bits_high. exact Hn.
Qed.

Lemma land_low_high (a b : Z) : 0 <= a < 256 -> Z.land a (Z.shiftl b 8) = 0.
Proof.
  intros Ha. apply Z.bits_inj'. intros n Hn. rewrite Z.land_spec, Z.bits_0.
  destruct (Z.ltb_spec n 8) as [H | H].
  - rewrite Z.shiftl_spec_low by exact H. apply andb_false_r.
  - rewrite (testbit_small a 8 n) by (change (2 ^ 8) with 256; lia). reflexivity.
Qed.

(** [a | b << 8] is [a + 256 * b] when [a] is a byte. *)
Lemma lor_shift_add (a b : Z) :
  0 <= a < 256 -> Z.lor a (Z.shiftl b 8) = a + 256 * b.
Proof.
  intros Ha. rewrite <- Z.lxor_lor by (apply land_low_high; exact Ha).
  rewrite <- Z.add_nocarry_lxor by (apply land_low_high; exact Ha).
  rewrite Z.shiftl_mul_pow2 by lia. change (2 ^ 8) with 256. lia.
Qed.

Lemma lor_shift_inj (a b a' b' : Z) :
  0 <= a < 256 -> 0 <= a' < 256 ->
  Z.lor a (Z.shiftl b 8) = Z.lor a' (Z.shiftl b' 8) -> a = a' /\ b = b'.
Proof.
  intros Ha Ha' E. rewrite !lor_shift_add in E by assumption. lia.
Qed.

Lemma lor_shift_clean (a b : Z) :
  0 <= a < 128 -> 0 <= b < 128 ->
  0 <= Z.lor a (Z.shiftl b 8) < 2 ^ 15 /\
  Z.testbit (Z.lor a (Z.shiftl b 8)) 7 = false.
Proof.
  intros Ha Hb. split.
  - rewrite lor_shift_add by lia. change (2 ^ 15) with 32768. lia.
  - rewrite Z.lor_spec, Z.shiftl_spec_low by lia.
    rewrite (testbit_small a 7 7) by (change (2 ^ 7) with 128; lia). reflexivity.
Qed.

Lemma clean_small (b : byte) : clean b -> 0 <= byte.unsigned b < 128.
Proof.
  unfold clean, top_bit. intros H. apply negb_false_iff, Z.eqb_eq in H.
  pose proof (byte_range b). apply land_80_zero_iff in H; lia.
Qed.

Lemma rd_clean (l : list byte) (k : Z) : Forall clean l -> 0 <= rd l k < 128.
Proof.
  intros H. unfold rd. apply clean_small.
  destruct (nth_in_or_default (Z.to_nat k) l Byte.x00) as [Hin | ->].
  - rewrite Forall_forall in H. apply H. exact Hin.
  - reflexivity.
Qed.

Lemma frame_byte_cases (f : list byte) (i m : Z) :
  frame_byte f i m = Byte.x00 \/ frame_byte f i m = Byte.x80.
Proof.
  unfold frame_byte.
  destruct (negb (Z.lor (rd f i) (Z.land (rd f 4) m) =? 0)); [right | left]; reflexivity.
Qed.

Lemma packet_of_whole (hdr : list byte) (fs : list (list byte)) :
  Z.of_nat (length fs) = rd hdr 7 -> whole_payload (packet_of hdr fs).
Proof.
  intros Hn. exists (concat (map decode_frame fs)). cbn [packet_of aux_data frames].
  split; [reflexivity |]. rewrite <- Hn. clear Hn. split.
  - induction fs as [| f fs IH]; [reflexivity |].
    cbn [map concat]. rewrite length_app. cbn [decode_frame length] in *. lia.
  - induction fs as [| f fs IH]; [constructor |].
    cbn [map concat]. apply Forall_app. split; [| exact IH].
    unfold decode_frame.
    repeat (constructor; [apply frame_byte_cases |]). constructor.
Qed.

Lemma packet_of_clean (hdr : list byte) (fs : list (list byte)) :
  Forall clean hdr -> clean_fields (packet_of hdr fs).
Proof.
  intros Hc. unfold clean_fields. cbn [packet_of frames proto dst src cmd].
  pose proof (fun k => rd_clean hdr k Hc) as R.
  destruct (lor_shift_clean (rd hdr 0) (rd hdr 1) (R 0) (R 1)) as (D1 & D2).
  destruct (lor_shift_clean (rd hdr 2) (rd hdr 3) (R 2) (R 3)) as (S1 & S2).
  destruct (lor_shift_clean (rd hdr 5) (rd hdr 6) (R 5) (R 6)) as (C1 & C2).
  repeat split; try apply R; tauto.
Qed.

End Pairs.

(** ** The worker and its handler *)

(** X1.  When the input holds no sync byte (0xaa), the worker reads it to
    its end and never calls the handler with a packet. *)
Theorem no_sync_no_packet (rc : Z) (sc : vbus_softc) (w : world) (p : vbus_pkt) :
  Forall not_sync (w_input w) ->
  In (EvFilter (Some p)) (w_log (snd (run_worker rc sc w))) ->
  In (EvFilter (Some p)) (w_log w).
Proof.
  intros Hns H. apply run_worker_log in H. destruct H as [H | [H | (_ & H)]].
  - exact H.
  - exfalso. exact (cleanup_no_packet _ _ H).
  - apply vbus_loop_sound in H. cbn [w_log w_input] in H.
    destruct H as [H | H]; [exact H | exfalso].
    destruct H as (pre & sync & hdr & fs & post & E & Hs & _).
    rewrite E in Hns. apply Forall_app in Hns. destruct Hns as (_ & Hns).
    inversion Hns as [| ? ? Hb _]. exact (Hb Hs).
Qed.

Lemma no_sync_no_packet_witness :
  In (EvFilter (Some (mk_pkt 0 0 0 0 0 []))) [EvFilter (Some (mk_pkt 0 0 0 0 0 []))].
Proof.
  apply (no_sync_no_packet 0 (mk_softc 3 false true)
           (mk_world [Byte.x01; Byte.x7f]
                     None 0 [] None [EvFilter (Some (mk_pkt 0 0 0 0 0 []))])).
  - repeat constructor; vm_compute; discriminate.
  - vm_compute. left. reflexivity.
Defined.

(** X2.  Every packet the worker hands to the handler has all of its
    payload stored (no cell of the allocated array is left unwritten), four
    bytes per announced frame, each byte 0x00 or 0x80; its frame count and
    protocol revision are below 128, and its destination, source and command
    are below 2^15 with bit 7 clear. *)
Theorem delivered_packets_whole_and_clean
        (rc : Z) (sc : vbus_softc) (w : world) (p : vbus_pkt) :
  In (EvFilter (Some p)) (w_log (snd (run_worker rc sc w))) ->
  In (EvFilter (Some p)) (w_log w) \/ (whole_payload p /\ clean_fields p).
Proof.
  intros H. apply run_worker_log in H. destruct H as [H | [H | (_ & H)]].
  - left. exact H.
  - exfalso. exact (cleanup_no_packet _ _ H).
  - apply vbus_loop_filter_calls in H. cbn [w_log] in H.
    destruct H as [H | (_ & hdr & fs & E & (_ & Hc & _) & Hn & _)]; [left; exact H |].
    injection E as ->. right. split.
    + apply packet_of_whole. exact Hn.
    + apply packet_of_clean. exact Hc.
Qed.

Lemma delivered_packets_whole_and_clean_witness :
  In (EvFilter (Some (mk_pkt 0 0 0 0 0 []))) [] \/
  (whole_payload (mk_pkt 0 0 0 0 0 []) /\ clean_fields (mk_pkt 0 0 0 0 0 [])).
Proof.
  apply (delivered_packets_whole_and_clean 0 (mk_softc 0 false true)
           (mk_world [Byte.xaa; Byte.x00; Byte.x00; Byte.x00; Byte.x00; Byte.x00;
                      Byte.x00; Byte.x00; Byte.x00; Byte.x7f]
                     None 0 [] None [])).
  vm_compute. repeat (first [left; reflexivity | right]).
Defined.

(** X3.  A worker started with a NULL handler never calls it: neither with
    a packet nor with NULL at teardown. *)
Theorem null_handler_never_called
        (rc : Z) (sc : vbus_softc) (w : world) (x : option vbus_pkt) :
  filter sc = false ->
  In (EvFilter x) (w_log (snd (run_worker rc sc w))) ->
  In (EvFilter x) (w_log w).
Proof.
  intros Flt H. apply run_worker_log in H. destruct H as [H | [H | (_ & H)]].
  - exact H.
  - apply cleanup_filter_call in H. destruct H as (_ & H). congruence.
  - apply vbus_loop_filter_calls in H. cbn [w_log] in H.
    destruct H as [H | (H & _)]; [exact H | congruence].
Qed.

Lemma null_handler_never_called_witness :
  In (EvFilter None) [EvFilter None].
Proof.
  apply (null_handler_never_called 0 (mk_softc 3 false false)
           (mk_world [Byte.x01] None 0 [] None [EvFilter None])).
  - reflexivity.
  - vm_compute. left. reflexivity.
Defined.

(** ** Packets on the wire and packets delivered *)

Section Delivered.

Variable sc : vbus_softc.
Hypothesis has_handler : filter sc = true.

Lemma run_worker_exit (w : world) (rv : Z) (w' : world) :
  vbus_loop (S (length (w_input w))) sc
            (mk_world (w_input w) (w_eof w) (w_errno w) (w_heap w) (Some sc) (w_log w))
  = Exit rv w' ->
  run_worker 0 sc w
  = (Terminated rv,
     log_all (vbus_cleanup (Some sc))
             (mk_world (w_input w') (w_eof w') (w_errno w') (w_heap w') None (w_log w'))).
Proof.
  intros E. unfold run_worker, vbus_thread, bind, pthread_setspecific.
  cbn [Z.eqb negb]. cbv zeta. cbn [w_input w_eof w_errno w_heap w_tsd w_log].
  rewrite E.
  pose proof (vbus_loop_tsd sc (S (length (w_input w)))
                (mk_world (w_input w) (w_eof w) (w_errno w) (w_heap w) (Some sc) (w_log w)))
    as T.
  rewrite E in T. cbn [final w_tsd] in T. unfold pthread_exit. rewrite T. reflexivity.
Qed.

(** With fuel for every byte, the loop that finds a well-framed packet
    after sync-free bytes ends in [vbus_fini], and its log holds the reads up
    to the end of the packet and then the delivery. *)
Lemma loop_delivery (fuel : nat) (junk : list byte) (sync : byte)
      (hdr : list byte) (fs : list (list byte)) (rest : list byte) (w : world) :
  w_input w = junk ++ sync :: hdr ++ concat fs ++ rest ->
  Forall not_sync junk -> byte.unsigned sync = VBUS_SYNC ->
  good_header hdr -> Z.of_nat (length fs) = rd hdr 7 -> Forall good_frame fs ->
  hd true (w_heap w) = true ->
  (length (w_input w) < fuel)%nat ->
  exists w' after,
    vbus_loop fuel sc w = Exit 0 w' /\
    w_log w' = (w_log w ++ reads (junk ++ sync :: hdr ++ concat fs))
               ++ EvFilter (Some (packet_of hdr fs)) :: after.
Proof.
  intros Hin Hj Hs Hh Hn Hfs Hheap Hfuel.
  assert (Hlen : (length junk + S (length rest) <= length (w_input w))%nat).
  { rewrite Hin, length_app. cbn [length]. rewrite !length_app. lia. }
  replace fuel with (length junk + S (fuel - length junk - 1))%nat by lia.
  rewrite (vbus_loop_packet sc _ junk sync hdr fs rest w has_handler Hin Hj Hs Hh Hn Hfs Hheap).
  match goal with |- context [vbus_loop ?f sc ?w2] =>
    destruct (vbus_loop_exits sc f w2 has_handler) as (w' & run & E & (L & _)) end.
  { cbn [emit advance w_input]. lia. }
  exists w', (run ++ [EvRead None]). split; [exact E |].
  rewrite L. cbn [emit advance pop_heap w_log]. rewrite <- !app_assoc. reflexivity.
Qed.

End Delivered.

(** X4.  A worker with a handler that meets, after bytes none of which is
    the sync byte, a sync byte, a good header and as many good frames as the
    header announces, hands the handler the packet decoded from them, provided
    the allocation of the packet succeeds; the worker then runs on to the end
    of the input and terminates. *)
Theorem framed_packet_delivered
        (sc : vbus_softc) (w : world) (junk : list byte) (sync : byte)
        (hdr : list byte) (fs : list (list byte)) (rest : list byte) :
  filter sc = true ->
  w_input w = junk ++ sync :: hdr ++ concat fs ++ rest ->
  Forall not_sync junk -> byte.unsigned sync = VBUS_SYNC ->
  good_header hdr -> Z.of_nat (length fs) = rd hdr 7 -> Forall good_frame fs ->
  hd true (w_heap w) = true ->
  fst (run_worker 0 sc w) = Terminated 0 /\
  In (EvFilter (Some (packet_of hdr fs))) (w_log (snd (run_worker 0 sc w))).
Proof.
  intros Flt Hin Hj Hs Hh Hn Hfs Hheap.
  destruct (loop_delivery sc Flt (S (length (w_input w))) junk sync hdr fs rest
              (mk_world (w_input w) (w_eof w) (w_errno w) (w_heap w) (Some sc) (w_log w))
              Hin Hj Hs Hh Hn Hfs Hheap) as (w' & after & E & L); [cbn; lia |].
  rewrite (run_worker_exit sc w 0 w' E). cbn [fst snd log_all w_log].
  split; [reflexivity |]. rewrite L. apply in_or_app. left.
  apply in_or_app. right. left. reflexivity.
Qed.

Lemma framed_packet_delivered_witness :
  In (EvFilter (Some (packet_of
        [Byte.x10; Byte.x00; Byte.x15; Byte.x7e; Byte.x10; Byte.x00; Byte.x01;
         Byte.x01; Byte.x4a]
        [[Byte.x01; Byte.x00; Byte.x00; Byte.x00; Byte.x02; Byte.x7c]])))
     (w_log (snd (run_worker 0 (mk_softc 3 false true)
        (mk_world [Byte.x05; Byte.xaa; Byte.x10; Byte.x00; Byte.x15; Byte.x7e;
                   Byte.x10; Byte.x00; Byte.x01; Byte.x01; Byte.x4a;
                   Byte.x01; Byte.x00; Byte.x00; Byte.x00; Byte.x02; Byte.x7c;
                   Byte.x33]
                  None 0 [] None [])))).
Proof.
  refine (proj2 (framed_packet_delivered (mk_softc 3 false true)
           (mk_world [Byte.x05; Byte.xaa; Byte.x10; Byte.x00; Byte.x15; Byte.x7e;
                      Byte.x10; Byte.x00; Byte.x01; Byte.x01; Byte.x4a;
                      Byte.x01; Byte.x00; Byte.x00; Byte.x00; Byte.x02; Byte.x7c;
                      Byte.x33]
                     None 0 [] None [])
           [Byte.x05] Byte.xaa
           [Byte.x10; Byte.x00; Byte.x15; Byte.x7e; Byte.x10; Byte.x00; Byte.x01;
            Byte.x01; Byte.x4a]
           [[Byte.x01; Byte.x00; Byte.x00; Byte.x00; Byte.x02; Byte.x7c]]
           [Byte.x33] _ _ _ _ _ _ _ _)).
  - reflexivity.
  - reflexivity.
  - repeat constructor. vm_compute. discriminate.
  - reflexivity.
  - split; [reflexivity | split; [repeat constructor | vm_compute; reflexivity]].
  - reflexivity.
  - repeat constructor.
  - reflexivity.
Defined.

(** X5.  Two well-framed packets, each after sync-free bytes, are both
    delivered, the first before the second, when both allocations succeed. *)
Theorem packets_delivered_in_order
        (sc : vbus_softc) (w : world)
        (j1 : list byte) (s1 : byte) (h1 : list byte) (f1 : list (list byte))
        (j2 : list byte) (s2 : byte) (h2 : list byte) (f2 : list (list byte))
        (rest : list byte) :
  filter sc = true ->
  w_input w = j1 ++ s1 :: h1 ++ concat f1 ++ j2 ++ s2 :: h2 ++ concat f2 ++ rest ->
  Forall not_sync j1 -> byte.unsigned s1 = VBUS_SYNC ->
  good_header h1 -> Z.of_nat (length f1) = rd h1 7 -> Forall good_frame f1 ->
  Forall not_sync j2 -> byte.unsigned s2 = VBUS_SYNC ->
  good_header h2 -> Z.of_nat (length f2) = rd h2 7 -> Forall good_frame f2 ->
  hd true (w_heap w) = true -> hd true (tl (w_heap w)) = true ->
  exists l1 l2 l3,
    w_log (snd (run_worker 0 sc w))
    = l1 ++ EvFilter (Some (packet_of h1 f1)) :: l2
         ++ EvFilter (Some (packet_of h2 f2)) :: l3.
Proof.
  intros Flt Hin Hj1 Hs1 Hh1 Hn1 Hf1 Hj2 Hs2 Hh2 Hn2 Hf2 Hm1 Hm2.
  set (w0 := mk_world (w_input w) (w_eof w) (w_errno w) (w_heap w) (Some sc) (w_log w)).
  set (rest1 := j2 ++ s2 :: h2 ++ concat f2 ++ rest) in *.
  assert (Hlen : (length j1 + S (length rest1) <= length (w_input w))%nat).
  { rewrite Hin, length_app. cbn [length]. rewrite !length_app. lia. }
  assert (E1 : vbus_loop (S (length (w_input w))) sc w0
               = vbus_loop (length (w_input w) - length j1) sc
                   (emit (EvFilter (Some (packet_of h1 f1)))
                      (advance (j1 ++ s1 :: h1 ++ concat f1) rest1 (pop_heap w0)))).
  { replace (S (length (w_input w)))
      with (length j1 + S (length (w_input w) - length j1))%nat by lia.
    apply (vbus_loop_packet sc _ j1 s1 h1 f1 rest1 w0 Flt Hin Hj1 Hs1 Hh1 Hn1 Hf1 Hm1). }
  destruct (loop_delivery sc Flt (length (w_input w) - length j1) j2 s2 h2 f2 rest
              (emit (EvFilter (Some (packet_of h1 f1)))
                 (advance (j1 ++ s1 :: h1 ++ concat f1) rest1 (pop_heap w0)))
              eq_refl Hj2 Hs2 Hh2 Hn2 Hf2 Hm2) as (w' & after & E2 & L).
  { cbn [emit advance w_input]. lia. }
  rewrite <- E1 in E2. rewrite (run_worker_exit sc w 0 w' E2).
  cbn [snd log_all w_log]. rewrite L. cbn [emit advance pop_heap w_log w0].
  exists (w_log w ++ reads (j1 ++ s1 :: h1 ++ concat f1)),
         (reads (j2 ++ s2 :: h2 ++ concat f2)),
         (after ++ vbus_cleanup (Some sc)).
  repeat (progress (rewrite <- ?app_assoc; cbn [app])). reflexivity.
Qed.

Lemma packets_delivered_in_order_witness :
  exists l1 l2 l3,
    w_log (snd (run_worker 0 (mk_softc 3 false true)
      (mk_world [Byte.xaa; Byte.x00; Byte.x00; Byte.x00; Byte.x00; Byte.x00;
                 Byte.x00; Byte.x00; Byte.x00; Byte.x7f;
                 Byte.x11;
                 Byte.xaa; Byte.x01; Byte.x00; Byte.x00; Byte.x00; Byte.x00;
                 Byte.x00; Byte.x00; Byte.x00; Byte.x7e]
                None 0 [] None [])))
    = l1 ++ EvFilter (Some (packet_of [Byte.x00; Byte.x00; Byte.x00; Byte.x00;
                                       Byte.x00; Byte.x00; Byte.x00; Byte.x00;
                                       Byte.x7f] [])) :: l2
         ++ EvFilter (Some (packet_of [Byte.x01; Byte.x00; Byte.x00; Byte.x00;
                                       Byte.x00; Byte.x00; Byte.x00; Byte.x00;
                                       Byte.x7e] [])) :: l3.
Proof.
  apply (packets_delivered_in_order (mk_softc 3 false true)
           (mk_world [Byte.xaa; Byte.x00; Byte.x00; Byte.x00; Byte.x00; Byte.x00;
                      Byte.x00; Byte.x00; Byte.x00; Byte.x7f;
                      Byte.x11;
                      Byte.xaa; Byte.x01; Byte.x00; Byte.x00; Byte.x00; Byte.x00;
                      Byte.x00; Byte.x00; Byte.x00; Byte.x7e]
                     None 0 [] None [])
           [] Byte.xaa
           [Byte.x00; Byte.x00; Byte.x00; Byte.x00; Byte.x00; Byte.x00; Byte.x00;
            Byte.x00; Byte.x7f] []
           [Byte.x11] Byte.xaa
           [Byte.x01; Byte.x00; Byte.x00; Byte.x00; Byte.x00; Byte.x00; Byte.x00;
            Byte.x00; Byte.x7e] []
           []).
  - reflexivity.
  - reflexivity.
  - constructor.
  - reflexivity.
  - split; [reflexivity | split; [repeat constructor | vm_compute; reflexivity]].
  - reflexivity.
  - constructor.
  - constructor; [vm_compute; discriminate | constructor].
  - reflexivity.
  - split; [reflexivity | split; [repeat constructor | vm_compute; reflexivity]].
  - reflexivity.
  - constructor.
  - reflexivity.
  - reflexivity.
Defined.

(** X6.  A header that is cut short by a byte with its top bit set is
    abandoned and that byte is consumed with it: when only wire-clean bytes
    follow, no packet is delivered.  This holds when the byte is itself a sync
    byte and what follows is a complete, well-framed header with its frames:
    that packet is passed over. *)
Theorem interrupting_byte_is_consumed
        (rc : Z) (sc : vbus_softc) (w : world) (sync : byte) (pre : list byte)
        (b : byte) (body : list byte) (p : vbus_pkt) :
  w_input w = sync :: pre ++ b :: body ->
  byte.unsigned sync = VBUS_SYNC ->
  (length pre < 9)%nat -> Forall clean pre -> top_bit b = true ->
  Forall clean body ->
  In (EvFilter (Some p)) (w_log (snd (run_worker rc sc w))) ->
  In (EvFilter (Some p)) (w_log w).
Proof.
  intros Hin Hs Hl Hc Hb Hbody H.
  apply run_worker_log in H. destruct H as [H | [H | (_ & H)]].
  - exact H.
  - exfalso. exact (cleanup_no_packet _ _ H).
  - rewrite (vbus_loop_abort sc (length (w_input w)) sync pre b body
               (mk_world (w_input w) (w_eof w) (w_errno w) (w_heap w) (Some sc) (w_log w))
               Hin Hs Hl Hc Hb) in H.
    apply vbus_loop_sound in H. cbn [advance w_log w_input] in H.
    destruct H as [H | H].
    + apply in_app_or in H. destruct H as [H | H]; [exact H |].
      exfalso. exact (reads_no_filter _ _ H).
    + exfalso. destruct H as (a & s & hdr & fs & post & E & Hs' & _).
      rewrite E in Hbody. apply Forall_app in Hbody. destruct Hbody as (_ & Hbody).
      inversion Hbody as [| ? ? Hcs _]. exact (top_bit_not_sync s Hcs Hs').
Qed.

Lemma interrupting_byte_is_consumed_witness :
  In (EvFilter (Some (mk_pkt 0 0 0 0 0 []))) [EvFilter (Some (mk_pkt 0 0 0 0 0 []))].
Proof.
  apply (interrupting_byte_is_consumed 0 (mk_softc 3 false true)
           (mk_world [Byte.xaa; Byte.x10; Byte.xaa;
                      Byte.x00; Byte.x00; Byte.x00; Byte.x00; Byte.x00; Byte.x00;
                      Byte.x00; Byte.x00; Byte.x7f]
                     None 0 [] None [EvFilter (Some (mk_pkt 0 0 0 0 0 []))])
           Byte.xaa [Byte.x10] Byte.xaa
           [Byte.x00; Byte.x00; Byte.x00; Byte.x00; Byte.x00; Byte.x00;
            Byte.x00; Byte.x00; Byte.x7f]).
  - reflexivity.
  - reflexivity.
  - cbn. lia.
  - repeat constructor.
  - reflexivity.
  - repeat constructor.
  - vm_compute. left. reflexivity.
Defined.

(** X7.  Resynchronisation: after a header cut short by a byte with its top
    bit set, and any sync-free bytes, the next well-framed packet is
    delivered. *)
Theorem resynchronises_after_abort
        (sc : vbus_softc) (w : world) (s0 : byte) (pre : list byte) (b : byte)
        (junk : list byte) (sync : byte) (hdr : list byte)
        (fs : list (list byte)) (rest : list byte) :
  filter sc = true ->
  w_input w = s0 :: pre ++ b :: junk ++ sync :: hdr ++ concat fs ++ rest ->
  byte.unsigned s0 = VBUS_SYNC ->
  (length pre < 9)%nat -> Forall clean pre -> top_bit b = true ->
  Forall not_sync junk -> byte.unsigned sync = VBUS_SYNC ->
  good_header hdr -> Z.of_nat (length fs) = rd hdr 7 -> Forall good_frame fs ->
  hd true (w_heap w) = true ->
  In (EvFilter (Some (packet_of hdr fs))) (w_log (snd (run_worker 0 sc w))).
Proof.
  intros Flt Hin Hs0 Hl Hc Hb Hj Hs Hh Hn Hfs Hheap.
  set (w0 := mk_world (w_input w) (w_eof w) (w_errno w) (w_heap w) (Some sc) (w_log w)).
  set (tail := junk ++ sync :: hdr ++ concat fs ++ rest) in *.
  pose proof (vbus_loop_abort sc (length (w_input w)) s0 pre b tail w0 Hin Hs0 Hl Hc Hb)
    as E1.
  destruct (loop_delivery sc Flt (length (w_input w)) junk sync hdr fs rest
              (advance (s0 :: pre ++ [b]) tail w0) eq_refl Hj Hs Hh Hn Hfs Hheap)
    as (w' & after & E2 & L).
  { cbn [advance w_input]. rewrite Hin. cbn [length]. rewrite length_app.
    cbn [length]. lia. }
  rewrite <- E1 in E2. rewrite (run_worker_exit sc w 0 w' E2).
  cbn [snd log_all w_log]. rewrite L.
  apply in_or_app. left. apply in_or_app. right. left. reflexivity.
Qed.

Lemma resynchronises_after_abort_witness :
  In (EvFilter (Some (packet_of [Byte.x00; Byte.x00; Byte.x00; Byte.x00; Byte.x00;
                                 Byte.x00; Byte.x00; Byte.x00; Byte.x7f] [])))
     (w_log (snd (run_worker 0 (mk_softc 3 false true)
        (mk_world [Byte.xaa; Byte.x10; Byte.x80; Byte.x22;
                   Byte.xaa; Byte.x00; Byte.x00; Byte.x00; Byte.x00; Byte.x00;
                   Byte.x00; Byte.x00; Byte.x00; Byte.x7f]
                  None 0 [] None [])))).
Proof.
  apply (resynchronises_after_abort (mk_softc 3 false true)
           (mk_world [Byte.xaa; Byte.x10; Byte.x80; Byte.x22;
                      Byte.xaa; Byte.x00; Byte.x00; Byte.x00; Byte.x00; Byte.x00;
                      Byte.x00; Byte.x00; Byte.x00; Byte.x7f]
                     None 0 [] None [])
           Byte.xaa [Byte.x10] Byte.x80 [Byte.x22] Byte.xaa
           [Byte.x00; Byte.x00; Byte.x00; Byte.x00; Byte.x00; Byte.x00; Byte.x00;
            Byte.x00; Byte.x7f] [] []).
  - reflexivity.
  - reflexivity.
  - reflexivity.
  - cbn. lia.
  - repeat constructor.
  - reflexivity.
  - constructor; [vm_compute; discriminate | constructor].
  - reflexivity.
  - split; [reflexivity | split; [repeat constructor | vm_compute; reflexivity]].
  - reflexivity.
  - constructor.
  - reflexivity.
Defined.

(** ** Every byte once *)

Section Consumption.

Variable sc : vbus_softc.
Hypothesis has_handler : filter sc = true.

Lemma bytes_read_app (a b : list event) :
  bytes_read (a ++ b) = bytes_read a ++ bytes_read b.
Proof. apply flat_map_app. Qed.

Lemma bytes_read_reads (bs : list byte) : bytes_read (reads bs) = bs.
Proof. induction bs as [| b bs IH]; cbn; [reflexivity | f_equal; exact IH]. Qed.

Lemma reads_from_bytes (w w' : world) (bs : list byte) :
  reads_from w bs w' -> bytes_read (w_log w') = bytes_read (w_log w) ++ bs.
Proof.
  intros (_ & L & _). rewrite L, bytes_read_app, bytes_read_reads. reflexivity.
Qed.

Lemma stops_from_bytes (w w' : world) (bs : list byte) :
  stops_from w bs w' -> bytes_read (w_log w') = bytes_read (w_log w) ++ bs.
Proof.
  intros (_ & _ & L & _). rewrite L, !bytes_read_app, bytes_read_reads. cbn.
  rewrite app_nil_r. reflexivity.
Qed.

Lemma vbus_loop_reads_all (fuel : nat) (w : world) :
  (length (w_input w) < fuel)%nat ->
  exists w', vbus_loop fuel sc w = Exit 0 w' /\
             bytes_read (w_log w') = bytes_read (w_log w) ++ w_input w.
Proof.
  revert w. induction fuel as [| fuel IH]; intros w Hlen; [lia |].
  cbn [vbus_loop]. unfold bind. pose proof (vbus_getc_spec sc w) as G.
  destruct (vbus_getc sc w) as [ch w1 | rv w1 | w1 | w1]; try contradiction.
  - pose proof (reads_from_bytes _ _ _ G) as B1. pose proof G as (I1 & _).
    cbn [app] in I1.
    assert (Hlt : (length (w_input w1) < fuel)%nat)
      by (rewrite I1 in Hlen; cbn [length] in Hlen; lia).
    destruct (byte.unsigned ch =? VBUS_SYNC); cbn [negb].
    + pose proof (vbus_packet_spec sc w1) as P.
      destruct (vbus_packet sc w1) as [[|] w2 | rv w2 | w2 | w2]; try contradiction.
      * destruct P as (_ & hdr & fs & q & w1' & _ & _ & _ & _ & Hr & ->).
        pose proof (reads_from_bytes _ _ _ Hr) as B2. pose proof Hr as (I2 & _).
        destruct (IH (emit (EvFilter (Some q)) w1')) as (w' & E & B).
        { cbn [emit w_input]. rewrite I2, length_app in Hlt. lia. }
        exists w'. split; [exact E |]. rewrite B. cbn [emit w_log w_input].
        rewrite bytes_read_app, B2, B1, I1, I2. cbn [bytes_read flat_map].
        rewrite app_nil_r, <- !app_assoc. reflexivity.
      * destruct P as (bs & Hr).
        pose proof (reads_from_bytes _ _ _ Hr) as B2. pose proof Hr as (I2 & _).
        destruct (IH w2) as (w' & E & B); [rewrite I2, length_app in Hlt; lia |].
        exists w'. split; [exact E |]. rewrite B, B2, B1, I1, I2, <- !app_assoc.
        reflexivity.
      * destruct P as (-> & Hs). exists w2. split; [reflexivity |].
        rewrite (stops_from_bytes _ _ _ Hs), B1, I1, <- app_assoc. reflexivity.
      * destruct P as (Hf & _). congruence.
    + destruct (IH w1 Hlt) as (w' & E & B). exists w'. split; [exact E |].
      rewrite B, B1, I1, <- app_assoc. reflexivity.
  - destruct G as (-> & Hs). exists w1. split; [reflexivity |].
    rewrite (stops_from_bytes _ _ _ Hs). destruct Hs as (-> & _). reflexivity.
Qed.

Lemma bytes_read_cleanup (x : option vbus_softc) : bytes_read (vbus_cleanup x) = [].
Proof.
  destruct x as [s |]; [| reflexivity]. cbn.
  destruct (do_stty s), (negb (fd s =? -1)), (filter s); reflexivity.
Qed.

End Consumption.

(** X8.  A worker with a handler reads every byte of its input exactly once
    and in order, whatever happens to the packets in it: the bytes its [read]
    calls returned are the input, no byte is skipped and none is read
    twice. *)
Theorem every_byte_read_once (sc : vbus_softc) (w : world) :
  filter sc = true ->
  bytes_read (w_log (snd (run_worker 0 sc w)))
  = bytes_read (w_log w) ++ w_input w.
Proof.
  intros Flt.
  destruct (vbus_loop_reads_all sc Flt (S (length (w_input w)))
              (mk_world (w_input w) (w_eof w) (w_errno w) (w_heap w) (Some sc) (w_log w)))
    as (w' & E & B); [cbn; lia |].
  rewrite (run_worker_exit sc w 0 w' E). cbn [snd log_all w_log].
  rewrite bytes_read_app, bytes_read_cleanup, app_nil_r. exact B.
Qed.

Lemma every_byte_read_once_witness :
  bytes_read (w_log (snd (run_worker 0 (mk_softc 3 false true)
     (mk_world [Byte.xaa; Byte.x10; Byte.xaa; Byte.x00] None 0 [] None []))))
  = bytes_read [] ++ [Byte.xaa; Byte.x10; Byte.xaa; Byte.x00].
Proof.
  apply (every_byte_read_once (mk_softc 3 false true)
           (mk_world [Byte.xaa; Byte.x10; Byte.xaa; Byte.x00] None 0 [] None [])).
  reflexivity.
Defined.

(** X9.  When [pthread_setspecific] fails the worker reads no byte and
    delivers no packet: it runs the teardown at once, and that is all it does
    before it terminates. *)
Theorem key_failure_reads_nothing (rc : Z) (sc : vbus_softc) (w : world) :
  rc <> 0 ->
  (exists rv, fst (run_worker rc sc w) = Terminated rv) /\
  w_input (snd (run_worker rc sc w)) = w_input w /\
  w_log (snd (run_worker rc sc w)) = w_log w ++ vbus_cleanup (Some sc).
Proof.
  intros Hrc. unfold run_worker, vbus_thread, bind, pthread_setspecific.
  apply Z.eqb_neq in Hrc. rewrite Hrc. cbn [negb]. rewrite Hrc. cbn [negb].
  unfold pthread_exit. cbn. split; [eexists; reflexivity | auto].
Qed.

Lemma key_failure_reads_nothing_witness :
  w_log (snd (run_worker 11 (mk_softc 3 true true)
                 (mk_world [Byte.xaa] None 7 [] None [EvSpawn])))
  = [EvSpawn] ++ vbus_cleanup (Some (mk_softc 3 true true)).
Proof.
  refine (proj2 (proj2 (key_failure_reads_nothing 11 (mk_softc 3 true true)
                          (mk_world [Byte.xaa] None 7 [] None [EvSpawn]) _))).
  discriminate.
Defined.

(** X10.  [vbus_thread] calls the handler without testing it: with a NULL
    handler the first well-framed packet, once read to its end, makes the
    thread call through NULL; nothing is delivered and no teardown runs. *)
Theorem null_handler_faults_on_packet
        (sc : vbus_softc) (w : world) (junk : list byte) (sync : byte)
        (hdr : list byte) (fs : list (list byte)) (rest : list byte) :
  filter sc = false ->
  w_input w = junk ++ sync :: hdr ++ concat fs ++ rest ->
  Forall not_sync junk -> byte.unsigned sync = VBUS_SYNC ->
  good_header hdr -> Z.of_nat (length fs) = rd hdr 7 -> Forall good_frame fs ->
  hd true (w_heap w) = true ->
  exists w',
    vbus_thread (S (length (w_input w))) 0 sc w = Fault w' /\
    w_input w' = rest /\
    w_log w' = w_log w ++ reads (junk ++ sync :: hdr ++ concat fs).
Proof.
  intros Flt Hin Hj Hs Hh Hn Hfs Hheap.
  unfold vbus_thread, bind, pthread_setspecific. cbn [Z.eqb negb].
  set (w0 := mk_world _ _ _ _ (Some sc) _).
  assert (Hlen : (length junk < S (length (w_input w)))%nat).
  { rewrite Hin, length_app. lia. }
  replace (S (length (w_input w)))
    with (length junk + S (length (w_input w) - length junk))%nat by lia.
  rewrite (vbus_loop_hunt sc junk (sync :: hdr ++ concat fs ++ rest) _ w0 Hin Hj).
  rewrite (vbus_loop_sync sc _ sync (hdr ++ concat fs ++ rest)
             (advance junk (sync :: hdr ++ concat fs ++ rest) w0) eq_refl Hs).
  rewrite (vbus_packet_run sc hdr fs rest
             (advance [sync] (hdr ++ concat fs ++ rest)
                (advance junk (sync :: hdr ++ concat fs ++ rest) w0))
             eq_refl Hh Hn Hfs Hheap), Flt.
  eexists. split; [reflexivity |]. split; [reflexivity |].
  cbn [advance pop_heap w_log w0]. unfold reads.
  repeat (rewrite map_app; cbn [map app]).
  repeat (rewrite <- app_assoc; cbn [app]). reflexivity.
Qed.

Lemma null_handler_faults_on_packet_witness :
  exists w',
    vbus_thread 11 0 (mk_softc 3 false false)
       (mk_world [Byte.xaa; Byte.x00; Byte.x00; Byte.x00; Byte.x00; Byte.x00;
                  Byte.x00; Byte.x00; Byte.x00; Byte.x7f]
                 None 0 [] None [])
    = Fault w' /\
    w_input w' = [] /\
    w_log w' = [] ++ reads ([] ++ Byte.xaa :: [Byte.x00; Byte.x00; Byte.x00; Byte.x00;
                                               Byte.x00; Byte.x00; Byte.x00; Byte.x00;
                                               Byte.x7f] ++ concat []).
Proof.
  apply (null_handler_faults_on_packet (mk_softc 3 false false)
           (mk_world [Byte.xaa; Byte.x00; Byte.x00; Byte.x00; Byte.x00; Byte.x00;
                      Byte.x00; Byte.x00; Byte.x00; Byte.x7f]
                     None 0 [] None [])
           [] Byte.xaa
           [Byte.x00; Byte.x00; Byte.x00; Byte.x00; Byte.x00; Byte.x00; Byte.x00;
            Byte.x00; Byte.x7f] [] []).
  - reflexivity.
  - reflexivity.
  - constructor.
  - reflexivity.
  - split; [reflexivity | split; [repeat constructor | vm_compute; reflexivity]].
  - reflexivity.
  - constructor.
  - reflexivity.
Defined.

(** X11.  One pass of the reader ends in a delivery exactly when a handler
    is installed, the bytes after the sync byte are a good header and as many
    good frames as it announces, and the allocation succeeds; the pass has
    then read exactly those bytes, made one allocation and handed over the
    packet they decode to. *)
Theorem pass_delivers_iff (sc : vbus_softc) (w w' : world) :
  vbus_packet sc w = Ok true w' <->
  (filter sc = true /\
   exists hdr fs,
     good_header hdr /\ Z.of_nat (length fs) = rd hdr 7 /\ Forall good_frame fs /\
     hd true (w_heap w) = true /\
     w_input w = hdr ++ concat fs ++ w_input w' /\
     w' = emit (EvFilter (Some (packet_of hdr fs)))
               (advance (hdr ++ concat fs) (w_input w') (pop_heap w))).
Proof.
  split.
  - apply vbus_packet_inv.
  - intros (Flt & hdr & fs & Hh & Hn & Hfs & Hheap & Hin & E).
    rewrite (vbus_packet_run sc hdr fs (w_input w') w Hin Hh Hn Hfs Hheap), Flt.
    rewrite <- E. reflexivity.
Qed.

(** X12.  A complete, wire-clean header that fails its checksum, or for
    which the allocation fails, ends the pass after exactly its nine bytes:
    the handler is not called, and the allocation is attempted only when the
    checksum has passed.  The frames that follow are left to the hunt for the
    next sync byte. *)
Theorem rejected_header_skipped
        (sc : vbus_softc) (hdr rest : list byte) (w : world) :
  w_input w = hdr ++ rest -> length hdr = 9%nat -> Forall clean hdr ->
  vbus_crc_ok hdr VBUS_WIRE_HDR = false \/ hd true (w_heap w) = false ->
  exists w',
    vbus_packet sc w = Ok false w' /\
    w_input w' = rest /\
    w_log w' = w_log w ++ reads hdr /\
    w_heap w' = (if vbus_crc_ok hdr VBUS_WIRE_HDR then tl (w_heap w) else w_heap w).
Proof.
  intros Hin Hl Hc Hrej.
  rewrite (vbus_packet_header_rejected sc hdr rest w Hin Hl Hc Hrej).
  eexists. split; [reflexivity |]. cbn [advance w_input w_log w_heap].
  split; [reflexivity |].
  destruct (vbus_crc_ok hdr VBUS_WIRE_HDR); cbn [pop_heap w_log w_heap]; auto.
Qed.

Lemma rejected_header_skipped_witness :
  exists w',
    vbus_packet (mk_softc 3 false true)
       (mk_world [Byte.x00; Byte.x00; Byte.x00; Byte.x00; Byte.x00; Byte.x00;
                  Byte.x00; Byte.x00; Byte.x7f; Byte.x55]
                 None 0 [false] None [])
    = Ok false w' /\
    w_input w' = [Byte.x55] /\
    w_log w' = [] ++ reads [Byte.x00; Byte.x00; Byte.x00; Byte.x00; Byte.x00;
                            Byte.x00; Byte.x00; Byte.x00; Byte.x7f] /\
    w_heap w' = (if vbus_crc_ok [Byte.x00; Byte.x00; Byte.x00; Byte.x00; Byte.x00;
                                 Byte.x00; Byte.x00; Byte.x00; Byte.x7f] VBUS_WIRE_HDR
                 then tl [false] else [false]).
Proof.
  apply (rejected_header_skipped (mk_softc 3 false true)
           [Byte.x00; Byte.x00; Byte.x00; Byte.x00; Byte.x00; Byte.x00; Byte.x00;
            Byte.x00; Byte.x7f] [Byte.x55]
           (mk_world [Byte.x00; Byte.x00; Byte.x00; Byte.x00; Byte.x00; Byte.x00;
                      Byte.x00; Byte.x00; Byte.x7f; Byte.x55]
                     None 0 [false] None [])).
  - reflexivity.
  - reflexivity.
  - repeat constructor.
  - right. reflexivity.
Defined.

(** ** The frame decoder and its destination *)

(** X13.  [vbus_read_frame] that returns has read between one and six bytes,
    six when it accepts; it returns 0 or -1; it makes no allocation; it
    writes nothing when it rejects, and when it accepts it writes the four
    cells [frame[0..3]] only: the array keeps its length and every other cell
    its content. *)
Theorem vbus_read_frame_footprint
        (sc : vbus_softc) (mem : list (option byte)) (off : Z) (w : world)
        (rc : Z) (mem' : list (option byte)) (w' : world) :
  vbus_read_frame sc mem off w = Ok (rc, mem') w' ->
  0 <= off ->
  (rc = 0 \/ rc = -1) /\
  (rc <> 0 -> mem' = mem) /\
  length mem' = length mem /\
  (forall j, (j < Z.to_nat off \/ Z.to_nat off + 4 <= j)%nat ->
             nth j mem' None = nth j mem None) /\
  w_heap w' = w_heap w /\
  exists bs, w_input w = bs ++ w_input w' /\
             (1 <= length bs <= 6)%nat /\ (rc = 0 -> length bs = 6%nat).
Proof.
  unfold vbus_read_frame, bind. intros E Hoff.
  pose proof (read_wire_spec sc (Z.to_nat VBUS_WIRE_FRAME) [] w) as R.
  destruct (read_wire sc (Z.to_nat VBUS_WIRE_FRAME) [] w)
    as [[buffer |] w1 | rv w1 | w1 | w1]; try discriminate.
  - destruct R as (bs & -> & Hl & _ & (Hi & _) & Hp). cbn [app] in E.
    assert (Hbs : exists bs0, w_input w = bs0 ++ w_input w1 /\
                              (1 <= length bs0 <= 6)%nat /\ length bs0 = 6%nat).
    { exists bs. rewrite Hl. cbn. split; [exact Hi | lia]. }
    destruct (negb (vbus_crc_ok bs VBUS_WIRE_FRAME)); unfold ret in E;
      injection E as <- <- <-.
    + split; [right; reflexivity |]. split; [reflexivity |]. split; [reflexivity |].
      split; [reflexivity |]. split; [exact Hp |].
      destruct Hbs as (bs0 & ? & ? & ?). exists bs0. auto.
    + split; [left; reflexivity |]. split; [intros H; contradiction |].
      unfold store_frame. split; [rewrite !poke_length; reflexivity |].
      split; [| split; [exact Hp |]].
      * intros j Hj. rewrite !poke_nth_other by lia. reflexivity.
      * destruct Hbs as (bs0 & ? & ? & ?). exists bs0. auto.
  - destruct R as (bs & b & Hl & _ & _ & (Hi & _) & Hp). unfold ret in E.
    injection E as <- <- <-.
    split; [right; reflexivity |]. split; [reflexivity |]. split; [reflexivity |].
    split; [reflexivity |]. split; [exact Hp |].
    exists (bs ++ [b]). split; [exact Hi |]. rewrite length_app. cbn in *.
    split; [lia | intros H; discriminate].
Qed.

Lemma vbus_read_frame_footprint_witness :
  length [Some Byte.x80; Some Byte.x80; Some Byte.x00; Some Byte.x00; None]
  = length [None; None; None; None; @None byte].
Proof.
  refine (proj1 (proj2 (proj2
    (vbus_read_frame_footprint (mk_softc 0 false true)
       [None; None; None; None; None] 0
       (mk_world [Byte.x01; Byte.x00; Byte.x00; Byte.x00; Byte.x02; Byte.x7c]
                 None 0 [] None [])
       0 [Some Byte.x80; Some Byte.x80; Some Byte.x00; Some Byte.x00; None]
       (mk_world [] None 0 [] None
                 (reads [Byte.x01; Byte.x00; Byte.x00; Byte.x00; Byte.x02; Byte.x7c]))
       _ _)))).
  - vm_compute. reflexivity.
  - lia.
Defined.

(** ** More on the checksum *)

Section ChecksumMore.

Lemma total_perm (a b : list byte) : Permutation a b -> total a = total b.
Proof.
  unfold total. induction 1 as [| x a b _ IH | x y a | a b c _ IH1 _ IH2];
    cbn [map fold_right]; lia.
Qed.

Lemma span_length_bound (body body' : list byte) (c c' : byte) :
  length body' = length body ->
  Z.of_nat (length (body ++ [c])) <= INT_MAX ->
  Z.of_nat (length (body' ++ [c'])) <= INT_MAX.
Proof. rewrite !length_app. cbn [length]. intros ->. auto. Qed.

Lemma crc_verdicts_agree (body body' : list byte) (c : byte) :
  length body' = length body ->
  Spec.checksum body' = Spec.checksum body ->
  Z.of_nat (length (body ++ [c])) <= INT_MAX ->
  vbus_crc_ok (body' ++ [c]) (Z.of_nat (length (body' ++ [c])))
  = vbus_crc_ok (body ++ [c]) (Z.of_nat (length (body ++ [c]))).
Proof.
  intros Hl Hc Hb. apply eq_true_iff_eq.
  rewrite (vbus_crc_ok_span body c Hb).
  rewrite (vbus_crc_ok_span body' c (span_length_bound body body' c c Hl Hb)).
  rewrite Hc. reflexivity.
Qed.

End ChecksumMore.

(** X14.  For every body exactly one trailing byte makes [vbus_crc_ok]
    accept the span, and that byte has its top bit clear: a sender can always
    complete a span, in one way only, and the result is wire-clean in its last
    byte. *)
Theorem checksum_byte_unique (body : list byte) :
  Z.of_nat (length body) < INT_MAX ->
  exists c,
    top_bit c = false /\
    forall c', vbus_crc_ok (body ++ [c']) (Z.of_nat (length (body ++ [c']))) = true
               <-> c' = c.
Proof.
  intros Hlen. exists (byte.of_Z (Spec.checksum body)).
  pose proof (checksum_top_clear body) as Hc.
  assert (Hu : byte.unsigned (byte.of_Z (Spec.checksum body)) = Spec.checksum body).
  { rewrite byte.unsigned_of_Z. unfold byte.wrap. apply Z.mod_small.
    change (2 ^ 8) with 256. lia. }
  split.
  - unfold top_bit. rewrite Hu. apply negb_false_iff, Z.eqb_eq.
    apply land_80_zero_iff; lia.
  - intros c'. rewrite vbus_crc_ok_span by (rewrite length_app; cbn [length]; lia).
    split.
    + intros H. apply byte.unsigned_inj. congruence.
    + intros ->. exact Hu.
Qed.

Lemma checksum_byte_unique_witness :
  exists c,
    top_bit c = false /\
    forall c', vbus_crc_ok ([Byte.x34; Byte.x12] ++ [c'])
                           (Z.of_nat (length ([Byte.x34; Byte.x12] ++ [c']))) = true
               <-> c' = c.
Proof.
  apply (checksum_byte_unique [Byte.x34; Byte.x12]). vm_compute. reflexivity.
Defined.

(** X15.  [vbus_crc_ok] does not see the order of the bytes before the
    checksum byte: any permutation of them gets the same verdict. *)
Theorem checksum_ignores_order (body body' : list byte) (c : byte) :
  Permutation body body' ->
  Z.of_nat (length (body ++ [c])) <= INT_MAX ->
  vbus_crc_ok (body' ++ [c]) (Z.of_nat (length (body' ++ [c])))
  = vbus_crc_ok (body ++ [c]) (Z.of_nat (length (body ++ [c]))).
Proof.
  intros Hp Hb. apply crc_verdicts_agree; [| | exact Hb].
  - symmetry. apply Permutation_length. exact Hp.
  - rewrite !checksum_arith, (total_perm body body' Hp). reflexivity.
Qed.

Lemma checksum_ignores_order_witness :
  vbus_crc_ok ([Byte.x12; Byte.x34] ++ [Byte.x39])
              (Z.of_nat (length ([Byte.x12; Byte.x34] ++ [Byte.x39])))
  = vbus_crc_ok ([Byte.x34; Byte.x12] ++ [Byte.x39])
                (Z.of_nat (length ([Byte.x34; Byte.x12] ++ [Byte.x39]))).
Proof.
  apply (checksum_ignores_order [Byte.x34; Byte.x12] [Byte.x12; Byte.x34] Byte.x39).
  - apply perm_swap.
  - vm_compute. discriminate.
Defined.

(** X16.  [vbus_crc_ok] does not see the top bit of any byte before the
    checksum byte: replacing such a byte by one with the same low seven bits
    leaves the verdict as it was. *)
Theorem checksum_blind_to_top_bits
        (body : list byte) (c : byte) (i : nat) (b' : byte) :
  (i < length body)%nat ->
  byte.unsigned b' mod 128 = byte.unsigned (nth i body Byte.x00) mod 128 ->
  Z.of_nat (length (body ++ [c])) <= INT_MAX ->
  vbus_crc_ok (poke (body ++ [c]) i b') (Z.of_nat (length (body ++ [c])))
  = vbus_crc_ok (body ++ [c]) (Z.of_nat (length (body ++ [c]))).
Proof.
  intros Hi Hm Hb. rewrite poke_app_l by exact Hi.
  replace (length (body ++ [c])) with (length (poke body i b' ++ [c])) at 1
    by (rewrite !length_app, poke_length; reflexivity).
  apply crc_verdicts_agree; [apply poke_length | | exact Hb].
  rewrite !checksum_arith, total_poke by exact Hi.
  f_equal. Z.div_mod_to_equations. lia.
Qed.

Lemma checksum_blind_to_top_bits_witness :
  vbus_crc_ok (poke ([Byte.x34; Byte.x12] ++ [Byte.x39]) 0 Byte.xb4)
              (Z.of_nat (length ([Byte.x34; Byte.x12] ++ [Byte.x39])))
  = vbus_crc_ok ([Byte.x34; Byte.x12] ++ [Byte.x39])
                (Z.of_nat (length ([Byte.x34; Byte.x12] ++ [Byte.x39]))).
Proof.
  apply (checksum_blind_to_top_bits [Byte.x34; Byte.x12] Byte.x39 0 Byte.xb4).
  - cbn. lia.
  - vm_compute. reflexivity.
  - vm_compute. discriminate.
Defined.

(** ** More on the header decoder *)

(** X17.  [vbus_parse_header] loses nothing of a header it accepts: two
    9-byte headers that it decodes to the same destination, source, protocol
    revision, command and frame count are the same nine bytes. *)
Theorem header_decoding_injective
        (h1 h2 : list byte) (w1 w2 : world) (p1 p2 : vbus_pkt) (w1' w2' : world) :
  length h1 = 9%nat -> length h2 = 9%nat ->
  vbus_parse_header h1 w1 = Ok (Some p1) w1' ->
  vbus_parse_header h2 w2 = Ok (Some p2) w2' ->
  dst p1 = dst p2 -> src p1 = src p2 -> proto p1 = proto p2 ->
  cmd p1 = cmd p2 -> frames p1 = frames p2 ->
  h1 = h2.
Proof.
  intros L1 L2 E1 E2 Hd Hs Hp Hc Hf.
  pose proof (vbus_parse_header_spec h1 w1) as P1. rewrite E1 in P1.
  pose proof (vbus_parse_header_spec h2 w2) as P2. rewrite E2 in P2.
  destruct P1 as (C1 & _ & (D1 & S1 & R1 & M1 & F1) & _).
  destruct P2 as (C2 & _ & (D2 & S2 & R2 & M2 & F2) & _).
  destruct h1 as [| a0 [| a1 [| a2 [| a3 [| a4 [| a5 [| a6 [| a7 [| a8 [| ? ?]]]]]]]]]];
    try discriminate.
  destruct h2 as [| b0 [| b1 [| b2 [| b3 [| b4 [| b5 [| b6 [| b7 [| b8 [| ? ?]]]]]]]]]];
    try discriminate.
  unfold rd in *.
  change (Z.to_nat 0) with 0%nat in *. change (Z.to_nat 1) with 1%nat in *.
  change (Z.to_nat 2) with 2%nat in *. change (Z.to_nat 3) with 3%nat in *.
  change (Z.to_nat 4) with 4%nat in *. change (Z.to_nat 5) with 5%nat in *.
  change (Z.to_nat 6) with 6%nat in *. change (Z.to_nat 7) with 7%nat in *.
  cbn [nth] in D1, S1, R1, M1, F1, D2, S2, R2, M2, F2.
  rewrite D1, D2 in Hd. rewrite S1, S2 in Hs. rewrite R1, R2 in Hp.
  rewrite M1, M2 in Hc. rewrite F1, F2 in Hf.
  apply lor_shift_inj in Hd; try apply byte_range.
  apply lor_shift_inj in Hs; try apply byte_range.
  apply lor_shift_inj in Hc; try apply byte_range.
  destruct Hd as (H0 & H1). destruct Hs as (H2 & H3). destruct Hc as (H5 & H6).
  apply byte.unsigned_inj in H0, H1, H2, H3, Hp, H5, H6, Hf.
  subst a0 a1 a2 a3 a4 a5 a6 a7.
  apply (vbus_crc_ok_span [b0; b1; b2; b3; b4; b5; b6; b7] a8) in C1;
    [| vm_compute; discriminate].
  apply (vbus_crc_ok_span [b0; b1; b2; b3; b4; b5; b6; b7] b8) in C2;
    [| vm_compute; discriminate].
  assert (a8 = b8) by (apply byte.unsigned_inj; congruence).
  subst. reflexivity.
Qed.

Lemma header_decoding_injective_witness :
  [Byte.x34; Byte.x12; Byte.x00; Byte.x00; Byte.x01; Byte.x10; Byte.x00; Byte.x02;
   Byte.x26]
  = [Byte.x34; Byte.x12; Byte.x00; Byte.x00; Byte.x01; Byte.x10; Byte.x00; Byte.x02;
     Byte.x26].
Proof.
  eapply (header_decoding_injective _ _
            (mk_world [] None 0 [] None []) (mk_world [Byte.x00] None 0 [true] None []));
    try (vm_compute; reflexivity).
Defined.

(** ** More on start-up *)

Lemma vbus_init_success_inv
      (o : os) (fn : option string) (stty flt : bool)
      (sc : vbus_softc) (log : list event) :
  vbus_init o fn stty flt = InitDone (Some sc) log ->
  exists name,
    fn = Some name /\
    (os_vbus_key o <> 0 \/ os_key_create o = 0) /\
    os_malloc o = true /\
    os_open o name <> -1 /\
    (stty = true ->
     os_tcgetattr o (os_open o name) = 0 /\ os_tcsetattr o (os_open o name) = 0) /\
    os_pthread_create o = 0 /\
    sc = mk_softc (os_open o name) stty flt /\
    log = EvOpen name :: (if stty then [EvRawTty (os_open o name)] else []) ++ [EvSpawn].
Proof.
  unfold vbus_init, init_err.
  destruct (Z.eqb_spec (os_vbus_key o) 0) as [K | K];
    destruct (Z.eqb_spec (os_key_create o) 0) as [C | C];
    cbn [negb orb]; try discriminate;
    (destruct (os_malloc o) eqn:M; cbn [negb]; [| discriminate]);
    (destruct fn as [name |]; cbn [c_or option_map strcmp]; [| discriminate]);
    cbn [fd];
    (destruct (Z.eqb_spec (os_open o name) (-1)) as [O | O]; [discriminate |]);
    (destruct stty;
     [destruct (Z.eqb_spec (os_tcgetattr o (os_open o name)) 0) as [G | G];
      cbn [negb]; [| discriminate];
      destruct (Z.eqb_spec (os_tcsetattr o (os_open o name)) 0) as [T | T];
      cbn [negb]; [| discriminate] |]);
    (destruct (Z.eqb_spec (os_pthread_create o) 0) as [P | P];
     cbn [negb]; [| discriminate]);
    intros E; injection E as <- <-; exists name; cbn [fd app];
    repeat split; auto; try discriminate.
Qed.

(** X18.  [vbus_init] returns a cookie exactly when the path is not NULL, the
    key exists or is created, the worker state is allocated, [open] succeeds,
    the terminal is read and set to raw mode when that was asked for, and the
    thread is created.  The cookie then holds the descriptor [open] returned
    (never the standard input), and nothing has been closed, freed or
    reported to the handler. *)
Theorem vbus_init_succeeds_iff
        (o : os) (fn : option string) (stty flt : bool)
        (sc : vbus_softc) (log : list event) :
  vbus_init o fn stty flt = InitDone (Some sc) log <->
  exists name,
    fn = Some name /\
    (os_vbus_key o <> 0 \/ os_key_create o = 0) /\
    os_malloc o = true /\
    os_open o name <> -1 /\
    (stty = true ->
     os_tcgetattr o (os_open o name) = 0 /\ os_tcsetattr o (os_open o name) = 0) /\
    os_pthread_create o = 0 /\
    sc = mk_softc (os_open o name) stty flt /\
    log = EvOpen name :: (if stty then [EvRawTty (os_open o name)] else []) ++ [EvSpawn].
Proof.
  split.
  - apply vbus_init_success_inv.
  - unfold vbus_init, init_err.
    intros (name & -> & K & M & O & T & P & -> & ->).
    assert (HK : negb (os_vbus_key o =? 0) || (os_key_create o =? 0) = true).
    { destruct K as [K | K].
      - apply Z.eqb_neq in K. rewrite K. reflexivity.
      - rewrite K. apply orb_true_r. }
    rewrite HK, M. cbn [negb c_or fd]. apply Z.eqb_neq in O. rewrite O, P.
    destruct stty; cbn [negb Z.eqb app]; [| reflexivity].
    destruct (T eq_refl) as (-> & ->). reflexivity.
Qed.

(** X19.  When the key cannot be created or the worker state cannot be
    allocated, [vbus_init] returns NULL having done nothing else: no device
    is opened and the handler is not told. *)
Theorem vbus_init_fails_early
        (o : os) (fn : option string) (stty flt : bool) :
  (os_vbus_key o = 0 /\ os_key_create o <> 0) \/ os_malloc o = false ->
  vbus_init o fn stty flt = InitDone None [].
Proof.
  unfold vbus_init, init_err. intros [(K & C) | M].
  - rewrite K. apply Z.eqb_neq in C. rewrite C. reflexivity.
  - rewrite M. destruct (negb (os_vbus_key o =? 0) || (os_key_create o =? 0));
      reflexivity.
Qed.

Lemma vbus_init_fails_early_witness :
  vbus_init (mk_os 0 0 false (fun _ => 3) (fun _ => 0) (fun _ => 0) 0)
            (Some "/dev/ttyU0"%string) true true
  = InitDone None [].
Proof.
  apply (vbus_init_fails_early
           (mk_os 0 0 false (fun _ => 3) (fun _ => 0) (fun _ => 0) 0)).
  right. reflexivity.
Defined.

(** X20.  A start that fails after the worker state was allocated gives back
    what it took, in this order: the terminal is restored when it had been
    set to raw mode, the device is closed when it had been opened, the handler
    gets its NULL call, and the worker state is freed. *)
Theorem vbus_init_failure_releases
        (o : os) (fn : string) (stty flt : bool) (log : list event) :
  os_vbus_key o <> 0 \/ os_key_create o = 0 ->
  os_malloc o = true ->
  vbus_init o (Some fn) stty flt = InitDone None log ->
  exists raw : bool,
    (raw = true ->
     stty = true /\ os_tcsetattr o (os_open o fn) = 0 /\ os_pthread_create o <> 0) /\
    log = [EvOpen fn]
          ++ (if raw then [EvRawTty (os_open o fn); EvRestoreTty (os_open o fn)] else [])
          ++ (if os_open o fn =? -1 then [] else [EvClose (os_open o fn)])
          ++ (if flt then [EvFilter None] else [])
          ++ [EvFreeSc].
Proof.
  intros K M. unfold vbus_init, init_err.
  assert (HK : negb (os_vbus_key o =? 0) || (os_key_create o =? 0) = true).
  { destruct K as [K | K].
    - apply Z.eqb_neq in K. rewrite K. reflexivity.
    - rewrite K. apply orb_true_r. }
  rewrite HK, M. cbn [negb c_or fd]. unfold vbus_cleanup. cbn [fd do_stty filter].
  destruct (os_open o fn =? -1) eqn:O; cbn [negb].
  - intros E. injection E as <-. exists false. split; [discriminate | reflexivity].
  - destruct stty;
      [destruct (os_tcgetattr o (os_open o fn) =? 0); cbn [negb];
       [destruct (Z.eqb_spec (os_tcsetattr o (os_open o fn)) 0) as [T | T]; cbn [negb] |] |];
      try (destruct (Z.eqb_spec (os_pthread_create o) 0) as [P | P]; cbn [negb]);
      intros E; try discriminate; injection E as <-; cbn [fd do_stty filter];
      rewrite ?O; cbn [negb];
      first [ exists false; split; [discriminate | reflexivity]
            | exists true; split; [intros _; repeat split; assumption | reflexivity] ].
Qed.

Lemma vbus_init_failure_releases_witness :
  exists raw : bool,
    (raw = true -> true = true /\ 0 = 0 /\ 11 <> 0) /\
    [EvOpen "/dev/ttyU0"%string; EvRawTty 3; EvRestoreTty 3; EvClose 3;
     EvFilter None; EvFreeSc]
    = [EvOpen "/dev/ttyU0"%string]
      ++ (if raw then [EvRawTty 3; EvRestoreTty 3] else [])
      ++ (if 3 =? -1 then [] else [EvClose 3])
      ++ (if true then [EvFilter None] else [])
      ++ [EvFreeSc].
Proof.
  apply (vbus_init_failure_releases
           (mk_os 0 0 true (fun _ => 3) (fun _ => 0) (fun _ => 0) 11)
           "/dev/ttyU0"%string true true).
  - right. reflexivity.
  - reflexivity.
  - vm_compute. reflexivity.
Defined.

(** ** Start and run together *)

(** X21.  After a start that succeeds, the worker's run gives back all the
    start took: the log of both is the [open], the raw mode when asked for,
    the launch, then the reads and deliveries of the run, then the terminal
    restored when it had been set to raw mode, the descriptor that [open]
    returned closed, one NULL call of the handler, and the worker state
    freed. *)
Theorem start_then_run_releases
        (o : os) (fn : option string) (stty : bool) (sc : vbus_softc)
        (log0 : list event) (input : list byte) (eof : option Z) (en : Z)
        (heap : list bool) :
  vbus_init o fn stty true = InitDone (Some sc) log0 ->
  exists name rv w' run,
    fn = Some name /\
    run_worker 0 sc (mk_world input eof en heap None log0) = (Terminated rv, w') /\
    Forall run_event run /\
    w_log w'
    = [EvOpen name]
      ++ (if stty then [EvRawTty (os_open o name)] else [])
      ++ [EvSpawn] ++ run
      ++ (if stty then [EvRestoreTty (os_open o name)] else [])
      ++ [EvClose (os_open o name); EvFilter None; EvFreeSc].
Proof.
  intros E. apply vbus_init_success_inv in E.
  destruct E as (name & -> & _ & _ & O & _ & _ & -> & ->).
  destruct (run_worker_ends 0 (mk_softc (os_open o name) stty true)
              (mk_world input eof en heap None
                 (EvOpen name :: (if stty then [EvRawTty (os_open o name)] else [])
                              ++ [EvSpawn])) eq_refl)
    as (w' & run & R & L & F & _).
  exists name, 0, w', run. split; [reflexivity |]. split; [exact R |].
  split; [exact F |]. rewrite L. cbn [w_log vbus_cleanup do_stty fd filter].
  apply Z.eqb_neq in O. rewrite O. cbn [negb app].
  destruct stty; cbn [app]; rewrite <- ?app_assoc; reflexivity.
Qed.

Lemma start_then_run_releases_witness :
  exists name rv w' run,
    Some "/dev/ttyU0"%string = Some name /\
    run_worker 0 (mk_softc 3 true true)
       (mk_world [Byte.x01] None 0 [] None
                 [EvOpen "/dev/ttyU0"%string; EvRawTty 3; EvSpawn])
    = (Terminated rv, w') /\
    Forall run_event run /\
    w_log w'
    = [EvOpen name] ++ (if true then [EvRawTty 3] else [])
      ++ [EvSpawn] ++ run
      ++ (if true then [EvRestoreTty 3] else [])
      ++ [EvClose 3; EvFilter None; EvFreeSc].
Proof.
  apply (start_then_run_releases
           (mk_os 0 0 true (fun _ => 3) (fun _ => 0) (fun _ => 0) 0)
           (Some "/dev/ttyU0"%string) true (mk_softc 3 true true)
           [EvOpen "/dev/ttyU0"%string; EvRawTty 3; EvSpawn]
           [Byte.x01] None 0 []).
  vm_compute. reflexivity.
Defined.
